(** * Appointment and availability scheduling core

    A shallow embedding of the booking logic of the nutrition-practice
    backend: [app/models.py], [app/crud.py],
    [app/api/routes/appointments.py] and [app/api/routes/availability.py].

    The SQL session is a record of three tables, each a finite map from
    primary key to row.  Route handlers and CRUD helpers live in a state and
    exception monad over that record; a raised exception leaves whatever was
    committed before it.  Wall-clock readings are inputs of the handlers.
    Outbound e-mail is wrapped by the handlers in [try ... except: pass] and
    influences neither the stored state nor the response, so it has no
    counterpart here. *)

From Stdlib Require Import ZArith Lia ZifyBool.
From stdpp Require Import base gmap strings list sorting.

Local Open Scope Z_scope.

(** ** Python's [datetime] values *)

Module datetime.

(** A [date] is its proleptic Gregorian ordinal ([date.toordinal()]), a
    naive [time] the number of microseconds since midnight.  Comparison of
    either is comparison of these numbers. *)
Abbreviation date := Z (only parsing).
Abbreviation time := Z (only parsing).

Record datetime := combine { date_part : date; time_part : time }.

(** [date.weekday()]: Monday is 0; ordinal 1 (0001-01-01) is a Monday. *)
Definition weekday (d : date) : Z := (d + 6) mod 7.

(** [a < b] on naive datetimes: lexicographic on (date, time of day). *)
Definition lt (a b : datetime) : bool :=
  (date_part a <? date_part b)
  || ((date_part a =? date_part b) && (time_part a <? time_part b)).

(** Time of day [h:m:00]. *)
Definition hm (h m : Z) : time := ((h * 60 + m) * 60) * 1000000.

End datetime.

(** The two clock readings a handler takes: [datetime.now()] (naive local
    time, used by the future check) and [datetime.now(timezone.utc).date()]
    (used for the [created_at]/[updated_at] stamps). *)
Record clock := { now : datetime.datetime; utc_today : datetime.date }.

(** ** models.py *)

(** [uuid.UUID]: the 128-bit value as a number. *)
Abbreviation uuid := N (only parsing).

Inductive UserType := CLIENT | NUTRITIONIST | ADMIN.
Inductive AppointmentStatus := SCHEDULED | CANCELLED | COMPLETED.

#[global] Instance UserType_eq_dec : EqDecision UserType.
Proof. solve_decision. Defined.
#[global] Instance AppointmentStatus_eq_dec : EqDecision AppointmentStatus.
Proof. solve_decision. Defined.

(** A field of a PATCH payload whose model declares it [Optional[...] = None]:
    absent from the request body, present as JSON [null], or present with a
    value.  [model_dump(exclude_unset=True)] keeps the last two. *)
Inductive field (A : Type) := Unset | Null | Value (a : A).
Arguments Unset {A}.
Arguments Null {A}.
Arguments Value {A} a.

(** Truthiness of a payload field as the handlers test it ([if x.date or ...]):
    [None] is falsy, every [date] and (since Python 3.5) every [time] is
    truthy. *)
Definition truthy {A} (f : field A) : bool :=
  match f with Value _ => true | _ => false end.

(** [f or old] for such a field. *)
Definition field_or {A} (f : field A) (old : A) : A :=
  match f with Value v => v | _ => old end.

(** [x or y] where [x] is a [time] that is not optional: the payload model
    requires the field, and every [time] is truthy. *)
Definition time_or (x y : datetime.time) : datetime.time := x.

(** Assignment of a dumped field to a column that is NOT NULL: [None] stands
    for the constraint violation at commit. *)
Definition set_required {A} (f : field A) (old : A) : option A :=
  match f with Unset => Some old | Null => None | Value v => Some v end.

(** Assignment of a dumped field to a nullable column. *)
Definition set_nullable {A} (f : field A) (old : option A) : option A :=
  match f with Unset => old | Null => None | Value v => Some v end.

Module User.
Record t := mk {
  email : string;
  is_active : bool;
  is_superuser : bool;
  full_name : option string;
  user_type : UserType;
  hashed_password : string }.
End User.

(** [AvailabilityBase] and its subclasses.  [AvailabilityCreate] is the
    base; [AvailabilityUpdate] is the same class read through
    [exclude_unset], so its defaulted fields record whether they were sent;
    [Availability] is the table row (its [id] is the key of the table).
    [day_of_week] is declared [Field(ge=0, le=6)]: validation refuses other
    numbers in a payload, and no handler tests the bound itself, so the
    payloads here range over every integer. *)
Module AvailabilityCreate.
Record t := mk {
  day_of_week : option Z;
  start_time : datetime.time;
  end_time : datetime.time;
  is_recurring : bool;
  specific_date : option datetime.date }.
End AvailabilityCreate.

Module AvailabilityUpdate.
Record t := mk {
  day_of_week : field Z;
  start_time : datetime.time;
  end_time : datetime.time;
  is_recurring : option bool; (* [None]: not sent, reads as [True] *)
  specific_date : field datetime.date }.
End AvailabilityUpdate.

Module Availability.
Record t := mk {
  nutritionist_id : uuid;
  day_of_week : option Z;
  start_time : datetime.time;
  end_time : datetime.time;
  is_recurring : bool;
  specific_date : option datetime.date;
  created_at : option datetime.date;
  updated_at : option datetime.date }.
End Availability.

Module AppointmentCreate.
Record t := mk {
  date : datetime.date;
  start_time : datetime.time;
  end_time : datetime.time;
  status : AppointmentStatus; (* default SCHEDULED *)
  notes : option string;
  nutritionist_id : uuid }.
End AppointmentCreate.

(** The type of a field declared [date: Optional[date] = None].  In a class
    body an annotated assignment binds the name before its annotation is
    evaluated, so the annotation reads [Optional[None]]: the field admits
    [None] and nothing else, and a request that sends a date there is
    refused by validation before the handler runs. *)
Inductive NoneType : Set := .

(** [f or old] for a field of that type. *)
Definition none_or {A} (f : field NoneType) (old : A) : A :=
  match f with Value v => match v with end | _ => old end.

(** Assignment of such a dumped field to a column that is NOT NULL. *)
Definition set_required_none {A} (f : field NoneType) (old : A) : option A :=
  match f with
  | Unset => Some old
  | Null => None
  | Value v => match v with end
  end.

Module AppointmentUpdate.
Record t := mk {
  date : field NoneType;
  start_time : field datetime.time;
  end_time : field datetime.time;
  status : field AppointmentStatus;
  notes : field string }.
End AppointmentUpdate.

Module Appointment.
Record t := mk {
  date : datetime.date;
  start_time : datetime.time;
  end_time : datetime.time;
  status : AppointmentStatus;
  notes : option string;
  client_id : uuid;
  nutritionist_id : uuid;
  created_at : option datetime.date;
  updated_at : option datetime.date }.
End Appointment.

(** ** The session and the handlers' monad *)

(** The three tables the scheduling code reads and writes. *)
Record db := mk_db {
  user_table : gmap uuid User.t;
  availability_table : gmap uuid Availability.t;
  appointment_table : gmap uuid Appointment.t }.

(** A row added to, or replaced in, one table, and a row removed. *)
Definition put_availability (s : db) (id : uuid) (rule : Availability.t) : db :=
  mk_db (user_table s) (<[id := rule]> (availability_table s)) (appointment_table s).

Definition drop_availability (s : db) (id : uuid) : db :=
  mk_db (user_table s) (delete id (availability_table s)) (appointment_table s).

Definition put_appointment (s : db) (id : uuid) (a : Appointment.t) : db :=
  mk_db (user_table s) (availability_table s) (<[id := a]> (appointment_table s)).

(** What a handler can raise: FastAPI's [HTTPException], the database
    driver's [IntegrityError] at commit, or SQLAlchemy's [ArgumentError]
    while a statement is built.  The handlers catch neither of the last
    two. *)
Inductive exn :=
| HTTPException (status_code : Z) (detail : string)
| IntegrityError
| ArgumentError.

Inductive result (A : Type) := Ok (a : A) | Raise (e : exn).
Arguments Ok {A} a.
Arguments Raise {A} e.

Definition M (A : Type) : Type := db → result A * db.

#[global] Instance M_ret : MRet M := λ A a s, (Ok a, s).
#[global] Instance M_bind : MBind M := λ A B f m s,
  match m s with
  | (Ok a, s') => f a s'
  | (Raise e, s') => (Raise e, s')
  end.

Definition raise {A} (e : exn) : M A := λ s, (Raise e, s).

(** [if c: raise e]. *)
Definition raise_if (c : bool) (e : exn) : M unit :=
  if c then raise e else mret tt.

(** [session.exec(select ...)] and [session.get]: read the tables. *)
Definition query {A} (f : db → A) : M A := λ s, (Ok (f s), s).

(** [session.add(row); session.commit()]: write the tables. *)
Definition commit (f : db → db) : M unit := λ s, (Ok tt, f s).

(** [uuid.uuid4()] as the default of a primary key: an identifier no row of
    the table carries. *)
Definition uuid4 {V} (table : gmap uuid V) : uuid := fresh (dom table).

(** ** crud.py *)

Module crud.

(** [select(User).where(User.id == user_id)] then [.first()]. *)
Definition get_user_by_id (user_id : uuid) : M (option (uuid * User.t)) :=
  query (λ s, (λ u, (user_id, u)) <$> user_table s !! user_id).

(** *** Availability *)

(** [Availability.model_validate(availability_in, update={"nutritionist_id":
    ..., "created_at": now, "updated_at": now})]. *)
Definition Availability_model_validate (availability_in : AvailabilityCreate.t)
    (nutritionist_id : uuid) (now : datetime.date) : Availability.t :=
  {| Availability.nutritionist_id := nutritionist_id;
     Availability.day_of_week := AvailabilityCreate.day_of_week availability_in;
     Availability.start_time := AvailabilityCreate.start_time availability_in;
     Availability.end_time := AvailabilityCreate.end_time availability_in;
     Availability.is_recurring := AvailabilityCreate.is_recurring availability_in;
     Availability.specific_date := AvailabilityCreate.specific_date availability_in;
     Availability.created_at := Some now;
     Availability.updated_at := Some now |}.

Definition create_availability (availability_in : AvailabilityCreate.t)
    (nutritionist_id : uuid) (clk : clock) : M (uuid * Availability.t) :=
  let now := utc_today clk in
  let db_availability :=
    Availability_model_validate availability_in nutritionist_id now in
  id ← query (λ s, uuid4 (availability_table s));
  commit (λ s, put_availability s id db_availability);;
  mret (id, db_availability).

(** [sqlmodel_update] with the dump of the payload ([exclude_unset]) plus
    [updated_at].  Every column a payload field can null is nullable. *)
Definition update_availability (db_availability : uuid * Availability.t)
    (availability_in : AvailabilityUpdate.t) (clk : clock)
    : M (uuid * Availability.t) :=
  let '(id, old) := db_availability in
  let row := {|
    Availability.nutritionist_id := Availability.nutritionist_id old;
    Availability.day_of_week :=
      set_nullable (AvailabilityUpdate.day_of_week availability_in)
                   (Availability.day_of_week old);
    Availability.start_time := AvailabilityUpdate.start_time availability_in;
    Availability.end_time := AvailabilityUpdate.end_time availability_in;
    Availability.is_recurring :=
      default (Availability.is_recurring old)
              (AvailabilityUpdate.is_recurring availability_in);
    Availability.specific_date :=
      set_nullable (AvailabilityUpdate.specific_date availability_in)
                   (Availability.specific_date old);
    Availability.created_at := Availability.created_at old;
    Availability.updated_at := Some (utc_today clk) |} in
  commit (λ s, put_availability s id row);;
  mret (id, row).

Definition get_availability_by_id (availability_id : uuid)
    : M (option (uuid * Availability.t)) :=
  query (λ s, (λ r, (availability_id, r))
                <$> availability_table s !! availability_id).

(** An argument of [or_] as Python lets the caller write it: a column
    expression (here: what it evaluates to on a row), or a tuple of column
    expressions. *)
Inductive or_argument (Row : Type) :=
| Expression (e : Row → bool)
| PyTuple (es : list (Row → bool)).
Arguments Expression {Row} e.
Arguments PyTuple {Row} es.

(** [or_] of a list of arguments: each argument is coerced to a column
    expression while the statement is built.  A tuple is not one, and its
    coercion raises [ArgumentError]. *)
Fixpoint or_ {Row} (clauses : list (or_argument Row)) : result (Row → bool) :=
  match clauses with
  | [] => Ok (λ _, false)
  | Expression e :: rest =>
      match or_ rest with
      | Ok r => Ok (λ row, e row || r row)
      | Raise x => Raise x
      end
  | PyTuple _ :: _ => Raise ArgumentError
  end.

(** The second WHERE clause of [get_availabilities_by_date_range]: [or_] of
    the test for a recurring rule and of a tuple of three tests for a
    one-off rule dated inside the range (a comparison with a NULL
    [specific_date] selects nothing). *)
Definition date_range_clause (start_date end_date : datetime.date)
    : result (uuid * Availability.t → bool) :=
  or_ [ Expression (λ r, eqb (Availability.is_recurring r.2) true);
        PyTuple
          [ (λ r, eqb (Availability.is_recurring r.2) false);
            (λ r, from_option (λ d, d >=? start_date) false
                              (Availability.specific_date r.2));
            (λ r, from_option (λ d, d <=? end_date) false
                              (Availability.specific_date r.2)) ] ].

(** The statement is built, then executed (no ORDER BY: in table order). *)
Definition get_availabilities_by_date_range (nutritionist_id : uuid)
    (start_date end_date : datetime.date) : M (list (uuid * Availability.t)) :=
  match date_range_clause start_date end_date with
  | Ok clause =>
      query (λ s,
        List.filter
          (λ r, bool_decide (Availability.nutritionist_id r.2 = nutritionist_id)
                && clause r)
          (map_to_list (availability_table s)))
  | Raise e => raise e
  end.

Definition delete_availability (availability_id : uuid) : M unit :=
  availability ← query (λ s, availability_table s !! availability_id);
  match availability with
  | Some _ =>
      commit (λ s, drop_availability s availability_id)
  | None => mret tt
  end.

(** *** Appointment *)

(** [Appointment.model_validate(appointment_in, update={"client_id": ...,
    "created_at": now, "updated_at": now})]: the payload's fields and the
    three given ones (the [id] is drawn when the row is added). *)
Definition Appointment_model_validate (appointment_in : AppointmentCreate.t)
    (client_id : uuid) (now : datetime.date) : Appointment.t :=
  {| Appointment.date := AppointmentCreate.date appointment_in;
     Appointment.start_time := AppointmentCreate.start_time appointment_in;
     Appointment.end_time := AppointmentCreate.end_time appointment_in;
     Appointment.status := AppointmentCreate.status appointment_in;
     Appointment.notes := AppointmentCreate.notes appointment_in;
     Appointment.client_id := client_id;
     Appointment.nutritionist_id := AppointmentCreate.nutritionist_id appointment_in;
     Appointment.created_at := Some now;
     Appointment.updated_at := Some now |}.

Definition create_appointment (appointment_in : AppointmentCreate.t)
    (client_id : uuid) (clk : clock) : M (uuid * Appointment.t) :=
  let now := utc_today clk in
  let db_appointment := Appointment_model_validate appointment_in client_id now in
  id ← query (λ s, uuid4 (appointment_table s));
  commit (λ s, put_appointment s id db_appointment);;
  mret (id, db_appointment).

(** The row after [sqlmodel_update] with the dumped payload, when every NOT
    NULL column ([date], [start_time], [end_time], [status]) still holds a
    value; [None] when one of them was sent as [null]. *)
Definition sqlmodel_update (old : Appointment.t)
    (appointment_in : AppointmentUpdate.t) (updated_at : datetime.date)
    : option Appointment.t :=
  date ← set_required_none (AppointmentUpdate.date appointment_in)
                          (Appointment.date old);
  start_time ← set_required (AppointmentUpdate.start_time appointment_in)
                            (Appointment.start_time old);
  end_time ← set_required (AppointmentUpdate.end_time appointment_in)
                          (Appointment.end_time old);
  status ← set_required (AppointmentUpdate.status appointment_in)
                        (Appointment.status old);
  Some {|
    Appointment.date := date;
    Appointment.start_time := start_time;
    Appointment.end_time := end_time;
    Appointment.status := status;
    Appointment.notes :=
      set_nullable (AppointmentUpdate.notes appointment_in) (Appointment.notes old);
    Appointment.client_id := Appointment.client_id old;
    Appointment.nutritionist_id := Appointment.nutritionist_id old;
    Appointment.created_at := Appointment.created_at old;
    Appointment.updated_at := Some updated_at |}.

Definition update_appointment (db_appointment : uuid * Appointment.t)
    (appointment_in : AppointmentUpdate.t) (clk : clock)
    : M (uuid * Appointment.t) :=
  let '(id, old) := db_appointment in
  match sqlmodel_update old appointment_in (utc_today clk) with
  | Some row =>
      commit (λ s, put_appointment s id row);;
      mret (id, row)
  | None => raise IntegrityError
  end.

Definition get_appointment_by_id (appointment_id : uuid)
    : M (option (uuid * Appointment.t)) :=
  query (λ s, (λ r, (appointment_id, r))
                <$> appointment_table s !! appointment_id).

(** [order_by(Appointment.date, Appointment.start_time)]. *)
Definition by_date_start_time : relation (uuid * Appointment.t) := λ x y,
  Appointment.date x.2 < Appointment.date y.2
  ∨ (Appointment.date x.2 = Appointment.date y.2
     ∧ Appointment.start_time x.2 ≤ Appointment.start_time y.2).

#[global] Instance by_date_start_time_dec : RelDecision by_date_start_time.
Proof. intros x y. unfold by_date_start_time. apply _. Defined.

(** The WHERE clauses of [get_appointments_by_date_range]; each optional
    filter is added when its argument is given. *)
Definition appointment_selected (nutritionist_id client_id : option uuid)
    (start_date end_date : datetime.date) (status : option AppointmentStatus)
    (r : uuid * Appointment.t) : bool :=
  (Appointment.date r.2 >=? start_date) && (Appointment.date r.2 <=? end_date)
  && from_option (λ n, bool_decide (Appointment.nutritionist_id r.2 = n)) true
                 nutritionist_id
  && from_option (λ c, bool_decide (Appointment.client_id r.2 = c)) true client_id
  && from_option (λ st, bool_decide (Appointment.status r.2 = st)) true status.

(** The rows that statement selects, in its order. *)
Definition select_appointments_by_date_range
    (nutritionist_id client_id : option uuid)
    (start_date end_date : datetime.date) (status : option AppointmentStatus)
    (s : db) : list (uuid * Appointment.t) :=
  merge_sort by_date_start_time
    (List.filter
       (appointment_selected nutritionist_id client_id start_date end_date status)
       (map_to_list (appointment_table s))).

Definition get_appointments_by_date_range (nutritionist_id client_id : option uuid)
    (start_date end_date : datetime.date) (status : option AppointmentStatus)
    : M (list (uuid * Appointment.t)) :=
  query (select_appointments_by_date_range nutritionist_id client_id
           start_date end_date status).

(** [appointment.status = AppointmentStatus.CANCELLED] and
    [appointment.updated_at = ...] on a loaded row. *)
Definition mark_cancelled (old : Appointment.t) (updated_at : datetime.date)
    : Appointment.t :=
  {| Appointment.date := Appointment.date old;
     Appointment.start_time := Appointment.start_time old;
     Appointment.end_time := Appointment.end_time old;
     Appointment.status := CANCELLED;
     Appointment.notes := Appointment.notes old;
     Appointment.client_id := Appointment.client_id old;
     Appointment.nutritionist_id := Appointment.nutritionist_id old;
     Appointment.created_at := Appointment.created_at old;
     Appointment.updated_at := Some updated_at |}.

Definition cancel_appointment (appointment_id : uuid) (clk : clock)
    : M (option (uuid * Appointment.t)) :=
  appointment ← query (λ s, appointment_table s !! appointment_id);
  match appointment with
  | Some old =>
      let row := mark_cancelled old (utc_today clk) in
      commit (λ s, put_appointment s appointment_id row);;
      mret (Some (appointment_id, row))
  | None => mret None
  end.

End crud.

(** [for x in l: body(x)], where the body may raise. *)
Fixpoint for_each {A} (l : list A) (body : A → M unit) : M unit :=
  match l with
  | [] => mret tt
  | x :: l' => body x;; for_each l' body
  end.

(** ** api/routes/appointments.py *)

Module appointments.

(** The three-clause test of the two conflict loops, on a proposed
    [start_time, end_time) and the slot of an existing appointment. *)
Definition time_conflict (start_time end_time : datetime.time)
    (existing_start_time existing_end_time : datetime.time) : bool :=
  ((start_time >=? existing_start_time) && (start_time <? existing_end_time))
  || ((end_time >? existing_start_time) && (end_time <=? existing_end_time))
  || ((start_time <=? existing_start_time) && (end_time >=? existing_end_time)).

(** Whether a rule applies on a date. *)
Definition rule_applies (weekday : Z) (date : datetime.date)
    (avail : Availability.t) : bool :=
  (Availability.is_recurring avail
   && bool_decide (Availability.day_of_week avail = Some weekday))
  || (negb (Availability.is_recurring avail)
      && bool_decide (Availability.specific_date avail = Some date)).

(** The availability loop: [is_available] starts [False]; the first rule
    that applies on the date and encloses the slot sets it and breaks. *)
Fixpoint is_available (availabilities : list (uuid * Availability.t))
    (weekday : Z) (date : datetime.date) (start_time end_time : datetime.time)
    : bool :=
  match availabilities with
  | [] => false
  | avail :: rest =>
      if rule_applies weekday date avail.2 then
        if (start_time >=? Availability.start_time avail.2)
           && (end_time <=? Availability.end_time avail.2)
        then true
        else is_available rest weekday date start_time end_time
      else is_available rest weekday date start_time end_time
  end.

(** The participant check shared by read, update and cancel. *)
Definition not_permitted (current_user : uuid * User.t)
    (appointment : uuid * Appointment.t) : bool :=
  bool_decide (current_user.1 ≠ Appointment.client_id appointment.2)
  && bool_decide (current_user.1 ≠ Appointment.nutritionist_id appointment.2)
  && bool_decide (User.user_type current_user.2 ≠ ADMIN).

Definition create_appointment (appointment_in : AppointmentCreate.t)
    (current_user : uuid * User.t) (clk : clock) : M (uuid * Appointment.t) :=
  (* Check if the nutritionist exists and is a nutritionist *)
  nutritionist ←
    crud.get_user_by_id (AppointmentCreate.nutritionist_id appointment_in);
  raise_if
    match nutritionist with
    | None => true
    | Some nutritionist => bool_decide (User.user_type nutritionist.2 ≠ NUTRITIONIST)
    end
    (HTTPException 404 "Nutritionist not found");;
  (* Validate time range *)
  raise_if
    (AppointmentCreate.start_time appointment_in
       >=? AppointmentCreate.end_time appointment_in)
    (HTTPException 400 "End time must be after start time");;
  (* Check if the appointment time is in the future *)
  let appointment_datetime :=
    datetime.combine (AppointmentCreate.date appointment_in)
                     (AppointmentCreate.start_time appointment_in) in
  raise_if (datetime.lt appointment_datetime (now clk))
    (HTTPException 400 "Appointment time must be in the future");;
  (* First, get all appointments for the nutritionist on that day *)
  let day_start := AppointmentCreate.date appointment_in in
  let day_end := AppointmentCreate.date appointment_in in
  existing_appointments ←
    crud.get_appointments_by_date_range
      (Some (AppointmentCreate.nutritionist_id appointment_in)) None
      day_start day_end (Some SCHEDULED);
  (* Check for time conflicts *)
  for_each existing_appointments (λ existing_appt,
    raise_if
      (time_conflict (AppointmentCreate.start_time appointment_in)
                     (AppointmentCreate.end_time appointment_in)
                     (Appointment.start_time existing_appt.2)
                     (Appointment.end_time existing_appt.2))
      (HTTPException 400 "The selected time slot is already booked"));;
  (* Check if the time slot is within the nutritionist's availability *)
  let weekday := datetime.weekday (AppointmentCreate.date appointment_in) in
  availabilities ←
    crud.get_availabilities_by_date_range
      (AppointmentCreate.nutritionist_id appointment_in) day_start day_end;
  raise_if
    (negb (is_available availabilities weekday
             (AppointmentCreate.date appointment_in)
             (AppointmentCreate.start_time appointment_in)
             (AppointmentCreate.end_time appointment_in)))
    (HTTPException 400 "The selected time slot is not available");;
  (* Create the appointment *)
  appointment ← crud.create_appointment appointment_in current_user.1 clk;
  mret appointment.

(** The block of [update_appointment] under
    [if appointment_in.date or appointment_in.start_time or appointment_in.end_time]. *)
Definition validate_new_slot (appointment : uuid * Appointment.t)
    (appointment_in : AppointmentUpdate.t) (clk : clock) : M unit :=
  let new_date :=
    none_or (AppointmentUpdate.date appointment_in) (Appointment.date appointment.2) in
  let new_start_time :=
    field_or (AppointmentUpdate.start_time appointment_in)
             (Appointment.start_time appointment.2) in
  let new_end_time :=
    field_or (AppointmentUpdate.end_time appointment_in)
             (Appointment.end_time appointment.2) in
  (* Validate time range *)
  raise_if (new_start_time >=? new_end_time)
    (HTTPException 400 "End time must be after start time");;
  (* Check if the appointment time is in the future *)
  let new_datetime := datetime.combine new_date new_start_time in
  raise_if (datetime.lt new_datetime (now clk))
    (HTTPException 400 "Appointment time must be in the future");;
  (* Check for conflicts with other appointments *)
  let day_start := new_date in
  let day_end := new_date in
  existing_appointments ←
    crud.get_appointments_by_date_range
      (Some (Appointment.nutritionist_id appointment.2)) None
      day_start day_end (Some SCHEDULED);
  (* Check for time conflicts, excluding the current appointment *)
  for_each existing_appointments (λ existing_appt,
    raise_if
      (bool_decide (existing_appt.1 ≠ appointment.1)
       && time_conflict new_start_time new_end_time
                        (Appointment.start_time existing_appt.2)
                        (Appointment.end_time existing_appt.2))
      (HTTPException 400 "The selected time slot conflicts with another appointment"));;
  (* Check if within nutritionist's availability *)
  let weekday := datetime.weekday new_date in
  availabilities ←
    crud.get_availabilities_by_date_range
      (Appointment.nutritionist_id appointment.2) day_start day_end;
  raise_if
    (negb (is_available availabilities weekday new_date new_start_time new_end_time))
    (HTTPException 400
       "The selected time slot is not within nutritionist's availability").

Definition update_appointment (appointment_id : uuid)
    (appointment_in : AppointmentUpdate.t) (current_user : uuid * User.t)
    (clk : clock) : M (uuid * Appointment.t) :=
  appointment ← crud.get_appointment_by_id appointment_id;
  match appointment with
  | None => raise (HTTPException 404 "Appointment not found")
  | Some appointment =>
      (* Check if the current user is part of this appointment *)
      raise_if (not_permitted current_user appointment)
        (HTTPException 403 "Not enough permissions");;
      (* If changing the date or time, validate the new time slot *)
      (if truthy (AppointmentUpdate.date appointment_in)
          || truthy (AppointmentUpdate.start_time appointment_in)
          || truthy (AppointmentUpdate.end_time appointment_in)
       then validate_new_slot appointment appointment_in clk
       else mret tt);;
      (* Update the appointment *)
      updated_appointment ← crud.update_appointment appointment appointment_in clk;
      mret updated_appointment
  end.

Definition cancel_appointment (appointment_id : uuid)
    (current_user : uuid * User.t) (clk : clock) : M string :=
  appointment ← crud.get_appointment_by_id appointment_id;
  match appointment with
  | None => raise (HTTPException 404 "Appointment not found")
  | Some appointment =>
      (* Check if the current user is part of this appointment *)
      raise_if (not_permitted current_user appointment)
        (HTTPException 403 "Not enough permissions");;
      (* Check if the appointment is already cancelled *)
      raise_if (bool_decide (Appointment.status appointment.2 = CANCELLED))
        (HTTPException 400 "Appointment is already cancelled");;
      (* Cancel the appointment *)
      cancelled_appointment ← crud.cancel_appointment appointment_id clk;
      mret "Appointment cancelled successfully"%string
  end.

End appointments.

(** ** api/routes/availability.py *)

Module availability.

Definition create_availability (availability_in : AvailabilityCreate.t)
    (current_user : uuid * User.t) (clk : clock) : M (uuid * Availability.t) :=
  raise_if (bool_decide (User.user_type current_user.2 ≠ NUTRITIONIST))
    (HTTPException 403 "Only nutritionists can create availability slots");;
  (* Validate time range *)
  raise_if
    (AvailabilityCreate.start_time availability_in
       >=? AvailabilityCreate.end_time availability_in)
    (HTTPException 400 "End time must be after start time");;
  (* For recurring slots, day_of_week is required *)
  raise_if
    (AvailabilityCreate.is_recurring availability_in
     && bool_decide (AvailabilityCreate.day_of_week availability_in = None))
    (HTTPException 400 "Day of week is required for recurring availability");;
  (* For non-recurring slots, specific_date is required *)
  raise_if
    (negb (AvailabilityCreate.is_recurring availability_in)
     && bool_decide (AvailabilityCreate.specific_date availability_in = None))
    (HTTPException 400 "Specific date is required for non-recurring availability");;
  availability ← crud.create_availability availability_in current_user.1 clk;
  mret availability.

Definition update_availability (availability_id : uuid)
    (availability_in : AvailabilityUpdate.t) (current_user : uuid * User.t)
    (clk : clock) : M (uuid * Availability.t) :=
  availability ← crud.get_availability_by_id availability_id;
  match availability with
  | None => raise (HTTPException 404 "Availability slot not found")
  | Some availability =>
      (* Verify that the current user is the nutritionist who owns this slot *)
      raise_if
        (bool_decide (Availability.nutritionist_id availability.2 ≠ current_user.1))
        (HTTPException 403 "Not enough permissions");;
      (* Validate start/end time if provided *)
      let start_time :=
        time_or (AvailabilityUpdate.start_time availability_in)
                (Availability.start_time availability.2) in
      let end_time :=
        time_or (AvailabilityUpdate.end_time availability_in)
                (Availability.end_time availability.2) in
      raise_if (start_time >=? end_time)
        (HTTPException 400 "End time must be after start time");;
      updated_availability ←
        crud.update_availability availability availability_in clk;
      mret updated_availability
  end.

Definition delete_availability (availability_id : uuid)
    (current_user : uuid * User.t) : M string :=
  availability ← crud.get_availability_by_id availability_id;
  match availability with
  | None => raise (HTTPException 404 "Availability slot not found")
  | Some availability =>
      raise_if
        (bool_decide (Availability.nutritionist_id availability.2 ≠ current_user.1))
        (HTTPException 403 "Not enough permissions");;
      crud.delete_availability availability_id;;
      mret "Availability slot deleted successfully"%string
  end.

End availability.

(** ** The rejection reasons of the booking validator

    The names of the specification's taxonomy for the exceptions
    [create_appointment] and [cancel_appointment] raise. *)

Definition NotFound : exn := HTTPException 404 "Nutritionist not found".
Definition InvalidRange : exn := HTTPException 400 "End time must be after start time".
Definition InThePast : exn := HTTPException 400 "Appointment time must be in the future".
Definition SlotBooked : exn := HTTPException 400 "The selected time slot is already booked".
Definition OutsideAvailability : exn :=
  HTTPException 400 "The selected time slot is not available".
Definition AlreadyCancelled : exn := HTTPException 400 "Appointment is already cancelled".
Definition Forbidden : exn := HTTPException 403 "Not enough permissions".
Definition AppointmentNotFound : exn := HTTPException 404 "Appointment not found".

(** The reasons [update_appointment] words differently. *)
Definition SlotBooked_on_update : exn :=
  HTTPException 400 "The selected time slot conflicts with another appointment".
Definition OutsideAvailability_on_update : exn :=
  HTTPException 400 "The selected time slot is not within nutritionist's availability".

(** ** The checks of a booking request, each on its own

    The four checks the handler decides by itself.  The fifth, containment
    in availability, starts with [crud.get_availabilities_by_date_range]. *)

Section checks.
Variable s : db.
Variable appointment_in : AppointmentCreate.t.
Variable clk : clock.

Let nutritionist_id := AppointmentCreate.nutritionist_id appointment_in.
Let date := AppointmentCreate.date appointment_in.
Let start_time := AppointmentCreate.start_time appointment_in.
Let end_time := AppointmentCreate.end_time appointment_in.

(** 1: the target exists and is a nutritionist. *)
Definition nutritionist_exists : bool :=
  match user_table s !! nutritionist_id with
  | Some u => bool_decide (User.user_type u = NUTRITIONIST)
  | None => false
  end.

(** 2: the range is not empty or reversed. *)
Definition range_valid : bool := start_time <? end_time.

(** 3: the start is not earlier than the clock reading. *)
Definition not_in_the_past : bool :=
  negb (datetime.lt (datetime.combine date start_time) (now clk)).

(** 4: no Scheduled appointment of the nutritionist on the date conflicts. *)
Definition no_conflict : bool :=
  negb (existsb
          (λ existing_appt : uuid * Appointment.t,
             appointments.time_conflict start_time end_time
               (Appointment.start_time existing_appt.2)
               (Appointment.end_time existing_appt.2))
          (crud.select_appointments_by_date_range (Some nutritionist_id) None
             date date (Some SCHEDULED) s)).

(** These checks in the order of the specification, each with its reason. *)
Definition ordered_checks : list (bool * exn) :=
  [ (nutritionist_exists, NotFound);
    (range_valid, InvalidRange);
    (not_in_the_past, InThePast);
    (no_conflict, SlotBooked) ].

End checks.

(** The reason of the first check that fails, if one does. *)
Fixpoint first_failure (checks : list (bool * exn)) : option exn :=
  match checks with
  | [] => None
  | (passed, reason) :: rest => if passed then first_failure rest else Some reason
  end.

(** ** A rule applying on a date, as the specification words it *)

(** Recurring with [day_of_week] the date's weekday, or not recurring with
    [specific_date] the date. *)
Definition applies_on (rule : Availability.t) (date : datetime.date) : Prop :=
  (Availability.is_recurring rule = true
   ∧ Availability.day_of_week rule = Some (datetime.weekday date))
  ∨ (Availability.is_recurring rule = false
     ∧ Availability.specific_date rule = Some date).

(** Some rule of a list applies on the date and encloses the slot
    [start_time, end_time): full nesting in a single rule. *)
Definition enclosing_rule (availabilities : list (uuid * Availability.t))
    (date : datetime.date) (start_time end_time : datetime.time) : Prop :=
  ∃ avail,
    avail ∈ availabilities
    ∧ applies_on avail.2 date
    ∧ start_time >= Availability.start_time avail.2
    ∧ end_time ≤ Availability.end_time avail.2.

(** Some rule of a list applies on the date. *)
Definition matching_rule (availabilities : list (uuid * Availability.t))
    (date : datetime.date) : Prop :=
  ∃ avail, avail ∈ availabilities ∧ applies_on avail.2 date.

(** ** The simplified overlap test of the specification *)

(** Section 4.3's half-open test, [s1 < e2 AND s2 < e1], as the
    specification words it; [appointments.time_conflict] is the code's. *)
Definition half_open_overlap (s1 e1 s2 e2 : datetime.time) : bool :=
  (s1 <? e2) && (s2 <? e1).

(** ** The checks of an update that sends a slot *)

Section update_checks.
Variable s : db.
Variable appointment_id : uuid.
Variable appointment : Appointment.t.
Variable appointment_in : AppointmentUpdate.t.

Definition new_date : datetime.date :=
  none_or (AppointmentUpdate.date appointment_in) (Appointment.date appointment).
Definition new_start_time : datetime.time :=
  field_or (AppointmentUpdate.start_time appointment_in)
           (Appointment.start_time appointment).
Definition new_end_time : datetime.time :=
  field_or (AppointmentUpdate.end_time appointment_in)
           (Appointment.end_time appointment).

(** Whether the handler validates a slot at all. *)
Definition sends_slot : bool :=
  truthy (AppointmentUpdate.date appointment_in)
  || truthy (AppointmentUpdate.start_time appointment_in)
  || truthy (AppointmentUpdate.end_time appointment_in).

(** Some other Scheduled appointment of the nutritionist on the new date
    conflicts with the new slot. *)
Definition update_conflict : bool :=
  existsb
    (λ existing_appt : uuid * Appointment.t,
       bool_decide (existing_appt.1 ≠ appointment_id)
       && appointments.time_conflict new_start_time new_end_time
            (Appointment.start_time existing_appt.2)
            (Appointment.end_time existing_appt.2))
    (crud.select_appointments_by_date_range
       (Some (Appointment.nutritionist_id appointment)) None
       new_date new_date (Some SCHEDULED) s).

End update_checks.

(** ** The invariant the specification states for availability rules *)

(** Exactly one of [day_of_week] and [specific_date] is set, selected by
    [is_recurring]. *)
Definition exactly_one_selected (rule : Availability.t) : Prop :=
  if Availability.is_recurring rule
  then is_Some (Availability.day_of_week rule)
       ∧ Availability.specific_date rule = None
  else is_Some (Availability.specific_date rule)
       ∧ Availability.day_of_week rule = None.

(** The field [is_recurring] selects is set (the other one may be too). *)
Definition selected_field_set (rule : Availability.t) : Prop :=
  if Availability.is_recurring rule
  then is_Some (Availability.day_of_week rule)
  else is_Some (Availability.specific_date rule).

(** ** Sequences of operations on appointments *)

Inductive operation :=
| CreateAppointment (appointment_in : AppointmentCreate.t)
    (current_user : uuid * User.t) (clk : clock)
| UpdateAppointment (appointment_id : uuid) (appointment_in : AppointmentUpdate.t)
    (current_user : uuid * User.t) (clk : clock)
| CancelAppointment (appointment_id : uuid)
    (current_user : uuid * User.t) (clk : clock).

(** The state an operation leaves when the handler accepts it. *)
Definition accepted (op : operation) (s : db) : option db :=
  match op with
  | CreateAppointment appointment_in current_user clk =>
      match appointments.create_appointment appointment_in current_user clk s with
      | (Ok _, s') => Some s'
      | (Raise _, _) => None
      end
  | UpdateAppointment appointment_id appointment_in current_user clk =>
      match appointments.update_appointment appointment_id appointment_in
              current_user clk s with
      | (Ok _, s') => Some s'
      | (Raise _, _) => None
      end
  | CancelAppointment appointment_id current_user clk =>
      match appointments.cancel_appointment appointment_id current_user clk s with
      | (Ok _, s') => Some s'
      | (Raise _, _) => None
      end
  end.

(** The states reached from an empty appointment table by accepted
    operations. *)
Inductive reachable : db → Prop :=
| reachable_initial s : appointment_table s = ∅ → reachable s
| reachable_step s op s' : reachable s → accepted op s = Some s' → reachable s'.

(** Overlap of the half-open slots of two appointments. *)
Definition overlapping (a b : Appointment.t) : Prop :=
  Appointment.start_time a < Appointment.end_time b
  ∧ Appointment.start_time b < Appointment.end_time a.

(** The invariant of section 3: no two Scheduled appointments of one
    nutritionist on one date overlap. *)
Definition no_double_booking (s : db) : Prop :=
  ∀ i j a b,
    i ≠ j →
    appointment_table s !! i = Some a →
    appointment_table s !! j = Some b →
    Appointment.nutritionist_id a = Appointment.nutritionist_id b →
    Appointment.date a = Appointment.date b →
    Appointment.status a = SCHEDULED →
    Appointment.status b = SCHEDULED →
    ¬ overlapping a b.

(** An update that sends no date or time, so that no slot is validated. *)
Definition sends_no_slot (appointment_in : AppointmentUpdate.t) : Prop :=
  truthy (AppointmentUpdate.date appointment_in) = false
  ∧ truthy (AppointmentUpdate.start_time appointment_in) = false
  ∧ truthy (AppointmentUpdate.end_time appointment_in) = false.

(** An operation that puts an appointment that is not Scheduled back to
    Scheduled without sending a slot. *)
Definition reactivates (op : operation) (s : db) : Prop :=
  match op with
  | UpdateAppointment appointment_id appointment_in _ _ =>
      sends_no_slot appointment_in
      ∧ AppointmentUpdate.status appointment_in = Value SCHEDULED
      ∧ ∃ a, appointment_table s !! appointment_id = Some a
             ∧ Appointment.status a ≠ SCHEDULED
  | _ => False
  end.

(** The same row with another status. *)
Definition with_status (a : Appointment.t) (status : AppointmentStatus)
    : Appointment.t :=
  {| Appointment.date := Appointment.date a;
     Appointment.start_time := Appointment.start_time a;
     Appointment.end_time := Appointment.end_time a;
     Appointment.status := status;
     Appointment.notes := Appointment.notes a;
     Appointment.client_id := Appointment.client_id a;
     Appointment.nutritionist_id := Appointment.nutritionist_id a;
     Appointment.created_at := Appointment.created_at a;
     Appointment.updated_at := Appointment.updated_at a |}.

(** ** A small practice, for the scenarios *)

Definition account (email : string) (user_type : UserType) : User.t :=
  User.mk email true false None user_type "".

(** Two nutritionists and two clients, as the authenticated users the
    handlers receive: primary key and row. *)
Definition dr_a : uuid * User.t := (1%N, account "a@clinic.test" NUTRITIONIST).
Definition dr_b : uuid * User.t := (2%N, account "b@clinic.test" NUTRITIONIST).
Definition client_c : uuid * User.t := (3%N, account "c@mail.test" CLIENT).
Definition client_d : uuid * User.t := (4%N, account "d@mail.test" CLIENT).

Definition accounts : gmap uuid User.t :=
  list_to_map [dr_a; dr_b; client_c; client_d].

(** Tuesday 2026-11-10, and the clock at noon of the day before. *)
Definition tuesday : datetime.date := 739930.
Definition monday_noon : clock :=
  {| now := datetime.combine 739929 (datetime.hm 12 0); utc_today := 739929 |}.

(** The clock at noon of the day after. *)
Definition wednesday_noon : clock :=
  {| now := datetime.combine 739931 (datetime.hm 12 0); utc_today := 739931 |}.

(** Recurring availability on Tuesdays, 09:00 to 17:00. *)
Definition tuesdays_9_to_17 (nutritionist_id : uuid) : Availability.t :=
  {| Availability.nutritionist_id := nutritionist_id;
     Availability.day_of_week := Some 1;
     Availability.start_time := datetime.hm 9 0;
     Availability.end_time := datetime.hm 17 0;
     Availability.is_recurring := true;
     Availability.specific_date := None;
     Availability.created_at := Some 739900;
     Availability.updated_at := Some 739900 |}.

(** Both nutritionists publish that rule; nothing is booked yet. *)
Definition practice : db :=
  {| user_table := accounts;
     availability_table :=
       <[10%N := tuesdays_9_to_17 dr_a.1]> (<[11%N := tuesdays_9_to_17 dr_b.1]> ∅);
     appointment_table := ∅ |}.

(** A request for [start_time, end_time) on that Tuesday. *)
Definition booking (nutritionist : uuid * User.t)
    (start_time end_time : datetime.time) : AppointmentCreate.t :=
  {| AppointmentCreate.date := tuesday;
     AppointmentCreate.start_time := start_time;
     AppointmentCreate.end_time := end_time;
     AppointmentCreate.status := SCHEDULED;
     AppointmentCreate.notes := None;
     AppointmentCreate.nutritionist_id := nutritionist.1 |}.

(** The practice with an appointment of client C with Dr A, 10:00 to
    11:00, stored by [crud.create_appointment] (the way the test suite's
    [create_test_appointment] stores its rows); it gets the key 0. *)
Definition practice_booked : db :=
  (crud.create_appointment
     (booking dr_a (datetime.hm 10 0) (datetime.hm 11 0))
     client_c.1 monday_noon practice).2.

(** ... and after client C cancelled it. *)
Definition practice_cancelled : db :=
  (appointments.cancel_appointment 0%N client_c monday_noon practice_booked).2.

(** The row of that appointment once cancelled. *)
Definition cancelled_row : Appointment.t :=
  crud.mark_cancelled
    (crud.Appointment_model_validate
       (booking dr_a (datetime.hm 10 0) (datetime.hm 11 0))
       client_c.1 (utc_today monday_noon))
    (utc_today monday_noon).

(** A PATCH body that sends nothing. *)
Definition no_change : AppointmentUpdate.t :=
  {| AppointmentUpdate.date := Unset;
     AppointmentUpdate.start_time := Unset;
     AppointmentUpdate.end_time := Unset;
     AppointmentUpdate.status := Unset;
     AppointmentUpdate.notes := Unset |}.

Definition is_ok {A} (r : result A * db) : bool :=
  match r.1 with Ok _ => true | Raise _ => false end.

(** The reason a handler rejected with, if it did. *)
Definition rejection {A} (r : result A * db) : option exn :=
  match r.1 with Ok _ => None | Raise e => Some e end.



(** Appointment 0 of C at 10:00 to 11:00 and appointment 1 of D at 11:00 to
    12:00, both Scheduled with Dr A. *)
Definition practice_back_to_back : db :=
  (crud.create_appointment
     (booking dr_a (datetime.hm 11 0) (datetime.hm 12 0))
     client_d.1 monday_noon practice_booked).2.

(** The state after the operations of a list, when each is accepted. *)
Fixpoint accepted_all (ops : list operation) (s : db) : option db :=
  match ops with
  | [] => Some s
  | op :: rest =>
      match accepted op s with
      | Some s' => accepted_all rest s'
      | None => None
      end
  end.

(** An update of the given appointment that sends a status other than
    Cancelled. *)
Definition restores (appointment_id : uuid) (op : operation) : Prop :=
  match op with
  | UpdateAppointment id appointment_in _ _ =>
      id = appointment_id
      ∧ ∃ status, AppointmentUpdate.status appointment_in = Value status
                  ∧ status ≠ CANCELLED
  | _ => False
  end.

(** A clock reading at the very start of a requested slot. *)
Definition tuesday_at_10 : clock :=
  {| now := datetime.combine tuesday (datetime.hm 10 0); utc_today := tuesday |}.

(** A recurring rule that also carries a date. *)
Definition recurring_with_date : AvailabilityCreate.t :=
  {| AvailabilityCreate.day_of_week := Some 1;
     AvailabilityCreate.start_time := datetime.hm 9 0;
     AvailabilityCreate.end_time := datetime.hm 17 0;
     AvailabilityCreate.is_recurring := true;
     AvailabilityCreate.specific_date := Some tuesday |}.

(** A PATCH body that only rewrites the notes. *)
Definition notes_only (text : string) : AppointmentUpdate.t :=
  {| AppointmentUpdate.date := Unset;
     AppointmentUpdate.start_time := Unset;
     AppointmentUpdate.end_time := Unset;
     AppointmentUpdate.status := Unset;
     AppointmentUpdate.notes := Value text |}.

(** A PATCH body that moves the slot. *)
Definition move_to (start_time end_time : datetime.time) : AppointmentUpdate.t :=
  {| AppointmentUpdate.date := Unset;
     AppointmentUpdate.start_time := Value start_time;
     AppointmentUpdate.end_time := Value end_time;
     AppointmentUpdate.status := Unset;
     AppointmentUpdate.notes := Unset |}.

(** A PATCH body for a rule: the (required) times, and [is_recurring]
    switched off with no date sent. *)
Definition one_off_without_date : AvailabilityUpdate.t :=
  {| AvailabilityUpdate.day_of_week := Unset;
     AvailabilityUpdate.start_time := datetime.hm 9 0;
     AvailabilityUpdate.end_time := datetime.hm 17 0;
     AvailabilityUpdate.is_recurring := Some false;
     AvailabilityUpdate.specific_date := Unset |}.

(** ** crud.py: the listing and counting queries *)

Module crud_listing.

(** [.offset(skip).limit(limit)] on the rows of a statement, for the
    non-negative [skip] and [limit] of a page request. *)
Definition paginate {A} (skip limit : nat) (rows : list A) : list A :=
  take limit (drop skip rows).

(** [select(User)], with [.where(User.user_type == user_type)] when the
    filter is given. *)
Definition select_users (user_type : option UserType) (s : db)
    : list (uuid * User.t) :=
  List.filter
    (λ r : uuid * User.t,
       from_option (λ ty, bool_decide (User.user_type r.2 = ty)) true user_type)
    (map_to_list (user_table s)).

Definition get_users (skip limit : nat) (user_type : option UserType)
    : M (list (uuid * User.t)) :=
  query (λ s, paginate skip limit (select_users user_type s)).

Definition get_users_count (user_type : option UserType) : M nat :=
  query (λ s, length (select_users user_type s)).

(** [select(Availability).where(Availability.nutritionist_id == ...)]. *)
Definition select_availabilities_of (nutritionist_id : uuid) (s : db)
    : list (uuid * Availability.t) :=
  List.filter
    (λ r : uuid * Availability.t,
       bool_decide (Availability.nutritionist_id r.2 = nutritionist_id))
    (map_to_list (availability_table s)).

Definition get_availabilities_by_nutritionist (nutritionist_id : uuid)
    (skip limit : nat) : M (list (uuid * Availability.t)) :=
  query (λ s, paginate skip limit (select_availabilities_of nutritionist_id s)).

Definition get_availabilities_count_by_nutritionist (nutritionist_id : uuid)
    : M nat :=
  query (λ s, length (select_availabilities_of nutritionist_id s)).

(** [select(Appointment).where(Appointment.client_id == client_id)]. *)
Definition select_appointments_of_client (client_id : uuid) (s : db)
    : list (uuid * Appointment.t) :=
  List.filter
    (λ r : uuid * Appointment.t,
       bool_decide (Appointment.client_id r.2 = client_id))
    (map_to_list (appointment_table s)).

(** [select(Appointment).where(Appointment.nutritionist_id == ...)]. *)
Definition select_appointments_of_nutritionist (nutritionist_id : uuid) (s : db)
    : list (uuid * Appointment.t) :=
  List.filter
    (λ r : uuid * Appointment.t,
       bool_decide (Appointment.nutritionist_id r.2 = nutritionist_id))
    (map_to_list (appointment_table s)).

(** The statement carries ORDER BY, OFFSET and LIMIT; the rows are ordered
    before the page is cut, in whatever order the clauses were added. *)
Definition get_appointments_by_client (client_id : uuid) (skip limit : nat)
    : M (list (uuid * Appointment.t)) :=
  query (λ s, paginate skip limit
                (merge_sort crud.by_date_start_time
                   (select_appointments_of_client client_id s))).

Definition get_appointments_count_by_client (client_id : uuid) : M nat :=
  query (λ s, length (select_appointments_of_client client_id s)).

Definition get_appointments_by_nutritionist (nutritionist_id : uuid)
    (skip limit : nat) : M (list (uuid * Appointment.t)) :=
  query (λ s, paginate skip limit
                (merge_sort crud.by_date_start_time
                   (select_appointments_of_nutritionist nutritionist_id s))).

Definition get_appointments_count_by_nutritionist (nutritionist_id : uuid)
    : M nat :=
  query (λ s, length (select_appointments_of_nutritionist nutritionist_id s)).

End crud_listing.

(** ** api/routes/appointments.py: the GET handlers *)

(** [AppointmentsPublic] (and [UsersPublic]): a page and a count. *)
Record page (A : Type) := mk_page { data : list A; count : nat }.
Arguments mk_page {A} data count.
Arguments data {A} p.
Arguments count {A} p.

Module appointments_read.

Definition read_appointments (current_user : uuid * User.t) (skip limit : nat)
    (status : option AppointmentStatus) : M (page (uuid * Appointment.t)) :=
  '(appointments, count) ←
    (if bool_decide (User.user_type current_user.2 = NUTRITIONIST)
     then
       (* Get appointments as nutritionist *)
       appointments ←
         crud_listing.get_appointments_by_nutritionist current_user.1 skip limit;
       count ← crud_listing.get_appointments_count_by_nutritionist current_user.1;
       mret (appointments, count)
     else
       (* Get appointments as client *)
       appointments ←
         crud_listing.get_appointments_by_client current_user.1 skip limit;
       count ← crud_listing.get_appointments_count_by_client current_user.1;
       mret (appointments, count));
  (* Filter by status if specified *)
  match status with
  | Some status =>
      let appointments :=
        List.filter
          (λ a : uuid * Appointment.t,
             bool_decide (Appointment.status a.2 = status))
          appointments in
      mret (mk_page appointments (length appointments))
  | None => mret (mk_page appointments count)
  end.

Definition read_appointments_by_date_range (start_date end_date : datetime.date)
    (current_user : uuid * User.t) (status : option AppointmentStatus)
    : M (list (uuid * Appointment.t)) :=
  (* Check date range *)
  raise_if (start_date >? end_date)
    (HTTPException 400 "Start date must be before end date");;
  (* Get appointments based on user type *)
  if bool_decide (User.user_type current_user.2 = NUTRITIONIST)
  then crud.get_appointments_by_date_range (Some current_user.1) None
         start_date end_date status
  else crud.get_appointments_by_date_range None (Some current_user.1)
         start_date end_date status.

Definition read_appointment (appointment_id : uuid)
    (current_user : uuid * User.t) : M (uuid * Appointment.t) :=
  appointment ← crud.get_appointment_by_id appointment_id;
  match appointment with
  | None => raise (HTTPException 404 "Appointment not found")
  | Some appointment =>
      (* Check if the current user is part of this appointment *)
      raise_if (appointments.not_permitted current_user appointment)
        (HTTPException 403 "Not enough permissions");;
      mret appointment
  end.

End appointments_read.

(** ** api/routes/availability.py: the GET handlers *)

Module availability_read.

Definition read_availabilities (nutritionist_id : uuid) (skip limit : nat)
    : M (list (uuid * Availability.t)) :=
  (* Check if the nutritionist exists and is a nutritionist *)
  user ← crud.get_user_by_id nutritionist_id;
  raise_if
    match user with
    | None => true
    | Some user => bool_decide (User.user_type user.2 ≠ NUTRITIONIST)
    end
    (HTTPException 404 "Nutritionist not found");;
  crud_listing.get_availabilities_by_nutritionist nutritionist_id skip limit.

Definition read_availabilities_by_date_range (nutritionist_id : uuid)
    (start_date end_date : datetime.date) : M (list (uuid * Availability.t)) :=
  (* Check date range *)
  raise_if (start_date >? end_date)
    (HTTPException 400 "Start date must be before end date");;
  (* Check if the nutritionist exists and is a nutritionist *)
  user ← crud.get_user_by_id nutritionist_id;
  raise_if
    match user with
    | None => true
    | Some user => bool_decide (User.user_type user.2 ≠ NUTRITIONIST)
    end
    (HTTPException 404 "Nutritionist not found");;
  crud.get_availabilities_by_date_range nutritionist_id start_date end_date.

Definition read_availability (availability_id : uuid)
    (current_user : uuid * User.t) : M (uuid * Availability.t) :=
  availability ← crud.get_availability_by_id availability_id;
  match availability with
  | None => raise (HTTPException 404 "Availability slot not found")
  | Some availability =>
      (* Verify that the current user is either the nutritionist who owns
         this slot or an admin *)
      raise_if
        (bool_decide (Availability.nutritionist_id availability.2 ≠ current_user.1)
         && bool_decide (User.user_type current_user.2 ≠ ADMIN))
        (HTTPException 403 "Not enough permissions");;
      mret availability
  end.

End availability_read.

(** ** api/routes/nutritionists.py *)

Module nutritionists.

Definition read_nutritionists (skip limit : nat) : M (page (uuid * User.t)) :=
  nutritionists ← crud_listing.get_users skip limit (Some NUTRITIONIST);
  count ← crud_listing.get_users_count (Some NUTRITIONIST);
  mret (mk_page nutritionists count).

Definition read_nutritionist (nutritionist_id : uuid) : M (uuid * User.t) :=
  user ← crud.get_user_by_id nutritionist_id;
  match user with
  | Some user =>
      if bool_decide (User.user_type user.2 ≠ NUTRITIONIST)
      then raise (HTTPException 404 "Nutritionist not found")
      else mret user
  | None => raise (HTTPException 404 "Nutritionist not found")
  end.

End nutritionists.

(** The side of an appointment a listing looks at: the nutritionist for a
    user of type nutritionist, the client for everyone else. *)
Definition own_side (current_user : uuid * User.t) (a : Appointment.t) : Prop :=
  if bool_decide (User.user_type current_user.2 = NUTRITIONIST)
  then Appointment.nutritionist_id a = current_user.1
  else Appointment.client_id a = current_user.1.

(** A status filter that is absent or met. *)
Definition status_matches (status : option AppointmentStatus)
    (a : Appointment.t) : Prop :=
  ∀ st, status = Some st → Appointment.status a = st.

(** The tables a request leaves, accepted or not. *)
Definition state_after (op : operation) (s : db) : db :=
  match op with
  | CreateAppointment appointment_in current_user clk =>
      (appointments.create_appointment appointment_in current_user clk s).2
  | UpdateAppointment appointment_id appointment_in current_user clk =>
      (appointments.update_appointment appointment_id appointment_in
         current_user clk s).2
  | CancelAppointment appointment_id current_user clk =>
      (appointments.cancel_appointment appointment_id current_user clk s).2
  end.

(** ** models.py: profiles and nutrition records *)

(** [ProfileBase]: every field is optional.  [ProfileCreate] is the base
    (a field not sent reads [None]); [ProfileUpdate] is the same class read
    through [exclude_unset]; [Profile] is the table row. *)
Module ProfileCreate.
Record t := mk {
  phone : option string;
  address : option string;
  date_of_birth : option datetime.date;
  bio : option string;
  specialization : option string;
  years_of_experience : option Z;
  profile_image : option string }.
End ProfileCreate.

Module ProfileUpdate.
Record t := mk {
  phone : field string;
  address : field string;
  date_of_birth : field datetime.date;
  bio : field string;
  specialization : field string;
  years_of_experience : field Z;
  profile_image : field string }.
End ProfileUpdate.

Module Profile.
Record t := mk {
  phone : option string;
  address : option string;
  date_of_birth : option datetime.date;
  bio : option string;
  specialization : option string;
  years_of_experience : option Z;
  profile_image : option string;
  user_id : uuid;
  created_at : option datetime.date;
  updated_at : option datetime.date }.
End Profile.

(** A Python [float] that is only stored and handed back: the 64 bits of
    the double.  (The [bmi] property, which computes with floats, has no
    counterpart here.) *)
Abbreviation float := Z (only parsing).

Module NutritionRecordCreate.
Record t := mk {
  date : datetime.date;
  weight : option float;
  height : option float;
  notes : option string;
  recommendations : option string;
  client_id : uuid }.
End NutritionRecordCreate.

Module NutritionRecordUpdate.
Record t := mk {
  date : field NoneType; (* [date: Optional[date] = None], as above *)
  weight : field float;
  height : field float;
  notes : field string;
  recommendations : field string }.
End NutritionRecordUpdate.

Module NutritionRecord.
Record t := mk {
  date : datetime.date;
  weight : option float;
  height : option float;
  notes : option string;
  recommendations : option string;
  client_id : uuid;
  created_by_id : uuid;
  created_at : option datetime.date;
  updated_at : option datetime.date }.
End NutritionRecord.

(** ** The whole session *)

(** The scheduling tables together with the two tables the profile and
    nutrition-record handlers use. *)
Record session := mk_session {
  scheduling : db;
  profile_table : gmap uuid Profile.t;
  nutrition_record_table : gmap uuid NutritionRecord.t }.

Definition put_profile (σ : session) (id : uuid) (p : Profile.t) : session :=
  mk_session (scheduling σ) (<[id := p]> (profile_table σ))
             (nutrition_record_table σ).

Definition put_nutrition_record (σ : session) (id : uuid) (r : NutritionRecord.t)
    : session :=
  mk_session (scheduling σ) (profile_table σ)
             (<[id := r]> (nutrition_record_table σ)).

Definition drop_nutrition_record (σ : session) (id : uuid) : session :=
  mk_session (scheduling σ) (profile_table σ)
             (delete id (nutrition_record_table σ)).

(** What these handlers can end with besides a value: an exception of the
    scheduling kind, or Python's [NameError] for a global name the module
    never bound. *)
Inductive error :=
| Handled (e : exn)
| NameError (name : string).

Inductive outcome (A : Type) := Done (a : A) | Failed (e : error).
Arguments Done {A} a.
Arguments Failed {A} e.

Definition Handler (A : Type) : Type := session → outcome A * session.

#[global] Instance Handler_ret : MRet Handler := λ A a σ, (Done a, σ).
#[global] Instance Handler_bind : MBind Handler := λ A B f m σ,
  match m σ with
  | (Done a, σ') => f a σ'
  | (Failed e, σ') => (Failed e, σ')
  end.

Definition fail {A} (e : error) : Handler A := λ σ, (Failed e, σ).

(** [if c: raise HTTPException(...)]. *)
Definition fail_if (c : bool) (e : exn) : Handler unit :=
  if c then fail (Handled e) else mret tt.

Definition ask {A} (f : session → A) : Handler A := λ σ, (Done (f σ), σ).

Definition write (f : session → session) : Handler unit := λ σ, (Done tt, f σ).

(** A helper of the scheduling part run on the scheduling tables. *)
Definition lift {A} (m : M A) : Handler A := λ σ,
  match m (scheduling σ) with
  | (Ok a, s') =>
      (Done a, mk_session s' (profile_table σ) (nutrition_record_table σ))
  | (Raise e, s') =>
      (Failed (Handled e),
       mk_session s' (profile_table σ) (nutrition_record_table σ))
  end.

(** ** crud.py: profiles and nutrition records *)

Module crud_records.

(** *** Profile *)

Definition Profile_model_validate (profile_in : ProfileCreate.t)
    (user_id : uuid) (now : datetime.date) : Profile.t :=
  {| Profile.phone := ProfileCreate.phone profile_in;
     Profile.address := ProfileCreate.address profile_in;
     Profile.date_of_birth := ProfileCreate.date_of_birth profile_in;
     Profile.bio := ProfileCreate.bio profile_in;
     Profile.specialization := ProfileCreate.specialization profile_in;
     Profile.years_of_experience := ProfileCreate.years_of_experience profile_in;
     Profile.profile_image := ProfileCreate.profile_image profile_in;
     Profile.user_id := user_id;
     Profile.created_at := Some now;
     Profile.updated_at := Some now |}.

Definition create_profile (profile_in : ProfileCreate.t) (user_id : uuid)
    (clk : clock) : Handler (uuid * Profile.t) :=
  let now := utc_today clk in
  let db_profile := Profile_model_validate profile_in user_id now in
  id ← ask (λ σ, uuid4 (profile_table σ));
  write (λ σ, put_profile σ id db_profile);;
  mret (id, db_profile).

(** Every column a profile payload can null is nullable. *)
Definition update_profile (db_profile : uuid * Profile.t)
    (profile_in : ProfileUpdate.t) (clk : clock) : Handler (uuid * Profile.t) :=
  let '(id, old) := db_profile in
  let row := {|
    Profile.phone := set_nullable (ProfileUpdate.phone profile_in) (Profile.phone old);
    Profile.address :=
      set_nullable (ProfileUpdate.address profile_in) (Profile.address old);
    Profile.date_of_birth :=
      set_nullable (ProfileUpdate.date_of_birth profile_in)
                   (Profile.date_of_birth old);
    Profile.bio := set_nullable (ProfileUpdate.bio profile_in) (Profile.bio old);
    Profile.specialization :=
      set_nullable (ProfileUpdate.specialization profile_in)
                   (Profile.specialization old);
    Profile.years_of_experience :=
      set_nullable (ProfileUpdate.years_of_experience profile_in)
                   (Profile.years_of_experience old);
    Profile.profile_image :=
      set_nullable (ProfileUpdate.profile_image profile_in)
                   (Profile.profile_image old);
    Profile.user_id := Profile.user_id old;
    Profile.created_at := Profile.created_at old;
    Profile.updated_at := Some (utc_today clk) |} in
  write (λ σ, put_profile σ id row);;
  mret (id, row).

(** [select(Profile).where(Profile.user_id == user_id)] then [.first()]:
    the first selected row in table order. *)
Definition get_profile_by_user_id (user_id : uuid)
    : Handler (option (uuid * Profile.t)) :=
  ask (λ σ, head (List.filter
                    (λ r : uuid * Profile.t,
                       bool_decide (Profile.user_id r.2 = user_id))
                    (map_to_list (profile_table σ)))).

Definition get_profile_by_id (profile_id : uuid) : Handler (option (uuid * Profile.t)) :=
  ask (λ σ, (λ p, (profile_id, p)) <$> profile_table σ !! profile_id).

(** *** Nutrition Record *)

Definition NutritionRecord_model_validate (record_in : NutritionRecordCreate.t)
    (created_by_id : uuid) (now : datetime.date) : NutritionRecord.t :=
  {| NutritionRecord.date := NutritionRecordCreate.date record_in;
     NutritionRecord.weight := NutritionRecordCreate.weight record_in;
     NutritionRecord.height := NutritionRecordCreate.height record_in;
     NutritionRecord.notes := NutritionRecordCreate.notes record_in;
     NutritionRecord.recommendations :=
       NutritionRecordCreate.recommendations record_in;
     NutritionRecord.client_id := NutritionRecordCreate.client_id record_in;
     NutritionRecord.created_by_id := created_by_id;
     NutritionRecord.created_at := Some now;
     NutritionRecord.updated_at := Some now |}.

Definition create_nutrition_record (record_in : NutritionRecordCreate.t)
    (created_by_id : uuid) (clk : clock) : Handler (uuid * NutritionRecord.t) :=
  let now := utc_today clk in
  let db_record := NutritionRecord_model_validate record_in created_by_id now in
  id ← ask (λ σ, uuid4 (nutrition_record_table σ));
  write (λ σ, put_nutrition_record σ id db_record);;
  mret (id, db_record).

(** The row after [sqlmodel_update] with the dumped payload; [None] when
    [date], the one NOT NULL column a payload can touch, was sent as
    [null]. *)
Definition sqlmodel_update (old : NutritionRecord.t)
    (record_in : NutritionRecordUpdate.t) (updated_at : datetime.date)
    : option NutritionRecord.t :=
  date ← set_required_none (NutritionRecordUpdate.date record_in)
                           (NutritionRecord.date old);
  Some {|
    NutritionRecord.date := date;
    NutritionRecord.weight :=
      set_nullable (NutritionRecordUpdate.weight record_in)
                   (NutritionRecord.weight old);
    NutritionRecord.height :=
      set_nullable (NutritionRecordUpdate.height record_in)
                   (NutritionRecord.height old);
    NutritionRecord.notes :=
      set_nullable (NutritionRecordUpdate.notes record_in)
                   (NutritionRecord.notes old);
    NutritionRecord.recommendations :=
      set_nullable (NutritionRecordUpdate.recommendations record_in)
                   (NutritionRecord.recommendations old);
    NutritionRecord.client_id := NutritionRecord.client_id old;
    NutritionRecord.created_by_id := NutritionRecord.created_by_id old;
    NutritionRecord.created_at := NutritionRecord.created_at old;
    NutritionRecord.updated_at := Some updated_at |}.

Definition update_nutrition_record (db_record : uuid * NutritionRecord.t)
    (record_in : NutritionRecordUpdate.t) (clk : clock)
    : Handler (uuid * NutritionRecord.t) :=
  let '(id, old) := db_record in
  match sqlmodel_update old record_in (utc_today clk) with
  | Some row =>
      write (λ σ, put_nutrition_record σ id row);;
      mret (id, row)
  | None => fail (Handled IntegrityError)
  end.

Definition get_nutrition_record_by_id (record_id : uuid)
    : Handler (option (uuid * NutritionRecord.t)) :=
  ask (λ σ, (λ r, (record_id, r)) <$> nutrition_record_table σ !! record_id).

(** [order_by(NutritionRecord.date.desc())]. *)
Definition by_date_desc : relation (uuid * NutritionRecord.t) := λ x y,
  NutritionRecord.date y.2 ≤ NutritionRecord.date x.2.

#[global] Instance by_date_desc_dec : RelDecision by_date_desc.
Proof. intros x y. unfold by_date_desc. apply _. Defined.

Definition select_records_of_client (client_id : uuid) (σ : session)
    : list (uuid * NutritionRecord.t) :=
  List.filter
    (λ r : uuid * NutritionRecord.t,
       bool_decide (NutritionRecord.client_id r.2 = client_id))
    (map_to_list (nutrition_record_table σ)).

Definition get_nutrition_records_by_client (client_id : uuid) (skip limit : nat)
    : Handler (list (uuid * NutritionRecord.t)) :=
  ask (λ σ, crud_listing.paginate skip limit
              (merge_sort by_date_desc (select_records_of_client client_id σ))).

Definition get_nutrition_records_count_by_client (client_id : uuid) : Handler nat :=
  ask (λ σ, length (select_records_of_client client_id σ)).

Definition get_nutrition_records_by_date_range (client_id : uuid)
    (start_date end_date : datetime.date) : Handler (list (uuid * NutritionRecord.t)) :=
  ask (λ σ,
    merge_sort by_date_desc
      (List.filter
         (λ r : uuid * NutritionRecord.t,
            bool_decide (NutritionRecord.client_id r.2 = client_id)
            && (NutritionRecord.date r.2 >=? start_date)
            && (NutritionRecord.date r.2 <=? end_date))
         (map_to_list (nutrition_record_table σ)))).

Definition delete_nutrition_record (record_id : uuid) : Handler unit :=
  record ← ask (λ σ, nutrition_record_table σ !! record_id);
  match record with
  | Some _ => write (λ σ, drop_nutrition_record σ record_id)
  | None => mret tt
  end.

End crud_records.

(** ** api/routes/profiles.py *)

Module profiles.

Definition read_profile_me (current_user : uuid * User.t) : Handler (uuid * Profile.t) :=
  profile ← crud_records.get_profile_by_user_id current_user.1;
  match profile with
  | None => fail (Handled (HTTPException 404 "Profile not found"))
  | Some profile => mret profile
  end.

Definition create_profile_me (profile_in : ProfileCreate.t)
    (current_user : uuid * User.t) (clk : clock) : Handler (uuid * Profile.t) :=
  (* Check if profile already exists *)
  existing_profile ← crud_records.get_profile_by_user_id current_user.1;
  fail_if (bool_decide (is_Some existing_profile))
    (HTTPException 400 "Profile already exists for this user");;
  profile ← crud_records.create_profile profile_in current_user.1 clk;
  mret profile.

Definition update_profile_me (profile_in : ProfileUpdate.t)
    (current_user : uuid * User.t) (clk : clock) : Handler (uuid * Profile.t) :=
  profile ← crud_records.get_profile_by_user_id current_user.1;
  match profile with
  | None => fail (Handled (HTTPException 404 "Profile not found"))
  | Some profile =>
      updated_profile ← crud_records.update_profile profile profile_in clk;
      mret updated_profile
  end.

(** The guard of [read_profile] is
    [user_id != current_user.id and current_user.user_type == UserType.CLIENT];
    the module imports [ProfileCreate], [ProfilePublic] and [ProfileUpdate]
    only, so evaluating the right operand looks up a global that is not
    bound.  [and] evaluates it exactly when the left operand is true. *)
Definition read_profile (user_id : uuid) (current_user : uuid * User.t)
    : Handler (uuid * Profile.t) :=
  (* Allow users to view their own profile or if they're a nutritionist/admin *)
  (if bool_decide (user_id ≠ current_user.1)
   then fail (NameError "UserType")
   else mret tt);;
  profile ← crud_records.get_profile_by_user_id user_id;
  match profile with
  | None => fail (Handled (HTTPException 404 "Profile not found"))
  | Some profile => mret profile
  end.

End profiles.

(** ** api/routes/nutrition_records.py *)

Module nutrition_records.

Definition create_nutrition_record (record_in : NutritionRecordCreate.t)
    (current_user : uuid * User.t) (clk : clock) : Handler (uuid * NutritionRecord.t) :=
  (* Only nutritionists and admins can create records for other clients;
     clients can only create records for themselves *)
  fail_if
    (bool_decide (current_user.1 ≠ NutritionRecordCreate.client_id record_in)
     && bool_decide (User.user_type current_user.2 = CLIENT))
    (HTTPException 403 "Not enough permissions");;
  (* Check if the client exists *)
  client ← lift (crud.get_user_by_id (NutritionRecordCreate.client_id record_in));
  fail_if (bool_decide (client = None)) (HTTPException 404 "Client not found");;
  (* Create the nutrition record *)
  record ← crud_records.create_nutrition_record record_in current_user.1 clk;
  mret record.

Definition read_my_nutrition_records (current_user : uuid * User.t)
    (skip limit : nat) : Handler (page (uuid * NutritionRecord.t)) :=
  (* Only clients can view their own records using this endpoint *)
  fail_if (bool_decide (User.user_type current_user.2 ≠ CLIENT))
    (HTTPException 403 "This endpoint is only for clients");;
  records ←
    crud_records.get_nutrition_records_by_client current_user.1 skip limit;
  count ← crud_records.get_nutrition_records_count_by_client current_user.1;
  mret (mk_page records count).

Definition read_client_nutrition_records (client_id : uuid)
    (current_user : uuid * User.t) (skip limit : nat)
    : Handler (page (uuid * NutritionRecord.t)) :=
  (* Check permissions *)
  fail_if
    (bool_decide (User.user_type current_user.2 = CLIENT)
     && bool_decide (current_user.1 ≠ client_id))
    (HTTPException 403 "Not enough permissions");;
  (* Check if the client exists *)
  client ← lift (crud.get_user_by_id client_id);
  fail_if (bool_decide (client = None)) (HTTPException 404 "Client not found");;
  records ← crud_records.get_nutrition_records_by_client client_id skip limit;
  count ← crud_records.get_nutrition_records_count_by_client client_id;
  mret (mk_page records count).

Definition read_nutrition_records_by_date_range (client_id : uuid)
    (start_date end_date : datetime.date) (current_user : uuid * User.t)
    : Handler (list (uuid * NutritionRecord.t)) :=
  (* Check date range *)
  fail_if (start_date >? end_date)
    (HTTPException 400 "Start date must be before end date");;
  (* Check permissions *)
  fail_if
    (bool_decide (User.user_type current_user.2 = CLIENT)
     && bool_decide (current_user.1 ≠ client_id))
    (HTTPException 403 "Not enough permissions");;
  (* Check if the client exists *)
  client ← lift (crud.get_user_by_id client_id);
  fail_if (bool_decide (client = None)) (HTTPException 404 "Client not found");;
  crud_records.get_nutrition_records_by_date_range client_id start_date end_date.

Definition read_nutrition_record (record_id : uuid)
    (current_user : uuid * User.t) : Handler (uuid * NutritionRecord.t) :=
  record ← crud_records.get_nutrition_record_by_id record_id;
  match record with
  | None => fail (Handled (HTTPException 404 "Nutrition record not found"))
  | Some record =>
      (* Check permissions *)
      fail_if
        (bool_decide (User.user_type current_user.2 = CLIENT)
         && bool_decide (current_user.1 ≠ NutritionRecord.client_id record.2))
        (HTTPException 403 "Not enough permissions");;
      mret record
  end.

Definition update_nutrition_record (record_id : uuid)
    (record_in : NutritionRecordUpdate.t) (current_user : uuid * User.t)
    (clk : clock) : Handler (uuid * NutritionRecord.t) :=
  record ← crud_records.get_nutrition_record_by_id record_id;
  match record with
  | None => fail (Handled (HTTPException 404 "Nutrition record not found"))
  | Some record =>
      (* Check permissions - only the creator or an admin can update records *)
      fail_if
        (bool_decide (current_user.1 ≠ NutritionRecord.created_by_id record.2)
         && bool_decide (User.user_type current_user.2 ≠ ADMIN))
        (HTTPException 403 "Not enough permissions");;
      updated_record ←
        crud_records.update_nutrition_record record record_in clk;
      mret updated_record
  end.

Definition delete_nutrition_record (record_id : uuid)
    (current_user : uuid * User.t) : Handler string :=
  record ← crud_records.get_nutrition_record_by_id record_id;
  match record with
  | None => fail (Handled (HTTPException 404 "Nutrition record not found"))
  | Some record =>
      (* Check permissions - only the creator or an admin can delete records *)
      fail_if
        (bool_decide (current_user.1 ≠ NutritionRecord.created_by_id record.2)
         && bool_decide (User.user_type current_user.2 ≠ ADMIN))
        (HTTPException 403 "Not enough permissions");;
      crud_records.delete_nutrition_record record_id;;
      mret "Nutrition record deleted successfully"%string
  end.

End nutrition_records.

(** No two stored profiles belong to one user. *)
Definition one_profile_per_user (σ : session) : Prop :=
  ∀ i j p q,
    profile_table σ !! i = Some p →
    profile_table σ !! j = Some q →
    Profile.user_id p = Profile.user_id q →
    i = j.

(** The practice with no profile and no nutrition record yet. *)
Definition clinic : session :=
  {| scheduling := practice; profile_table := ∅; nutrition_record_table := ∅ |}.

Definition blank_profile : ProfileCreate.t :=
  {| ProfileCreate.phone := None;
     ProfileCreate.address := None;
     ProfileCreate.date_of_birth := None;
     ProfileCreate.bio := Some "Sports nutrition"%string;
     ProfileCreate.specialization := None;
     ProfileCreate.years_of_experience := Some 7;
     ProfileCreate.profile_image := None |}.

(** A record of that Tuesday for a client, without measurements. *)
Definition visit_record (client : uuid * User.t) : NutritionRecordCreate.t :=
  {| NutritionRecordCreate.date := tuesday;
     NutritionRecordCreate.weight := None;
     NutritionRecordCreate.height := None;
     NutritionRecordCreate.notes := Some "first visit"%string;
     NutritionRecordCreate.recommendations := None;
     NutritionRecordCreate.client_id := client.1 |}.

(** The clinic after Dr A wrote such a record for client C (key 0). *)
Definition clinic_with_record : session :=
  (nutrition_records.create_nutrition_record (visit_record client_c) dr_a
     monday_noon clinic).2.

(** An admin account that is in no table. *)
Definition admin_z : uuid * User.t := (9%N, account "z@clinic.test" ADMIN).

(** ** Running the handlers *)

Ltac run :=
  unfold mbind, M_bind, mret, M_ret, raise, query, commit; cbn.

Lemma for_each_raise_if {A} (c : A → bool) (e : exn) (l : list A) (s : db) :
  for_each l (λ x, raise_if (c x) e) s
  = if existsb c l then (Raise e, s) else (Ok tt, s).
Proof.
  induction l as [|x l IH]; [reflexivity|].
  cbn [for_each existsb]. unfold mbind, M_bind, raise_if at 1.
  destruct (c x); cbn; [reflexivity|]. apply IH.
Qed.

Lemma raise_if_run (c : bool) (e : exn) (s : db) :
  raise_if c e s = if c then (Raise e, s) else (Ok tt, s).
Proof. destruct c; reflexivity.
Qed.

(** The availability query does not get as far as the tables: the tuple
    among the arguments of [or_] stops the statement from being built. *)
Lemma get_availabilities_by_date_range_run (nutritionist_id : uuid)
    (start_date end_date : datetime.date) :
  crud.get_availabilities_by_date_range nutritionist_id start_date end_date
  = raise ArgumentError.
Proof. reflexivity. Qed.

(** What [create_appointment] returns, check by check. *)
Lemma create_appointment_run (appointment_in : AppointmentCreate.t)
    (current_user : uuid * User.t) (clk : clock) (s : db) :
  appointments.create_appointment appointment_in current_user clk s =
  if negb (nutritionist_exists s appointment_in) then (Raise NotFound, s)
  else if negb (range_valid appointment_in) then (Raise InvalidRange, s)
  else if negb (not_in_the_past appointment_in clk) then (Raise InThePast, s)
  else if negb (no_conflict s appointment_in) then (Raise SlotBooked, s)
  else (Raise ArgumentError, s).
Proof.
  unfold appointments.create_appointment, nutritionist_exists, range_valid,
    not_in_the_past, no_conflict.
  unfold crud.get_user_by_id, crud.get_appointments_by_date_range.
  rewrite get_availabilities_by_date_range_run.
  run. rewrite raise_if_run.
  destruct (user_table s !! AppointmentCreate.nutritionist_id appointment_in)
    as [u|]; cbn; [|reflexivity].
  destruct (decide (User.user_type u = NUTRITIONIST)) as [Hu|Hu].
  2:{ rewrite bool_decide_eq_true_2, bool_decide_eq_false_2 by done. reflexivity. }
  rewrite bool_decide_eq_false_2, bool_decide_eq_true_2 by (try done; intros ?; done).
  cbn. rewrite raise_if_run.
  destruct (Z.ltb_spec (AppointmentCreate.start_time appointment_in)
                       (AppointmentCreate.end_time appointment_in)) as [Hlt|Hge].
  2:{ replace (_ >=? _) with true by lia. reflexivity. }
  replace (_ >=? _) with false by lia. cbn. rewrite raise_if_run.
  destruct (datetime.lt _ _); cbn; [reflexivity|].
  rewrite for_each_raise_if.
  destruct (existsb _ _); reflexivity.
Qed.

(** ** The conflict predicate *)

(** C2. For intervals [s1,e1) and [s2,e2) with s1 < e1 and s2 < e2, the
    three-clause conflict test of the handlers gives the same boolean as
    the half-open overlap test [s1 < e2 AND s2 < e1]. *)
Theorem time_conflict_is_half_open_overlap (s1 e1 s2 e2 : datetime.time) :
  s1 < e1 → s2 < e2 →
  appointments.time_conflict s1 e1 s2 e2 = half_open_overlap s1 e1 s2 e2.
Proof.
  intros H1 H2. unfold appointments.time_conflict, half_open_overlap. lia.
Qed.

Lemma time_conflict_is_half_open_overlap_witness :
  appointments.time_conflict (datetime.hm 10 59) (datetime.hm 11 30)
                             (datetime.hm 10 0) (datetime.hm 11 0)
  = half_open_overlap (datetime.hm 10 59) (datetime.hm 11 30)
                      (datetime.hm 10 0) (datetime.hm 11 0).
Proof.
  apply (time_conflict_is_half_open_overlap
           (datetime.hm 10 59) (datetime.hm 11 30)
           (datetime.hm 10 0) (datetime.hm 11 0)); reflexivity.
Defined.

(** An overlap is a conflict even for degenerate slots. *)
Lemma half_open_overlap_conflict (s1 e1 s2 e2 : datetime.time) :
  half_open_overlap s1 e1 s2 e2 = true →
  appointments.time_conflict s1 e1 s2 e2 = true.
Proof. unfold appointments.time_conflict, half_open_overlap. lia. Qed.

(** C4. With a Scheduled appointment 10:00-11:00 of the nutritionist on the
    date, a request for 11:00-12:00 and one for 09:30-10:00 are no conflict
    (each passes the conflict check and is not rejected as already booked),
    and one for 10:59-11:30 is a conflict (rejected as already booked). *)
Theorem conflict_boundaries :
  let existing_start := datetime.hm 10 0 in
  let existing_end := datetime.hm 11 0 in
  let request start_time end_time :=
    appointments.create_appointment (booking dr_a start_time end_time)
      client_d monday_noon practice_booked in
  (∃ a, appointment_table practice_booked !! 0%N = Some a
        ∧ Appointment.nutritionist_id a = dr_a.1
        ∧ Appointment.date a = tuesday
        ∧ Appointment.status a = SCHEDULED
        ∧ Appointment.start_time a = existing_start
        ∧ Appointment.end_time a = existing_end)
  ∧ appointments.time_conflict (datetime.hm 11 0) (datetime.hm 12 0)
      existing_start existing_end = false
  ∧ no_conflict practice_booked
      (booking dr_a (datetime.hm 11 0) (datetime.hm 12 0)) = true
  ∧ rejection (request (datetime.hm 11 0) (datetime.hm 12 0)) ≠ Some SlotBooked
  ∧ appointments.time_conflict (datetime.hm 9 30) (datetime.hm 10 0)
      existing_start existing_end = false
  ∧ no_conflict practice_booked
      (booking dr_a (datetime.hm 9 30) (datetime.hm 10 0)) = true
  ∧ rejection (request (datetime.hm 9 30) (datetime.hm 10 0)) ≠ Some SlotBooked
  ∧ appointments.time_conflict (datetime.hm 10 59) (datetime.hm 11 30)
      existing_start existing_end = true
  ∧ (request (datetime.hm 10 59) (datetime.hm 11 30)).1 = Raise SlotBooked.
Proof.
  cbv zeta. split; [eexists; split; [vm_compute; reflexivity|]|];
    repeat split; vm_compute; first [reflexivity|discriminate].
Qed.

(** ** The booking validator *)

Lemma crud_create_appointment_run (appointment_in : AppointmentCreate.t)
    (client_id : uuid) (clk : clock) (s : db) :
  crud.create_appointment appointment_in client_id clk s =
  let id := uuid4 (appointment_table s) in
  let row := crud.Appointment_model_validate appointment_in client_id (utc_today clk) in
  (Ok (id, row), put_appointment s id row).
Proof. reflexivity. Qed.

Lemma uuid4_fresh {V} (table : gmap uuid V) : table !! uuid4 table = None.
Proof. apply not_elem_of_dom, is_fresh. Qed.

(** No booking request is accepted, and none writes. *)
Lemma create_appointment_never_accepted (appointment_in : AppointmentCreate.t)
    (current_user : uuid * User.t) (clk : clock) (s : db) :
  is_ok (appointments.create_appointment appointment_in current_user clk s) = false
  ∧ (appointments.create_appointment appointment_in current_user clk s).2 = s.
Proof.
  rewrite create_appointment_run. unfold is_ok.
  repeat (match goal with |- context [negb ?b] => destruct b end; cbn;
          try done).
Qed.

(** C6, on the code. The handler decides checks (1) the nutritionist exists
    with role Nutritionist, (2) start before end, (3) not in the past and
    (4) no conflict with a Scheduled appointment in that order: the response
    is the reason of the first of them that fails, whatever the later checks
    would give, so that a request passing (1)-(3) that conflicts is rejected
    as already booked wherever it lies with respect to availability.  Check
    (5) decides nothing: a request that passes (1)-(4) ends in the
    [ArgumentError] of the availability query, and no request is ever
    rejected as outside availability. *)
Theorem checks_first_failure_wins (appointment_in : AppointmentCreate.t)
    (current_user : uuid * User.t) (clk : clock) (s : db) :
  appointments.create_appointment appointment_in current_user clk s
  = match first_failure (ordered_checks s appointment_in clk) with
    | Some reason => (Raise reason, s)
    | None => (Raise ArgumentError, s)
    end
  ∧ (nutritionist_exists s appointment_in = true →
     range_valid appointment_in = true →
     not_in_the_past appointment_in clk = true →
     no_conflict s appointment_in = false →
     appointments.create_appointment appointment_in current_user clk s
     = (Raise SlotBooked, s))
  ∧ rejection (appointments.create_appointment appointment_in current_user clk s)
    ≠ Some OutsideAvailability.
Proof.
  rewrite create_appointment_run. unfold ordered_checks, first_failure, rejection.
  split; [|split].
  - repeat (match goal with |- context [negb ?b] => destruct b end; cbn;
            try reflexivity).
  - intros -> -> -> ->. reflexivity.
  - repeat (match goal with |- context [negb ?b] => destruct b end; cbn;
            try discriminate).
Qed.

Lemma checks_first_failure_wins_witness :
  appointments.create_appointment
    (booking dr_a (datetime.hm 8 0) (datetime.hm 10 30))
    client_d monday_noon practice_booked
  = (Raise SlotBooked, practice_booked)
  ∧ appointments.create_appointment
      (booking dr_a (datetime.hm 18 0) (datetime.hm 19 0))
      client_d monday_noon practice
    = (Raise ArgumentError, practice).
Proof.
  split.
  - apply (checks_first_failure_wins
             (booking dr_a (datetime.hm 8 0) (datetime.hm 10 30))
             client_d monday_noon practice_booked);
      vm_compute; reflexivity.
  - apply (proj1 (checks_first_failure_wins
                    (booking dr_a (datetime.hm 18 0) (datetime.hm 19 0))
                    client_d monday_noon practice)).
Defined.

(** The scenario of section 8 on the code: Tuesdays 09:00-17:00 with
    10:00-11:00 stored.  A request for 10:30-11:00 is refused as booked and
    one dated the day before the clock reading as in the past; a request
    for 07:00-08:00 (outside the rule) and one for 14:00-15:00 (inside it)
    both end in the [ArgumentError] of the availability query. *)
Example booking_scenario :
  rejection (appointments.create_appointment
               (booking dr_a (datetime.hm 10 30) (datetime.hm 11 0))
               client_d monday_noon practice_booked) = Some SlotBooked
  ∧ rejection (appointments.create_appointment
                 (booking dr_a (datetime.hm 10 0) (datetime.hm 11 0))
                 client_d wednesday_noon practice_booked) = Some InThePast
  ∧ rejection (appointments.create_appointment
                 (booking dr_a (datetime.hm 7 0) (datetime.hm 8 0))
                 client_d monday_noon practice_booked) = Some ArgumentError
  ∧ rejection (appointments.create_appointment
                 (booking dr_a (datetime.hm 14 0) (datetime.hm 15 0))
                 client_d monday_noon practice_booked) = Some ArgumentError.
Proof. repeat split; vm_compute; reflexivity. Qed.

(** ** The availability check *)

Lemma rule_applies_iff (date : datetime.date) (rule : Availability.t) :
  appointments.rule_applies (datetime.weekday date) date rule = true
  ↔ applies_on rule date.
Proof.
  unfold appointments.rule_applies, applies_on.
  destruct (Availability.is_recurring rule); cbn.
  - rewrite orb_false_r, bool_decide_eq_true. naive_solver.
  - rewrite bool_decide_eq_true. naive_solver.
Qed.

Lemma is_available_iff (availabilities : list (uuid * Availability.t))
    (date : datetime.date) (start_time end_time : datetime.time) :
  appointments.is_available availabilities (datetime.weekday date) date
    start_time end_time = true
  ↔ enclosing_rule availabilities date start_time end_time.
Proof.
  unfold enclosing_rule.
  induction availabilities as [|avail rest IH]; cbn.
  - split; [discriminate|]. intros (? & H & _). by apply elem_of_nil in H.
  - destruct (appointments.rule_applies _ _ _) eqn:Happ.
    + destruct (_ && _) eqn:Hin.
      * split; [intros _|done]. exists avail. rewrite elem_of_cons.
        apply rule_applies_iff in Happ. repeat split; auto; lia.
      * rewrite IH. split; intros (r & Hr & Ha & Hs & He).
        { exists r. rewrite elem_of_cons. auto. }
        apply elem_of_cons in Hr as [->|Hr]; [lia|]. exists r. auto.
    + rewrite IH. split; intros (r & Hr & Ha & Hs & He).
      { exists r. rewrite elem_of_cons. auto. }
      apply elem_of_cons in Hr as [->|Hr]; [|exists r; auto].
      apply rule_applies_iff in Ha. congruence.
Qed.

(** C3, on the code. The loop of the availability check is the test the
    claim states: over the rules it is handed it answers yes exactly when
    one rule that applies on the date (recurring on the date's weekday, or
    one-off on the date) encloses the slot, start >= rule start and end <=
    rule end, and no when no rule applies on the date (an empty list
    included).  The handler never hands it any rules: the query that is to
    fetch them raises [ArgumentError], so a request that reaches the check
    is neither booked nor rejected as outside availability, whatever rules
    are stored. *)
Theorem availability_check_never_answers :
  (∀ availabilities date start_time end_time,
     (appointments.is_available availabilities (datetime.weekday date) date
        start_time end_time = true
      ↔ enclosing_rule availabilities date start_time end_time)
     ∧ (¬ matching_rule availabilities date →
        appointments.is_available availabilities (datetime.weekday date) date
          start_time end_time = false))
  ∧ ∀ appointment_in current_user clk s,
      nutritionist_exists s appointment_in = true →
      range_valid appointment_in = true →
      not_in_the_past appointment_in clk = true →
      no_conflict s appointment_in = true →
      appointments.create_appointment appointment_in current_user clk s
      = (Raise ArgumentError, s).
Proof.
  split.
  - intros availabilities date start_time end_time.
    split; [apply is_available_iff|].
    intros Hno. apply not_true_is_false. rewrite is_available_iff.
    intros (avail & Hin & Happ & _). apply Hno. by exists avail.
  - intros appointment_in current_user clk s H1 H2 H3 H4.
    by rewrite create_appointment_run, H1, H2, H3, H4.
Qed.

Lemma availability_check_never_answers_witness :
  appointments.create_appointment
    (booking dr_a (datetime.hm 10 0) (datetime.hm 11 0))
    client_c monday_noon practice
  = (Raise ArgumentError, practice)
  ∧ appointments.create_appointment
      (booking dr_a (datetime.hm 7 0) (datetime.hm 8 0))
      client_c monday_noon practice
    = (Raise ArgumentError, practice).
Proof.
  split;
    apply (proj2 availability_check_never_answers); vm_compute; reflexivity.
Defined.

(** The window 09:00-17:00 of section 8, handed to the loop: the slots
    09:00-10:00 and 16:00-17:00 lie inside, 08:00-09:30 and 16:30-17:30 do
    not. *)
Example strict_nesting :
  let inside start_time end_time :=
    appointments.is_available [(10%N, tuesdays_9_to_17 dr_a.1)]
      (datetime.weekday tuesday) tuesday start_time end_time in
  inside (datetime.hm 9 0) (datetime.hm 10 0) = true
  ∧ inside (datetime.hm 16 0) (datetime.hm 17 0) = true
  ∧ inside (datetime.hm 8 0) (datetime.hm 9 30) = false
  ∧ inside (datetime.hm 16 30) (datetime.hm 17 30) = false.
Proof. repeat split; vm_compute; reflexivity. Qed.

(** ** The future check *)

(** A request that passes checks (1) and (2) and starts before the clock
    reading is rejected as in the past. *)
Lemma earlier_than_now_rejected (appointment_in : AppointmentCreate.t)
    (current_user : uuid * User.t) (clk : clock) (s : db) :
  nutritionist_exists s appointment_in = true →
  range_valid appointment_in = true →
  datetime.lt (datetime.combine (AppointmentCreate.date appointment_in)
                                (AppointmentCreate.start_time appointment_in))
              (now clk) = true →
  appointments.create_appointment appointment_in current_user clk s
  = (Raise InThePast, s).
Proof.
  intros H1 H2 H3. rewrite create_appointment_run, H1, H2.
  unfold not_in_the_past. rewrite H3. reflexivity.
Qed.

(** The rejection is "in the past" exactly for the requests that pass
    checks (1) and (2) and start before the clock reading. *)
Lemma rejected_in_the_past_iff (appointment_in : AppointmentCreate.t)
    (current_user : uuid * User.t) (clk : clock) (s : db) :
  rejection (appointments.create_appointment appointment_in current_user clk s)
  = Some InThePast
  ↔ nutritionist_exists s appointment_in = true
    ∧ range_valid appointment_in = true
    ∧ datetime.lt (datetime.combine (AppointmentCreate.date appointment_in)
                                    (AppointmentCreate.start_time appointment_in))
                  (now clk) = true.
Proof.
  rewrite create_appointment_run. unfold rejection, not_in_the_past.
  destruct (nutritionist_exists _ _); cbn; [|split; [discriminate|naive_solver]].
  destruct (range_valid _); cbn; [|split; [discriminate|naive_solver]].
  destruct (datetime.lt _ _); cbn; [done|].
  destruct (no_conflict _ _); cbn; split; discriminate || naive_solver.
Qed.

(** C5, on the code. A request for a slot that starts exactly at the clock
    reading is not later than now, yet it passes the future check and is
    not rejected as in the past: the handler compares with [<].  (Like every
    request that gets past the conflict check it then ends in the
    [ArgumentError] of the availability query.) *)
Theorem slot_starting_now_passes_future_check :
  let appointment_in := booking dr_a (datetime.hm 10 0) (datetime.hm 11 0) in
  datetime.combine (AppointmentCreate.date appointment_in)
                   (AppointmentCreate.start_time appointment_in)
  = now tuesday_at_10
  ∧ not_in_the_past appointment_in tuesday_at_10 = true
  ∧ rejection (appointments.create_appointment appointment_in client_c
                 tuesday_at_10 practice) ≠ Some InThePast
  ∧ rejection (appointments.create_appointment appointment_in client_c
                 tuesday_at_10 practice) = Some ArgumentError.
Proof. repeat split; vm_compute; first [reflexivity|discriminate]. Qed.

(** ** Cancellation *)

Lemma cancel_appointment_run (appointment_id : uuid)
    (current_user : uuid * User.t) (clk : clock) (s : db) :
  appointments.cancel_appointment appointment_id current_user clk s =
  match appointment_table s !! appointment_id with
  | None => (Raise AppointmentNotFound, s)
  | Some a =>
      if appointments.not_permitted current_user (appointment_id, a)
      then (Raise Forbidden, s)
      else if bool_decide (Appointment.status a = CANCELLED)
      then (Raise AlreadyCancelled, s)
      else (Ok "Appointment cancelled successfully"%string,
            put_appointment s appointment_id
              (crud.mark_cancelled a (utc_today clk)))
  end.
Proof.
  unfold appointments.cancel_appointment, crud.get_appointment_by_id,
    crud.cancel_appointment.
  run. destruct (appointment_table s !! appointment_id) as [a|] eqn:Ha; cbn.
  2: reflexivity.
  rewrite raise_if_run.
  destruct (appointments.not_permitted _ _); cbn; [reflexivity|].
  rewrite raise_if_run. destruct (bool_decide _); cbn; [reflexivity|].
  rewrite Ha. reflexivity.
Qed.

(** C7. Cancelling an appointment that is already Cancelled is rejected
    and leaves every table, the appointment's status and [updated_at]
    included, as it was, whoever asks; the reason is "already cancelled" for
    every caller who may act on the appointment (a participant or an
    admin).  Cancelling one that is not Cancelled succeeds for such a
    caller whatever the availability rules, the other appointments and the
    clock are, and only marks the row Cancelled. *)
Theorem cancel_guard (appointment_id : uuid) (current_user : uuid * User.t)
    (clk : clock) (s : db) (a : Appointment.t) :
  appointment_table s !! appointment_id = Some a →
  (Appointment.status a = CANCELLED →
   is_ok (appointments.cancel_appointment appointment_id current_user clk s)
   = false
   ∧ (appointments.cancel_appointment appointment_id current_user clk s).2 = s
   ∧ (appointments.not_permitted current_user (appointment_id, a) = false →
      appointments.cancel_appointment appointment_id current_user clk s
      = (Raise AlreadyCancelled, s)))
  ∧ (Appointment.status a ≠ CANCELLED →
     appointments.not_permitted current_user (appointment_id, a) = false →
     appointments.cancel_appointment appointment_id current_user clk s
     = (Ok "Appointment cancelled successfully"%string,
        put_appointment s appointment_id
          (crud.mark_cancelled a (utc_today clk)))).
Proof.
  intros Ha. rewrite cancel_appointment_run, Ha. split; intros Hst.
  - rewrite bool_decide_eq_true_2 by done.
    destruct (appointments.not_permitted _ _); done.
  - intros ->. by rewrite bool_decide_eq_false_2.
Qed.

Lemma cancel_guard_witness :
  appointments.cancel_appointment 0%N client_c tuesday_at_10 practice_cancelled
  = (Raise AlreadyCancelled, practice_cancelled)
  ∧ appointments.cancel_appointment 0%N client_d monday_noon practice_booked
    = (Raise Forbidden, practice_booked)
  ∧ is_ok (appointments.cancel_appointment 0%N client_c monday_noon
             practice_booked) = true.
Proof.
  split; [|split; vm_compute; reflexivity].
  destruct (cancel_guard 0%N client_c tuesday_at_10 practice_cancelled
              cancelled_row) as [H _]; [vm_compute; reflexivity|].
  destruct H as (_ & _ & H); [reflexivity|]. apply H. vm_compute. reflexivity.
Defined.

(** ** Availability rules *)

Lemma create_availability_run (availability_in : AvailabilityCreate.t)
    (current_user : uuid * User.t) (clk : clock) (s : db) :
  availability.create_availability availability_in current_user clk s =
  if bool_decide (User.user_type current_user.2 ≠ NUTRITIONIST)
  then (Raise (HTTPException 403
                 "Only nutritionists can create availability slots"), s)
  else if AvailabilityCreate.start_time availability_in
            >=? AvailabilityCreate.end_time availability_in
  then (Raise InvalidRange, s)
  else if AvailabilityCreate.is_recurring availability_in
          && bool_decide (AvailabilityCreate.day_of_week availability_in = None)
  then (Raise (HTTPException 400
                 "Day of week is required for recurring availability"), s)
  else if negb (AvailabilityCreate.is_recurring availability_in)
          && bool_decide (AvailabilityCreate.specific_date availability_in = None)
  then (Raise (HTTPException 400
                 "Specific date is required for non-recurring availability"), s)
  else
    let id := uuid4 (availability_table s) in
    let rule :=
      crud.Availability_model_validate availability_in current_user.1
        (utc_today clk) in
    (Ok (id, rule), put_availability s id rule).
Proof.
  unfold availability.create_availability, crud.create_availability. run.
  repeat (rewrite raise_if_run;
          match goal with |- context [if ?b then _ else _] => destruct b end;
          cbn; try reflexivity).
Qed.

(** C9 as stated fails: a create request for a recurring rule that also
    carries a specific date is accepted, and the stored rule has both
    fields set. *)
Lemma recurring_rule_with_date_accepted :
  ∃ id rule s',
    availability.create_availability recurring_with_date dr_a monday_noon practice
    = (Ok (id, rule), s')
    ∧ availability_table s' !! id = Some rule
    ∧ ¬ exactly_one_selected rule.
Proof.
  do 3 eexists. split; [vm_compute; reflexivity|]. split; [vm_compute; reflexivity|].
  intros [_ H]. vm_compute in H. discriminate.
Qed.

(** C9, amended. Every rule that create accepts is stored with the field
    its [is_recurring] selects set: [day_of_week] for a recurring rule,
    [specific_date] for a one-off rule (and with start before end). *)
Theorem created_rule_has_selected_field (availability_in : AvailabilityCreate.t)
    (current_user : uuid * User.t) (clk : clock) (s s' : db)
    (id : uuid) (rule : Availability.t) :
  availability.create_availability availability_in current_user clk s
  = (Ok (id, rule), s') →
  availability_table s' !! id = Some rule
  ∧ selected_field_set rule
  ∧ Availability.start_time rule < Availability.end_time rule.
Proof.
  rewrite create_availability_run.
  destruct (bool_decide _); [discriminate|].
  destruct (_ >=? _) eqn:Hrange; [discriminate|].
  destruct (_ && _) eqn:Hdow; [discriminate|].
  destruct (negb _ && _) eqn:Hdate; [discriminate|].
  cbv zeta. intros [= <- <- <-]. cbn. split; [apply lookup_insert_eq|].
  unfold selected_field_set. cbn. split; [|lia].
  destruct (AvailabilityCreate.is_recurring availability_in); cbn in *.
  - apply bool_decide_eq_false in Hdow. by apply not_eq_None_Some.
  - apply bool_decide_eq_false in Hdate. by apply not_eq_None_Some.
Qed.

Lemma created_rule_has_selected_field_witness :
  let r := availability.create_availability recurring_with_date dr_a
             monday_noon practice in
  availability_table r.2 !! 12%N
  = Some (crud.Availability_model_validate recurring_with_date dr_a.1
            (utc_today monday_noon))
  ∧ selected_field_set
      (crud.Availability_model_validate recurring_with_date dr_a.1
         (utc_today monday_noon))
  ∧ datetime.hm 9 0 < datetime.hm 17 0.
Proof.
  apply (created_rule_has_selected_field recurring_with_date dr_a monday_noon
           practice). vm_compute. reflexivity.
Defined.

(** The update handler checks the range only: a PATCH that turns the
    Tuesday rule of Dr A into a one-off rule without sending a date is
    accepted. *)
Example update_availability_unchecked :
  ∃ rule s',
    availability.update_availability 10%N one_off_without_date dr_a monday_noon
      practice = (Ok (10%N, rule), s')
    ∧ Availability.is_recurring rule = false
    ∧ Availability.specific_date rule = None.
Proof. do 2 eexists. split; [vm_compute; reflexivity|]. split; reflexivity. Qed.

(** ** The conflict check *)

(** The rows the appointment query returns are the rows of the table that
    satisfy its WHERE clauses. *)
Lemma select_appointments_elem (nutritionist_id client_id : option uuid)
    (start_date end_date : datetime.date) (status : option AppointmentStatus)
    (s : db) (x : uuid * Appointment.t) :
  x ∈ crud.select_appointments_by_date_range nutritionist_id client_id
        start_date end_date status s
  ↔ appointment_table s !! x.1 = Some x.2
    ∧ crud.appointment_selected nutritionist_id client_id start_date end_date
        status x = true.
Proof.
  unfold crud.select_appointments_by_date_range.
  rewrite merge_sort_Permutation, list_elem_of_In, filter_In, <- list_elem_of_In.
  destruct x as [id a]. by rewrite elem_of_map_to_list.
Qed.

(** The rows the conflict loops walk: the Scheduled appointments of one
    nutritionist on one date. *)
Lemma scheduled_on_elem (nutritionist_id : uuid) (date : datetime.date) (s : db)
    (x : uuid * Appointment.t) :
  x ∈ crud.select_appointments_by_date_range (Some nutritionist_id) None
        date date (Some SCHEDULED) s
  ↔ appointment_table s !! x.1 = Some x.2
    ∧ Appointment.nutritionist_id x.2 = nutritionist_id
    ∧ Appointment.date x.2 = date
    ∧ Appointment.status x.2 = SCHEDULED.
Proof.
  rewrite select_appointments_elem. unfold crud.appointment_selected. cbn.
  rewrite !andb_true_iff, !bool_decide_eq_true. split.
  - intros (? & (((? & ?) & ?) & _) & ?). repeat split; auto; lia.
  - intros (? & ? & ? & ?). repeat split; auto; lia.
Qed.

Lemma no_conflict_false_iff (s : db) (appointment_in : AppointmentCreate.t) :
  no_conflict s appointment_in = false
  ↔ ∃ id a,
      appointment_table s !! id = Some a
      ∧ Appointment.nutritionist_id a = AppointmentCreate.nutritionist_id appointment_in
      ∧ Appointment.date a = AppointmentCreate.date appointment_in
      ∧ Appointment.status a = SCHEDULED
      ∧ appointments.time_conflict
          (AppointmentCreate.start_time appointment_in)
          (AppointmentCreate.end_time appointment_in)
          (Appointment.start_time a) (Appointment.end_time a) = true.
Proof.
  unfold no_conflict. rewrite negb_false_iff, existsb_exists. split.
  - intros ([id a] & Hin & Hc). apply list_elem_of_In, scheduled_on_elem in Hin.
    cbn in *. exists id, a. naive_solver.
  - intros (id & a & Hl & Hn & Hd & Hs & Hc). exists (id, a). split; [|done].
    apply list_elem_of_In, scheduled_on_elem. done.
Qed.

(** An appointment of another nutritionist does not enter the check. *)
Lemma no_conflict_other_nutritionist (s : db) (appointment_in : AppointmentCreate.t)
    (id : uuid) (a : Appointment.t) :
  appointment_table s !! id = None →
  Appointment.nutritionist_id a ≠ AppointmentCreate.nutritionist_id appointment_in →
  no_conflict (put_appointment s id a) appointment_in = no_conflict s appointment_in.
Proof.
  intros Hfresh Hother.
  destruct (no_conflict s appointment_in) eqn:Hs.
  - apply not_false_iff_true. rewrite no_conflict_false_iff.
    intros (i & b & Hl & Hn & Hrest). cbn in Hl.
    apply lookup_insert_Some in Hl as [[-> ->]|[Hne Hl]]; [done|].
    apply not_false_iff_true in Hs. apply Hs, no_conflict_false_iff.
    exists i, b. done.
  - apply no_conflict_false_iff in Hs as (i & b & Hl & Hrest).
    apply no_conflict_false_iff. exists i, b. split; [|done]. cbn.
    rewrite lookup_insert_ne; [done|]. intros ->. congruence.
Qed.

(** C10. The conflict check of a booking looks at the Scheduled
    appointments of the target nutritionist only: a request is rejected as
    already booked only when one of that nutritionist's Scheduled
    appointments on the date conflicts, and an appointment held with a
    different nutritionist (the booking client's own included) leaves the
    outcome of the request as it would be without it. *)
Theorem conflict_check_is_per_nutritionist (appointment_in : AppointmentCreate.t)
    (current_user : uuid * User.t) (clk : clock) (s : db) :
  (rejection (appointments.create_appointment appointment_in current_user clk s)
   = Some SlotBooked →
   ∃ id a,
     appointment_table s !! id = Some a
     ∧ Appointment.nutritionist_id a = AppointmentCreate.nutritionist_id appointment_in
     ∧ Appointment.date a = AppointmentCreate.date appointment_in
     ∧ Appointment.status a = SCHEDULED
     ∧ appointments.time_conflict
         (AppointmentCreate.start_time appointment_in)
         (AppointmentCreate.end_time appointment_in)
         (Appointment.start_time a) (Appointment.end_time a) = true)
  ∧ (∀ id a,
       appointment_table s !! id = None →
       Appointment.nutritionist_id a ≠ AppointmentCreate.nutritionist_id appointment_in →
       rejection (appointments.create_appointment appointment_in current_user clk
                    (put_appointment s id a))
       = rejection (appointments.create_appointment appointment_in current_user clk s)).
Proof.
  split.
  - rewrite create_appointment_run. unfold rejection.
    destruct (nutritionist_exists _ _); cbn; [|discriminate].
    destruct (range_valid _); cbn; [|discriminate].
    destruct (not_in_the_past _ _); cbn; [|discriminate].
    destruct (no_conflict _ _) eqn:Hc; cbn; [discriminate|].
    intros _. by apply no_conflict_false_iff.
  - intros id a Hfresh Hother. rewrite !create_appointment_run.
    rewrite (no_conflict_other_nutritionist s appointment_in id a) by done.
    change (nutritionist_exists (put_appointment s id a) appointment_in)
      with (nutritionist_exists s appointment_in).
    unfold rejection.
    repeat (match goal with |- context [negb ?b] => destruct b end; cbn;
            try reflexivity).
Qed.

Lemma conflict_check_is_per_nutritionist_witness :
  rejection (appointments.create_appointment
               (booking dr_b (datetime.hm 10 0) (datetime.hm 11 0))
               client_c monday_noon
               (put_appointment practice 0%N
                  (crud.Appointment_model_validate
                     (booking dr_a (datetime.hm 10 0) (datetime.hm 11 0))
                     client_c.1 (utc_today monday_noon))))
  = rejection (appointments.create_appointment
                 (booking dr_b (datetime.hm 10 0) (datetime.hm 11 0))
                 client_c monday_noon practice).
Proof.
  apply (proj2 (conflict_check_is_per_nutritionist
                  (booking dr_b (datetime.hm 10 0) (datetime.hm 11 0))
                  client_c monday_noon practice)).
  - vm_compute. reflexivity.
  - vm_compute. discriminate.
Defined.

(** The client who holds 10:00-11:00 with Dr A asks for the same hour with
    Dr B: the request passes the conflict check. *)
Example same_hour_other_nutritionist :
  no_conflict practice_booked
    (booking dr_b (datetime.hm 10 0) (datetime.hm 11 0)) = true
  ∧ rejection (appointments.create_appointment
                 (booking dr_b (datetime.hm 10 0) (datetime.hm 11 0))
                 client_c monday_noon practice_booked) ≠ Some SlotBooked.
Proof. split; vm_compute; [reflexivity|discriminate]. Qed.

(** ** Updates *)

Lemma validate_new_slot_run (appointment_id : uuid) (a : Appointment.t)
    (appointment_in : AppointmentUpdate.t) (clk : clock) (s : db) :
  appointments.validate_new_slot (appointment_id, a) appointment_in clk s =
  if new_start_time a appointment_in >=? new_end_time a appointment_in
  then (Raise InvalidRange, s)
  else if datetime.lt (datetime.combine (new_date a appointment_in)
                                        (new_start_time a appointment_in))
                      (now clk)
  then (Raise InThePast, s)
  else if update_conflict s appointment_id a appointment_in
  then (Raise SlotBooked_on_update, s)
  else (Raise ArgumentError, s).
Proof.
  unfold appointments.validate_new_slot, crud.get_appointments_by_date_range.
  rewrite get_availabilities_by_date_range_run.
  run. fold (new_date a appointment_in) (new_start_time a appointment_in)
    (new_end_time a appointment_in).
  rewrite raise_if_run. destruct (_ >=? _); cbn; [reflexivity|].
  rewrite raise_if_run. destruct (datetime.lt _ _); cbn; [reflexivity|].
  rewrite for_each_raise_if. fold (update_conflict s appointment_id a appointment_in).
  destruct (update_conflict _ _ _ _); reflexivity.
Qed.

(** The validation of a new slot never passes. *)
Lemma validate_new_slot_never_passes (appointment : uuid * Appointment.t)
    (appointment_in : AppointmentUpdate.t) (clk : clock) (s : db) :
  ∃ e, appointments.validate_new_slot appointment appointment_in clk s
       = (Raise e, s).
Proof.
  destruct appointment as [id a]. rewrite validate_new_slot_run.
  repeat (match goal with |- context [if ?b then _ else _] => destruct b end;
          eauto).
Qed.

(** A validation never writes. *)
Lemma validate_new_slot_reads (appointment : uuid * Appointment.t)
    (appointment_in : AppointmentUpdate.t) (clk : clock) (s : db) :
  (appointments.validate_new_slot appointment appointment_in clk s).2 = s.
Proof.
  destruct appointment as [id a]. rewrite validate_new_slot_run.
  repeat (match goal with |- context [if ?b then _ else _] => destruct b end;
          try reflexivity).
Qed.

Lemma update_appointment_run (appointment_id : uuid)
    (appointment_in : AppointmentUpdate.t) (current_user : uuid * User.t)
    (clk : clock) (s : db) :
  appointments.update_appointment appointment_id appointment_in current_user clk s =
  match appointment_table s !! appointment_id with
  | None => (Raise AppointmentNotFound, s)
  | Some a =>
      if appointments.not_permitted current_user (appointment_id, a)
      then (Raise Forbidden, s)
      else
        match (if sends_slot appointment_in
               then appointments.validate_new_slot (appointment_id, a)
                      appointment_in clk s
               else (Ok tt, s)).1 with
        | Raise e => (Raise e, s)
        | Ok _ =>
            match crud.sqlmodel_update a appointment_in (utc_today clk) with
            | Some row => (Ok (appointment_id, row),
                           put_appointment s appointment_id row)
            | None => (Raise IntegrityError, s)
            end
        end
  end.
Proof.
  unfold appointments.update_appointment, crud.get_appointment_by_id,
    crud.update_appointment.
  run. destruct (appointment_table s !! appointment_id) as [a|]; cbn.
  2: reflexivity.
  rewrite raise_if_run.
  destruct (appointments.not_permitted _ _); cbn; [reflexivity|].
  fold (sends_slot appointment_in).
  destruct (sends_slot appointment_in); cbn.
  - pose proof (validate_new_slot_reads (appointment_id, a) appointment_in clk s)
      as Hs.
    destruct (appointments.validate_new_slot _ _ _ _) as [[[]|e] s1];
      cbn in *; subst s1; [|reflexivity].
    destruct (crud.sqlmodel_update _ _ _); reflexivity.
  - destruct (crud.sqlmodel_update _ _ _); reflexivity.
Qed.

(** A rejected update writes nothing. *)
Lemma update_rejected_unchanged (appointment_id : uuid)
    (appointment_in : AppointmentUpdate.t) (current_user : uuid * User.t)
    (clk : clock) (s : db) :
  is_ok (appointments.update_appointment appointment_id appointment_in
           current_user clk s) = false →
  (appointments.update_appointment appointment_id appointment_in
     current_user clk s).2 = s.
Proof.
  rewrite update_appointment_run. unfold is_ok.
  destruct (appointment_table s !! appointment_id) as [a|]; [|done].
  destruct (appointments.not_permitted _ _); [done|].
  destruct ((if sends_slot _ then _ else _).1); [|done].
  destruct (crud.sqlmodel_update _ _ _); [discriminate|done].
Qed.

Lemma update_conflict_true_iff (s : db) (appointment_id : uuid)
    (a : Appointment.t) (appointment_in : AppointmentUpdate.t) :
  update_conflict s appointment_id a appointment_in = true
  ↔ ∃ id b,
      id ≠ appointment_id
      ∧ appointment_table s !! id = Some b
      ∧ Appointment.nutritionist_id b = Appointment.nutritionist_id a
      ∧ Appointment.date b = new_date a appointment_in
      ∧ Appointment.status b = SCHEDULED
      ∧ appointments.time_conflict
          (new_start_time a appointment_in) (new_end_time a appointment_in)
          (Appointment.start_time b) (Appointment.end_time b) = true.
Proof.
  unfold update_conflict. rewrite existsb_exists. split.
  - intros ([id b] & Hin & Hc). apply list_elem_of_In, scheduled_on_elem in Hin.
    cbn in *. apply andb_true_iff in Hc as [Hne Hc].
    apply bool_decide_eq_true in Hne. exists id, b. naive_solver.
  - intros (id & b & Hne & Hl & Hn & Hd & Hs & Hc). exists (id, b). split.
    + apply list_elem_of_In, scheduled_on_elem. done.
    + cbn. rewrite Hc, andb_true_r. by apply bool_decide_eq_true.
Qed.

(** The conflict check of an update does not depend on the row being
    updated beyond its nutritionist and the new slot. *)
Lemma update_conflict_own_row (s : db) (appointment_id : uuid)
    (a a' : Appointment.t) (appointment_in : AppointmentUpdate.t) :
  update_conflict (put_appointment s appointment_id a') appointment_id a
    appointment_in
  = update_conflict s appointment_id a appointment_in.
Proof.
  apply eq_true_iff_eq. rewrite !update_conflict_true_iff.
  split; intros (id & b & Hne & Hl & Hrest); exists id, b;
    (split; [done|]); (split; [|done]); cbn in *.
  - by rewrite lookup_insert_ne in Hl.
  - by rewrite lookup_insert_ne.
Qed.

Lemma sqlmodel_update_with_status (a : Appointment.t) (status : AppointmentStatus)
    (appointment_in : AppointmentUpdate.t) (today : datetime.date) :
  is_Some (crud.sqlmodel_update (with_status a status) appointment_in today)
  ↔ is_Some (crud.sqlmodel_update a appointment_in today).
Proof.
  unfold crud.sqlmodel_update.
  destruct (AppointmentUpdate.date appointment_in) as [| |[]],
    (AppointmentUpdate.start_time appointment_in),
    (AppointmentUpdate.end_time appointment_in),
    (AppointmentUpdate.status appointment_in); cbn;
    split; intros [? [=]]; eauto.
Qed.

Lemma validate_new_slot_with_status (appointment_id : uuid) (a : Appointment.t)
    (status : AppointmentStatus) (appointment_in : AppointmentUpdate.t)
    (clk : clock) (s : db) :
  (appointments.validate_new_slot (appointment_id, with_status a status)
     appointment_in clk
     (put_appointment s appointment_id (with_status a status))).1
  = (appointments.validate_new_slot (appointment_id, a) appointment_in clk s).1.
Proof.
  rewrite !validate_new_slot_run, update_conflict_own_row.
  change (update_conflict s appointment_id (with_status a status) appointment_in)
    with (update_conflict s appointment_id a appointment_in).
  change (new_start_time (with_status a status) appointment_in)
    with (new_start_time a appointment_in).
  change (new_end_time (with_status a status) appointment_in)
    with (new_end_time a appointment_in).
  change (new_date (with_status a status) appointment_in)
    with (new_date a appointment_in).
  repeat (match goal with |- context [if ?b then _ else _] => destruct b end;
          try reflexivity).
Qed.

(** C8 as stated fails: the appointment of the practice is Cancelled, and
    a PATCH of its notes from its client is accepted and rewrites the
    stored row. *)
Lemma cancelled_appointment_updated :
  ∃ a, appointment_table practice_cancelled !! 0%N = Some a
       ∧ Appointment.status a = CANCELLED
       ∧ ∃ row s',
           appointments.update_appointment 0%N (notes_only "bring lab results")
             client_c monday_noon practice_cancelled = (Ok (0%N, row), s')
           ∧ appointment_table s' !! 0%N = Some row
           ∧ Appointment.status row = CANCELLED
           ∧ Appointment.notes row = Some "bring lab results"%string
           ∧ Appointment.notes row ≠ Appointment.notes a.
Proof.
  eexists. split; [vm_compute; reflexivity|]. split; [reflexivity|].
  do 2 eexists. split; [vm_compute; reflexivity|].
  split; [vm_compute; reflexivity|]. split; [reflexivity|].
  split; [reflexivity|]. vm_compute. discriminate.
Qed.

(** C8, amended. The update handler does not read the status: a request on
    a Cancelled appointment is accepted, or rejected with the same reason,
    exactly as it would be were the appointment Scheduled or Completed.
    When it is rejected nothing stored changes; when it is accepted the
    stored row is the one [crud.sqlmodel_update] makes of the payload, as
    for any other appointment. *)
Theorem update_does_not_read_status (appointment_id : uuid)
    (appointment_in : AppointmentUpdate.t) (current_user : uuid * User.t)
    (clk : clock) (s : db) (a : Appointment.t) (status : AppointmentStatus) :
  appointment_table s !! appointment_id = Some a →
  Appointment.status a = CANCELLED →
  rejection (appointments.update_appointment appointment_id appointment_in
               current_user clk s)
  = rejection (appointments.update_appointment appointment_id appointment_in
                 current_user clk
                 (put_appointment s appointment_id (with_status a status)))
  ∧ (is_ok (appointments.update_appointment appointment_id appointment_in
              current_user clk s) = false →
     (appointments.update_appointment appointment_id appointment_in
        current_user clk s).2 = s)
  ∧ (is_ok (appointments.update_appointment appointment_id appointment_in
              current_user clk s) = true →
     ∃ row,
       crud.sqlmodel_update a appointment_in (utc_today clk) = Some row
       ∧ appointments.update_appointment appointment_id appointment_in
           current_user clk s
         = (Ok (appointment_id, row), put_appointment s appointment_id row)).
Proof.
  intros Ha Hst. split; [|split].
  - rewrite !update_appointment_run, Ha. cbn [put_appointment appointment_table].
    rewrite lookup_insert_eq.
    change (appointments.not_permitted current_user
              (appointment_id, with_status a status))
      with (appointments.not_permitted current_user (appointment_id, a)).
    destruct (appointments.not_permitted _ _); [reflexivity|].
    pose proof (validate_new_slot_with_status appointment_id a status
                  appointment_in clk s) as Hv.
    pose proof (sqlmodel_update_with_status a status appointment_in
                  (utc_today clk)) as Hu.
    destruct (sends_slot appointment_in).
    + rewrite Hv.
      destruct ((appointments.validate_new_slot (appointment_id, a)
                   appointment_in clk s).1); [|reflexivity].
      destruct (crud.sqlmodel_update (with_status a status) _ _),
        (crud.sqlmodel_update a _ _); try reflexivity.
      * destruct Hu as [Hu _]. destruct Hu as [? [=]]. eauto.
      * destruct Hu as [_ Hu]. destruct Hu as [? [=]]. eauto.
    + cbn. destruct (crud.sqlmodel_update (with_status a status) _ _),
        (crud.sqlmodel_update a _ _); try reflexivity.
      * destruct Hu as [Hu _]. destruct Hu as [? [=]]. eauto.
      * destruct Hu as [_ Hu]. destruct Hu as [? [=]]. eauto.
  - apply update_rejected_unchanged.
  - rewrite update_appointment_run, Ha. unfold is_ok.
    destruct (appointments.not_permitted _ _); [discriminate|].
    destruct ((if sends_slot _ then _ else _).1); [|discriminate].
    destruct (crud.sqlmodel_update _ _ _) as [row|]; [|discriminate].
    intros _. by exists row.
Qed.

Lemma update_does_not_read_status_witness :
  rejection (appointments.update_appointment 0%N
               (move_to (datetime.hm 14 0) (datetime.hm 15 0))
               client_c monday_noon practice_cancelled)
  = rejection (appointments.update_appointment 0%N
                 (move_to (datetime.hm 14 0) (datetime.hm 15 0))
                 client_c monday_noon
                 (put_appointment practice_cancelled 0%N
                    (with_status cancelled_row SCHEDULED))).
Proof.
  apply (update_does_not_read_status 0%N
           (move_to (datetime.hm 14 0) (datetime.hm 15 0))
           client_c monday_noon practice_cancelled cancelled_row SCHEDULED).
  - vm_compute. reflexivity.
  - reflexivity.
Defined.

(** The update scenario of section 8 on the code: moving 10:00-11:00 to
    10:30-11:30 is refused as conflicting when 11:00-11:45 is Scheduled for
    the same nutritionist, the row staying as it was; when nothing else is
    stored the request ends in the [ArgumentError] of the availability
    query. *)
Example update_scenario :
  appointments.update_appointment 0%N
    (move_to (datetime.hm 10 30) (datetime.hm 11 30)) client_c monday_noon
    practice_booked
  = (Raise ArgumentError, practice_booked)
  ∧ (let s := (crud.create_appointment
                 (booking dr_a (datetime.hm 11 0) (datetime.hm 11 45))
                 client_d.1 monday_noon practice_booked).2 in
     appointments.update_appointment 0%N
       (move_to (datetime.hm 10 30) (datetime.hm 11 30)) client_c monday_noon s
     = (Raise SlotBooked_on_update, s)).
Proof. split; vm_compute; reflexivity. Qed.

(** ** The double-booking invariant *)

(** Through the handlers alone nothing is ever booked: from an empty
    appointment table, accepted requests lead to an empty appointment
    table. *)
Lemma handlers_alone_store_nothing (s : db) :
  reachable s → appointment_table s = ∅.
Proof.
  induction 1 as [s Hempty|s op s' Hreach IH Hop]; [done|].
  destruct op as [appointment_in u clk|id appointment_in u clk|id u clk];
    cbn in Hop.
  - rewrite create_appointment_run in Hop.
    repeat (match type of Hop with context [negb ?b] => destruct b end;
            cbn in Hop; try discriminate).
  - rewrite update_appointment_run, IH, lookup_empty in Hop. discriminate.
  - rewrite cancel_appointment_run, IH, lookup_empty in Hop. discriminate.
Qed.

(** What two stored rows are, read off a table of two. *)
Lemma lookup_two {V} (i j k : uuid) (x y v : V) :
  (<[i := x]> (<[j := y]> (∅ : gmap uuid V))) !! k = Some v →
  (k = i ∧ v = x) ∨ (k = j ∧ v = y).
Proof.
  intros H. apply lookup_insert_Some in H as [[<- <-]|[_ H]]; [by left|].
  apply lookup_insert_Some in H as [[<- <-]|[_ H]]; [by right|].
  by rewrite lookup_empty in H.
Qed.


(** Every accepted operation other than such a re-activation keeps the
    invariant. *)

Lemma no_double_booking_put (s : db) (id : uuid) (row : Appointment.t) :
  no_double_booking s →
  (∀ j b,
     j ≠ id →
     appointment_table s !! j = Some b →
     Appointment.nutritionist_id b = Appointment.nutritionist_id row →
     Appointment.date b = Appointment.date row →
     Appointment.status row = SCHEDULED →
     Appointment.status b = SCHEDULED →
     ¬ overlapping row b) →
  no_double_booking (put_appointment s id row).
Proof.
  intros Hinv Hrow i j a b Hne Hi Hj Hn Hd Hsa Hsb. cbn in Hi, Hj.
  apply lookup_insert_Some in Hi as [[<- <-]|[Hi' Hi]];
    apply lookup_insert_Some in Hj as [[<- <-]|[Hj' Hj]].
  - done.
  - by apply (Hrow j b).
  - intros [H1 H2]. by apply (Hrow i a).
  - by apply (Hinv i j a b).
Qed.

Lemma sqlmodel_update_row (a row : Appointment.t)
    (appointment_in : AppointmentUpdate.t) (today : datetime.date) :
  crud.sqlmodel_update a appointment_in today = Some row →
  Appointment.date row = new_date a appointment_in
  ∧ Appointment.start_time row = new_start_time a appointment_in
  ∧ Appointment.end_time row = new_end_time a appointment_in
  ∧ Appointment.nutritionist_id row = Appointment.nutritionist_id a
  ∧ Appointment.status row
    = field_or (AppointmentUpdate.status appointment_in) (Appointment.status a).
Proof.
  unfold crud.sqlmodel_update, new_date, new_start_time, new_end_time.
  destruct (AppointmentUpdate.date appointment_in) as [| |[]],
    (AppointmentUpdate.start_time appointment_in),
    (AppointmentUpdate.end_time appointment_in),
    (AppointmentUpdate.status appointment_in); cbn;
    intros [= <-]; done.
Qed.

Lemma sends_no_slot_same_slot (a : Appointment.t)
    (appointment_in : AppointmentUpdate.t) :
  sends_slot appointment_in = false →
  sends_no_slot appointment_in
  ∧ ∀ row today,
      crud.sqlmodel_update a appointment_in today = Some row →
      Appointment.date row = Appointment.date a
      ∧ Appointment.start_time row = Appointment.start_time a
      ∧ Appointment.end_time row = Appointment.end_time a.
Proof.
  unfold sends_slot, sends_no_slot. intros H.
  apply orb_false_iff in H as [H H3]. apply orb_false_iff in H as [H1 H2].
  split; [done|]. intros row today Hrow.
  apply sqlmodel_update_row in Hrow as (-> & -> & -> & _).
  unfold new_date, new_start_time, new_end_time.
  destruct (AppointmentUpdate.date appointment_in) as [| |[]],
    (AppointmentUpdate.start_time appointment_in),
    (AppointmentUpdate.end_time appointment_in); done.
Qed.

(** An accepted booking, update or cancellation keeps the tables free of
    double bookings, unless it is an update that sends no date or time and
    puts an appointment that was not Scheduled back to Scheduled. *)
Theorem no_double_booking_step (op : operation) (s s' : db) :
  no_double_booking s →
  accepted op s = Some s' →
  ¬ reactivates op s →
  no_double_booking s'.
Proof.
  intros Hinv Hop Hre. destruct op as [appointment_in u clk|id appointment_in u clk|id u clk];
    cbn in Hop.
  - (* create: never accepted *)
    rewrite create_appointment_run in Hop.
    destruct (nutritionist_exists _ _); cbn in Hop; [|discriminate].
    destruct (range_valid _); cbn in Hop; [|discriminate].
    destruct (not_in_the_past _ _); cbn in Hop; [|discriminate].
    destruct (no_conflict _ _) eqn:Hc; cbn in Hop; discriminate.
  - (* update *)
    rewrite update_appointment_run in Hop.
    destruct (appointment_table s !! id) as [a|] eqn:Ha; [|discriminate].
    destruct (appointments.not_permitted _ _); [discriminate|].
    destruct (sends_slot appointment_in) eqn:Hsends.
    + (* a slot is sent: never accepted *)
      destruct (validate_new_slot_never_passes (id, a) appointment_in clk s)
        as [e He].
      rewrite He in Hop. discriminate.
    + (* no slot sent: the row keeps its slot *)
      cbn in Hop.
      destruct (crud.sqlmodel_update _ _ _) as [row|] eqn:Hrow; [|discriminate].
      injection Hop as <-. apply (no_double_booking_put s); [done|].
      destruct (sends_no_slot_same_slot a appointment_in Hsends) as [Hno Hsame].
      destruct (Hsame row _ Hrow) as (Hd' & Hs' & He').
      apply sqlmodel_update_row in Hrow as (_ & _ & _ & Hn' & Hst').
      intros j b Hne Hj Hn Hd Hsrow Hsb [H1 H2].
      destruct (decide (Appointment.status a = SCHEDULED)) as [Hsa|Hsa].
      * apply (Hinv id j a b); try done; try congruence.
        split; congruence.
      * apply Hre. cbn. split; [done|]. split; [|by exists a].
        destruct (AppointmentUpdate.status appointment_in); cbn in Hst';
          congruence.
  - (* cancel: the row is no longer Scheduled *)
    rewrite cancel_appointment_run in Hop.
    destruct (appointment_table s !! id) as [a|]; [|discriminate].
    destruct (appointments.not_permitted _ _); [discriminate|].
    destruct (bool_decide _); [discriminate|].
    injection Hop as <-. apply (no_double_booking_put s); [done|].
    intros j b _ _ _ _ Hst. discriminate Hst.
Qed.

(** ** Listings *)

#[local] Instance by_date_start_time_transitive :
  Transitive crud.by_date_start_time.
Proof. intros x y z. unfold crud.by_date_start_time. lia. Qed.

#[local] Instance by_date_start_time_total : Total crud.by_date_start_time.
Proof. intros x y. unfold crud.by_date_start_time. lia. Qed.

Lemma List_filter_sublist {A} (f : A → bool) (l : list A) :
  List.filter f l `sublist_of` l.
Proof.
  induction l as [|x l IH]; cbn; [constructor|].
  destruct (f x); by constructor.
Qed.

Lemma StronglySorted_sublist {A} (R : relation A) (l1 l2 : list A) :
  l1 `sublist_of` l2 → StronglySorted R l2 → StronglySorted R l1.
Proof.
  induction 1 as [|x l1 l2 Hsub IH|x l1 l2 Hsub IH]; intros Hs.
  - constructor.
  - apply StronglySorted_inv in Hs as [Hs Hx]. constructor; [auto|].
    rewrite Forall_forall in *. intros y Hy. apply Hx.
    by apply (sublist_subseteq _ _ Hsub).
  - apply StronglySorted_inv in Hs as [Hs _]. auto.
Qed.

Lemma paginate_sublist {A} (skip limit : nat) (rows : list A) :
  crud_listing.paginate skip limit rows `sublist_of` rows.
Proof.
  unfold crud_listing.paginate.
  etrans; [apply sublist_take|apply sublist_drop].
Qed.

Lemma paginate_length {A} (skip limit : nat) (rows : list A) :
  (length (crud_listing.paginate skip limit rows) ≤ limit)%nat
  ∧ (length (crud_listing.paginate skip limit rows) ≤ length rows)%nat.
Proof.
  unfold crud_listing.paginate. rewrite length_take, length_drop. lia.
Qed.

Lemma paginate_all {A} (limit : nat) (rows : list A) :
  (length rows ≤ limit)%nat → crud_listing.paginate 0 limit rows = rows.
Proof. intros H. unfold crud_listing.paginate. cbn. by apply take_ge. Qed.

Lemma select_appointments_sorted (nutritionist_id client_id : option uuid)
    (start_date end_date : datetime.date) (status : option AppointmentStatus)
    (s : db) :
  StronglySorted crud.by_date_start_time
    (crud.select_appointments_by_date_range nutritionist_id client_id
       start_date end_date status s)
  ∧ NoDup (crud.select_appointments_by_date_range nutritionist_id client_id
             start_date end_date status s).
Proof.
  unfold crud.select_appointments_by_date_range. split.
  - apply StronglySorted_merge_sort; apply _.
  - rewrite merge_sort_Permutation.
    eapply sublist_NoDup; [apply NoDup_map_to_list|apply List_filter_sublist].
Qed.

(** The date-range listing of appointments: a reversed range is refused;
    otherwise the answer holds, once each and ordered by date then start
    time, exactly the rows of the table dated inside the range that have
    the user on their own side (nutritionist side for a nutritionist,
    client side for everyone else) and meet the status filter. *)
Theorem appointments_by_date_range_listing (start_date end_date : datetime.date)
    (current_user : uuid * User.t) (status : option AppointmentStatus) (s : db) :
  (start_date > end_date →
   appointments_read.read_appointments_by_date_range start_date end_date
     current_user status s
   = (Raise (HTTPException 400 "Start date must be before end date"), s))
  ∧ (start_date ≤ end_date →
     ∃ rows,
       appointments_read.read_appointments_by_date_range start_date end_date
         current_user status s = (Ok rows, s)
       ∧ StronglySorted crud.by_date_start_time rows
       ∧ NoDup rows
       ∧ ∀ x, x ∈ rows
              ↔ appointment_table s !! x.1 = Some x.2
                ∧ start_date ≤ Appointment.date x.2 ≤ end_date
                ∧ own_side current_user x.2
                ∧ status_matches status x.2).
Proof.
  unfold appointments_read.read_appointments_by_date_range,
    crud.get_appointments_by_date_range.
  run. rewrite raise_if_run. split; intros Hr.
  - replace (start_date >? end_date) with true by lia. reflexivity.
  - replace (start_date >? end_date) with false by lia. cbn.
    unfold own_side, status_matches.
    destruct (bool_decide (User.user_type current_user.2 = NUTRITIONIST));
      eexists; (split; [reflexivity|]);
      (split; [apply select_appointments_sorted|]);
      (split; [apply select_appointments_sorted|]);
      intros x; rewrite select_appointments_elem;
      unfold crud.appointment_selected; cbn;
      rewrite !andb_true_iff, !bool_decide_eq_true;
      destruct status as [st|]; cbn; rewrite ?bool_decide_eq_true;
      split; intros H; destruct_and?; repeat split; auto; try lia;
      try (intros ? [= <-]; done); naive_solver.
Qed.

Lemma appointments_by_date_range_listing_witness :
  ∃ rows,
    appointments_read.read_appointments_by_date_range tuesday tuesday client_c
      (Some SCHEDULED) practice_booked = (Ok rows, practice_booked)
    ∧ (0%N, crud.Appointment_model_validate
              (booking dr_a (datetime.hm 10 0) (datetime.hm 11 0))
              client_c.1 (utc_today monday_noon)) ∈ rows.
Proof.
  destruct (appointments_by_date_range_listing tuesday tuesday client_c
              (Some SCHEDULED) practice_booked) as [_ H].
  destruct H as (rows & Hrun & _ & _ & Hin); [reflexivity|].
  exists rows. split; [exact Hrun|]. apply Hin. cbn.
  repeat split; try (vm_compute; reflexivity || discriminate).
  intros st [= <-]. reflexivity.
Defined.

Lemma select_appointments_of_client_elem (client_id : uuid) (s : db)
    (x : uuid * Appointment.t) :
  x ∈ crud_listing.select_appointments_of_client client_id s
  ↔ appointment_table s !! x.1 = Some x.2 ∧ Appointment.client_id x.2 = client_id.
Proof.
  unfold crud_listing.select_appointments_of_client.
  rewrite list_elem_of_In, filter_In, <- list_elem_of_In, bool_decide_eq_true.
  destruct x as [id a]. by rewrite elem_of_map_to_list.
Qed.

Lemma select_appointments_of_nutritionist_elem (nutritionist_id : uuid) (s : db)
    (x : uuid * Appointment.t) :
  x ∈ crud_listing.select_appointments_of_nutritionist nutritionist_id s
  ↔ appointment_table s !! x.1 = Some x.2
    ∧ Appointment.nutritionist_id x.2 = nutritionist_id.
Proof.
  unfold crud_listing.select_appointments_of_nutritionist.
  rewrite list_elem_of_In, filter_In, <- list_elem_of_In, bool_decide_eq_true.
  destruct x as [id a]. by rewrite elem_of_map_to_list.
Qed.

(** The page both branches of [read_appointments] cut, before the status
    filter. *)
Lemma ordered_page_facts (skip limit : nat) (rows : list (uuid * Appointment.t)) :
  let page := crud_listing.paginate skip limit
                (merge_sort crud.by_date_start_time rows) in
  StronglySorted crud.by_date_start_time page
  ∧ (length page ≤ limit)%nat
  ∧ (length page ≤ length rows)%nat
  ∧ (∀ x, x ∈ page → x ∈ rows)
  ∧ (skip = 0%nat → (length rows ≤ limit)%nat →
     length page = length rows ∧ ∀ x, x ∈ rows → x ∈ page).
Proof.
  cbv zeta. split; [|split; [|split; [|split]]].
  - eapply StronglySorted_sublist; [apply paginate_sublist|].
    apply StronglySorted_merge_sort; apply _.
  - apply paginate_length.
  - etrans; [apply paginate_length|]. by rewrite merge_sort_Permutation.
  - intros x Hx. apply (sublist_subseteq _ _ (paginate_sublist _ _ _)) in Hx.
    by rewrite merge_sort_Permutation in Hx.
  - intros -> Hlen. rewrite paginate_all by (by rewrite merge_sort_Permutation).
    split; [by rewrite merge_sort_Permutation|].
    intros x Hx. by rewrite merge_sort_Permutation.
Qed.

(** The paged listing of a user's appointments.  Every row of the page is
    a row of the table with the user on their own side, the page is
    ordered by date then start time and no longer than [limit].  With a
    status filter the page keeps only the rows of that status and the
    count is the length of what is left of the page; without one the count
    is at least the length of the page, and a first page whose limit
    reaches the count holds every appointment of the user.  Precisely: with
    the user's appointments ordered by date then start time, the page is
    the segment of [limit] rows after the first [skip], filtered by the
    status when one is given, and the count is the number of the user's
    appointments when no status is given. *)
Theorem appointments_page (current_user : uuid * User.t) (skip limit : nat)
    (status : option AppointmentStatus) (s : db) :
  ∃ p,
    appointments_read.read_appointments current_user skip limit status s
    = (Ok p, s)
    ∧ (∀ x, x ∈ data p →
            appointment_table s !! x.1 = Some x.2
            ∧ own_side current_user x.2
            ∧ status_matches status x.2)
    ∧ StronglySorted crud.by_date_start_time (data p)
    ∧ (length (data p) ≤ limit)%nat
    ∧ (is_Some status → count p = length (data p))
    ∧ (status = None →
       (length (data p) ≤ count p)%nat
       ∧ (skip = 0%nat → (count p ≤ limit)%nat →
          length (data p) = count p
          ∧ ∀ x, appointment_table s !! x.1 = Some x.2 →
                 own_side current_user x.2 → x ∈ data p))
    ∧ ∃ all,
        (∀ x, x ∈ all
              ↔ appointment_table s !! x.1 = Some x.2 ∧ own_side current_user x.2)
        ∧ NoDup all
        ∧ StronglySorted crud.by_date_start_time all
        ∧ (status = None →
           data p = take limit (drop skip all) ∧ count p = length all)
        ∧ (∀ st, status = Some st →
             ∀ x, x ∈ data p
                  ↔ x ∈ take limit (drop skip all) ∧ Appointment.status x.2 = st).
Proof.
  assert (Hall' : ∀ (rows : list (uuid * Appointment.t)) (P : Appointment.t → Prop),
             NoDup rows →
             (∀ x, x ∈ rows ↔ appointment_table s !! x.1 = Some x.2 ∧ P x.2) →
             ∀ dat cnt,
               (status = None →
                dat = crud_listing.paginate skip limit
                        (merge_sort crud.by_date_start_time rows)
                ∧ cnt = length rows) →
               (∀ st, status = Some st →
                  dat = List.filter
                          (λ a : uuid * Appointment.t,
                             bool_decide (Appointment.status a.2 = st))
                          (crud_listing.paginate skip limit
                             (merge_sort crud.by_date_start_time rows))) →
               ∃ all,
                 (∀ x, x ∈ all ↔ appointment_table s !! x.1 = Some x.2 ∧ P x.2)
                 ∧ NoDup all
                 ∧ StronglySorted crud.by_date_start_time all
                 ∧ (status = None →
                    dat = take limit (drop skip all) ∧ cnt = length all)
                 ∧ (∀ st, status = Some st →
                      ∀ x, x ∈ dat
                           ↔ x ∈ take limit (drop skip all)
                             ∧ Appointment.status x.2 = st)).
  { intros rows P Hnd Hrows dat cnt Hnone Hsome.
    exists (merge_sort crud.by_date_start_time rows).
    split; [by intros x; rewrite merge_sort_Permutation|].
    split; [by rewrite merge_sort_Permutation|].
    split; [apply StronglySorted_merge_sort; apply _|].
    split.
    - intros Hst. destruct (Hnone Hst) as [-> ->].
      split; [done|]. by rewrite merge_sort_Permutation.
    - intros st Hst x. rewrite (Hsome st Hst).
      rewrite list_elem_of_In, filter_In, <- list_elem_of_In, bool_decide_eq_true.
      done. }
  unfold appointments_read.read_appointments,
    crud_listing.get_appointments_by_nutritionist,
    crud_listing.get_appointments_count_by_nutritionist,
    crud_listing.get_appointments_by_client,
    crud_listing.get_appointments_count_by_client, own_side, status_matches.
  run.
  destruct (bool_decide (User.user_type current_user.2 = NUTRITIONIST)); cbn.
  - destruct (ordered_page_facts skip limit
                (crud_listing.select_appointments_of_nutritionist
                   current_user.1 s)) as (Hsort & Hlim & Hlen & Hsub & Hall).
    destruct status as [st|]; cbn; eexists; (split; [reflexivity|]); cbn.
    + split; [|split; [|split; [|split; [|split]]]].
      * intros x Hx. apply list_elem_of_In in Hx.
        apply filter_In in Hx as [Hx Hst]. apply list_elem_of_In, Hsub in Hx.
        apply select_appointments_of_nutritionist_elem in Hx as [? ?].
        apply bool_decide_eq_true in Hst. repeat split; auto.
        by intros ? [= <-].
      * eapply StronglySorted_sublist; [apply List_filter_sublist|done].
      * etrans; [apply sublist_length, List_filter_sublist|done].
      * done.
      * discriminate.
      * eapply (Hall' _ (λ a, Appointment.nutritionist_id a = current_user.1)).
        -- eapply sublist_NoDup; [apply NoDup_map_to_list|apply List_filter_sublist].
        -- intros x. apply select_appointments_of_nutritionist_elem.
        -- discriminate.
        -- by intros ? [= <-].
    + split; [|split; [|split; [|split; [|split]]]]; try done.
      * intros x Hx.
        apply Hsub in Hx.
        apply select_appointments_of_nutritionist_elem in Hx as [? ?].
        repeat split; auto. discriminate.
      * intros _. split; [done|]. intros Hs Hc. destruct (Hall Hs Hc) as [? Hin].
        split; [done|]. intros x ? ?. apply Hin.
        by apply select_appointments_of_nutritionist_elem.
      * eapply (Hall' _ (λ a, Appointment.nutritionist_id a = current_user.1)).
        -- eapply sublist_NoDup; [apply NoDup_map_to_list|apply List_filter_sublist].
        -- intros x. apply select_appointments_of_nutritionist_elem.
        -- done.
        -- discriminate.
  - destruct (ordered_page_facts skip limit
                (crud_listing.select_appointments_of_client
                   current_user.1 s)) as (Hsort & Hlim & Hlen & Hsub & Hall).
    destruct status as [st|]; cbn; eexists; (split; [reflexivity|]); cbn.
    + split; [|split; [|split; [|split; [|split]]]].
      * intros x Hx. apply list_elem_of_In in Hx.
        apply filter_In in Hx as [Hx Hst]. apply list_elem_of_In, Hsub in Hx.
        apply select_appointments_of_client_elem in Hx as [? ?].
        apply bool_decide_eq_true in Hst. repeat split; auto.
        by intros ? [= <-].
      * eapply StronglySorted_sublist; [apply List_filter_sublist|done].
      * etrans; [apply sublist_length, List_filter_sublist|done].
      * done.
      * discriminate.
      * eapply (Hall' _ (λ a, Appointment.client_id a = current_user.1)).
        -- eapply sublist_NoDup; [apply NoDup_map_to_list|apply List_filter_sublist].
        -- intros x. apply select_appointments_of_client_elem.
        -- discriminate.
        -- by intros ? [= <-].
    + split; [|split; [|split; [|split; [|split]]]]; try done.
      * intros x Hx.
        apply Hsub in Hx.
        apply select_appointments_of_client_elem in Hx as [? ?].
        repeat split; auto. discriminate.
      * intros _. split; [done|]. intros Hs Hc. destruct (Hall Hs Hc) as [? Hin].
        split; [done|]. intros x ? ?. apply Hin.
        by apply select_appointments_of_client_elem.
      * eapply (Hall' _ (λ a, Appointment.client_id a = current_user.1)).
        -- eapply sublist_NoDup; [apply NoDup_map_to_list|apply List_filter_sublist].
        -- intros x. apply select_appointments_of_client_elem.
        -- done.
        -- discriminate.
Qed.

Lemma appointments_page_witness :
  ∃ p,
    appointments_read.read_appointments dr_a 0 10 None practice_booked
    = (Ok p, practice_booked)
    ∧ count p = 1%nat
    ∧ (0%N, crud.Appointment_model_validate
              (booking dr_a (datetime.hm 10 0) (datetime.hm 11 0))
              client_c.1 (utc_today monday_noon)) ∈ data p.
Proof.
  destruct (appointments_page dr_a 0 10 None practice_booked)
    as (p & Hrun & _ & _ & _ & _ & Hnone & _).
  exists p. split; [exact Hrun|].
  assert (Hc : count p = 1%nat).
  { vm_compute in Hrun. by injection Hrun as <-. }
  split; [exact Hc|].
  destruct (Hnone eq_refl) as [_ Hall].
  destruct Hall as [_ Hin]; [reflexivity|rewrite Hc; lia|].
  apply Hin; vm_compute; reflexivity.
Defined.

(** ** Who may act on an appointment *)

Lemma not_permitted_false_iff (current_user : uuid * User.t)
    (appointment : uuid * Appointment.t) :
  appointments.not_permitted current_user appointment = false
  ↔ current_user.1 = Appointment.client_id appointment.2
    ∨ current_user.1 = Appointment.nutritionist_id appointment.2
    ∨ User.user_type current_user.2 = ADMIN.
Proof.
  unfold appointments.not_permitted.
  rewrite !andb_false_iff, !bool_decide_eq_false.
  destruct (decide (current_user.1 = Appointment.client_id appointment.2)),
    (decide (current_user.1 = Appointment.nutritionist_id appointment.2)),
    (decide (User.user_type current_user.2 = ADMIN)); naive_solver.
Qed.

(** Reading, updating and cancelling an appointment share one gate.  For a
    missing id all three answer 404.  For an existing appointment, a user
    who is neither its client, nor its nutritionist, nor an admin gets 403
    from all three, whatever the payload, and nothing is written; everyone
    else reads the stored row. *)
Theorem appointment_gate (appointment_id : uuid) (current_user : uuid * User.t)
    (appointment_in : AppointmentUpdate.t) (clk : clock) (s : db) :
  match appointment_table s !! appointment_id with
  | None =>
      appointments_read.read_appointment appointment_id current_user s
      = (Raise AppointmentNotFound, s)
      ∧ appointments.update_appointment appointment_id appointment_in
          current_user clk s = (Raise AppointmentNotFound, s)
      ∧ appointments.cancel_appointment appointment_id current_user clk s
        = (Raise AppointmentNotFound, s)
  | Some a =>
      if bool_decide (current_user.1 = Appointment.client_id a
                      ∨ current_user.1 = Appointment.nutritionist_id a
                      ∨ User.user_type current_user.2 = ADMIN)
      then appointments_read.read_appointment appointment_id current_user s
           = (Ok (appointment_id, a), s)
           ∧ rejection (appointments.update_appointment appointment_id
                          appointment_in current_user clk s) ≠ Some Forbidden
           ∧ rejection (appointments.cancel_appointment appointment_id
                          current_user clk s) ≠ Some Forbidden
      else appointments_read.read_appointment appointment_id current_user s
           = (Raise Forbidden, s)
           ∧ appointments.update_appointment appointment_id appointment_in
               current_user clk s = (Raise Forbidden, s)
           ∧ appointments.cancel_appointment appointment_id current_user clk s
             = (Raise Forbidden, s)
  end.
Proof.
  rewrite update_appointment_run, cancel_appointment_run.
  unfold appointments_read.read_appointment, crud.get_appointment_by_id. run.
  destruct (appointment_table s !! appointment_id) as [a|]; cbn; [|done].
  rewrite raise_if_run.
  pose proof (not_permitted_false_iff current_user (appointment_id, a)) as Hp.
  cbn in Hp. case_bool_decide as Hwho.
  - apply Hp in Hwho. rewrite Hwho. cbn. split; [done|]. unfold rejection. split.
    + destruct ((if sends_slot _ then _ else _).1) as [[]|e] eqn:Hv; cbn.
      * destruct (crud.sqlmodel_update _ _ _); cbn; discriminate.
      * intros [= ->]. destruct (sends_slot appointment_in); [|discriminate].
        rewrite validate_new_slot_run in Hv.
        repeat (match type of Hv with
                | context [if ?b then _ else _] => destruct b
                end; try discriminate).
    + destruct (bool_decide _); cbn; discriminate.
  - destruct (appointments.not_permitted _ _); [done|].
    exfalso. by apply Hwho, Hp.
Qed.

(** ** What an accepted request did *)

Lemma update_accepted_inv (appointment_id : uuid)
    (appointment_in : AppointmentUpdate.t) (current_user : uuid * User.t)
    (clk : clock) (s s' : db) (r : uuid * Appointment.t) :
  appointments.update_appointment appointment_id appointment_in current_user clk s
  = (Ok r, s') →
  ∃ a,
    appointment_table s !! appointment_id = Some a
    ∧ appointments.not_permitted current_user (appointment_id, a) = false
    ∧ r.1 = appointment_id
    ∧ crud.sqlmodel_update a appointment_in (utc_today clk) = Some r.2
    ∧ s' = put_appointment s appointment_id r.2
    ∧ sends_slot appointment_in = false.
Proof.
  rewrite update_appointment_run.
  destruct (appointment_table s !! appointment_id) as [a|]; [|discriminate].
  destruct (appointments.not_permitted _ _) eqn:Hp; [discriminate|].
  destruct (sends_slot appointment_in) eqn:Hs.
  { destruct (validate_new_slot_never_passes (appointment_id, a) appointment_in
                clk s) as [e He].
    rewrite He. discriminate. }
  cbn. destruct (crud.sqlmodel_update _ _ _) as [row|] eqn:Hrow; [|discriminate].
  intros [= <- <-]. by exists a.
Qed.

Lemma cancel_accepted_inv (appointment_id : uuid) (current_user : uuid * User.t)
    (clk : clock) (s s' : db) (message : string) :
  appointments.cancel_appointment appointment_id current_user clk s
  = (Ok message, s') →
  ∃ a,
    appointment_table s !! appointment_id = Some a
    ∧ appointments.not_permitted current_user (appointment_id, a) = false
    ∧ Appointment.status a ≠ CANCELLED
    ∧ s' = put_appointment s appointment_id
             (crud.mark_cancelled a (utc_today clk)).
Proof.
  rewrite cancel_appointment_run.
  destruct (appointment_table s !! appointment_id) as [a|]; [|discriminate].
  destruct (appointments.not_permitted _ _) eqn:Hp; [discriminate|].
  case_bool_decide; [discriminate|]. intros [= <- <-]. by exists a.
Qed.

(** A request the handler rejects leaves every table as it was; an
    accepted one leaves the state [accepted] gives. *)
Theorem rejected_requests_write_nothing (op : operation) (s : db) :
  state_after op s = default s (accepted op s).
Proof.
  destruct op as [appointment_in u clk|id appointment_in u clk|id u clk]; cbn.
  - rewrite create_appointment_run.
    repeat (match goal with |- context [negb ?b] => destruct b end; cbn;
            try reflexivity).
  - pose proof (update_rejected_unchanged id appointment_in u clk s) as H.
    unfold is_ok in H.
    destruct (appointments.update_appointment _ _ _ _ _) as [[r|e] s']; cbn in *;
      auto.
  - rewrite cancel_appointment_run.
    destruct (appointment_table s !! id); [|done].
    destruct (appointments.not_permitted _ _); [done|].
    destruct (bool_decide _); done.
Qed.

(** A PATCH that sends a start or an end time is never accepted and writes
    nothing.  For a caller who may act on the appointment the new slot is
    checked for its range, for the past and for a conflict with another
    Scheduled appointment; a slot that passes the three ends in the
    [ArgumentError] of the availability query, and no update is ever
    rejected as outside availability. *)
Theorem update_with_times_never_accepted (appointment_id : uuid)
    (appointment_in : AppointmentUpdate.t) (current_user : uuid * User.t)
    (clk : clock) (s : db) :
  sends_slot appointment_in = true →
  is_ok (appointments.update_appointment appointment_id appointment_in
           current_user clk s) = false
  ∧ (appointments.update_appointment appointment_id appointment_in
       current_user clk s).2 = s
  ∧ rejection (appointments.update_appointment appointment_id appointment_in
                 current_user clk s) ≠ Some OutsideAvailability_on_update
  ∧ ∀ a,
      appointment_table s !! appointment_id = Some a →
      appointments.not_permitted current_user (appointment_id, a) = false →
      new_date a appointment_in = Appointment.date a
      ∧ (rejection (appointments.update_appointment appointment_id appointment_in
                      current_user clk s) = Some ArgumentError
         ↔ new_start_time a appointment_in < new_end_time a appointment_in
           ∧ datetime.lt (datetime.combine (Appointment.date a)
                                           (new_start_time a appointment_in))
                         (now clk) = false
           ∧ update_conflict s appointment_id a appointment_in = false).
Proof.
  intros Hsends. rewrite update_appointment_run, Hsends. unfold is_ok, rejection.
  assert (Hdate : ∀ a, new_date a appointment_in = Appointment.date a).
  { intros a. unfold new_date.
    by destruct (AppointmentUpdate.date appointment_in) as [| |[]]. }
  destruct (appointment_table s !! appointment_id) as [a|].
  2:{ do 3 (split; [done|]). intros a0 [=]. }
  destruct (appointments.not_permitted current_user (appointment_id, a)) eqn:Hp.
  { do 3 (split; [done|]). intros a0 [= <-] Hp'. congruence. }
  rewrite validate_new_slot_run, Hdate.
  destruct (Z.ltb_spec (new_start_time a appointment_in)
                       (new_end_time a appointment_in)) as [Hlt|Hge].
  2:{ replace (_ >=? _) with true by lia. cbn.
      do 3 (split; [done|]). intros a0 [= <-] _. split; [done|].
      split; [discriminate|]. lia. }
  replace (_ >=? _) with false by lia.
  destruct (datetime.lt _ _) eqn:Hpast; cbn.
  { do 3 (split; [done|]). intros a0 [= <-] _. split; [done|].
    split; [discriminate|]. intros (_ & ? & _). congruence. }
  destruct (update_conflict _ _ _ _) eqn:Hc; cbn.
  { do 3 (split; [done|]). intros a0 [= <-] _. split; [done|].
    split; [discriminate|]. intros (_ & _ & ?). congruence. }
  do 3 (split; [done|]). intros a0 [= <-] _. done.
Qed.

Lemma update_with_times_never_accepted_witness :
  is_ok (appointments.update_appointment 0%N
           (move_to (datetime.hm 10 30) (datetime.hm 11 30)) client_c
           monday_noon practice_booked) = false
  ∧ rejection (appointments.update_appointment 0%N
                 (move_to (datetime.hm 10 30) (datetime.hm 11 30)) client_c
                 monday_noon practice_booked) = Some ArgumentError.
Proof.
  destruct (update_with_times_never_accepted 0%N
              (move_to (datetime.hm 10 30) (datetime.hm 11 30)) client_c
              monday_noon practice_booked) as (Hno & _ & _ & H);
    [reflexivity|].
  split; [exact Hno|].
  destruct (H (crud.Appointment_model_validate
                 (booking dr_a (datetime.hm 10 0) (datetime.hm 11 0))
                 client_c.1 (utc_today monday_noon))) as [_ Hiff];
    [vm_compute; reflexivity ..|].
  apply Hiff. repeat split; vm_compute; reflexivity.
Defined.

Lemma sqlmodel_update_keeps (a row : Appointment.t)
    (appointment_in : AppointmentUpdate.t) (today : datetime.date) :
  crud.sqlmodel_update a appointment_in today = Some row →
  Appointment.client_id row = Appointment.client_id a
  ∧ Appointment.nutritionist_id row = Appointment.nutritionist_id a
  ∧ Appointment.created_at row = Appointment.created_at a
  ∧ Appointment.updated_at row = Some today.
Proof.
  unfold crud.sqlmodel_update.
  destruct (AppointmentUpdate.date appointment_in) as [| |[]],
    (AppointmentUpdate.start_time appointment_in),
    (AppointmentUpdate.end_time appointment_in),
    (AppointmentUpdate.status appointment_in); cbn;
    intros [= <-]; done.
Qed.

(** No accepted request removes an appointment or hands it to other
    people: every row present before is present after under the same key,
    with the same client, nutritionist and creation stamp.  Users and
    availability rules are not touched. *)
Theorem appointments_are_kept (op : operation) (s s' : db) :
  accepted op s = Some s' →
  user_table s' = user_table s
  ∧ availability_table s' = availability_table s
  ∧ ∀ id a,
      appointment_table s !! id = Some a →
      ∃ a',
        appointment_table s' !! id = Some a'
        ∧ Appointment.client_id a' = Appointment.client_id a
        ∧ Appointment.nutritionist_id a' = Appointment.nutritionist_id a
        ∧ Appointment.created_at a' = Appointment.created_at a.
Proof.
  intros Hop.
  assert (Hput : ∀ k row,
             (∀ a, appointment_table s !! k = Some a →
                   Appointment.client_id row = Appointment.client_id a
                   ∧ Appointment.nutritionist_id row = Appointment.nutritionist_id a
                   ∧ Appointment.created_at row = Appointment.created_at a) →
             s' = put_appointment s k row →
             user_table s' = user_table s
             ∧ availability_table s' = availability_table s
             ∧ ∀ id a,
                 appointment_table s !! id = Some a →
                 ∃ a',
                   appointment_table s' !! id = Some a'
                   ∧ Appointment.client_id a' = Appointment.client_id a
                   ∧ Appointment.nutritionist_id a' = Appointment.nutritionist_id a
                   ∧ Appointment.created_at a' = Appointment.created_at a).
  { intros k row Hrow ->. do 2 (split; [done|]). intros id a Ha. cbn.
    destruct (decide (k = id)) as [->|Hne].
    - exists row. rewrite lookup_insert_eq. split; [done|]. by apply Hrow.
    - exists a. by rewrite lookup_insert_ne. }
  destruct op as [appointment_in u clk|id appointment_in u clk|id u clk];
    cbn in Hop.
  - pose proof (create_appointment_never_accepted appointment_in u clk s)
      as [Hno _]. unfold is_ok in Hno.
    destruct (appointments.create_appointment _ _ _ _) as [[r|e] s1];
      discriminate.
  - destruct (appointments.update_appointment _ _ _ _ _) as [[r|e] s1] eqn:Hrun;
      [|discriminate]. injection Hop as ->.
    apply update_accepted_inv in Hrun as (a & Ha & _ & _ & Hrow & -> & _).
    eapply Hput; [|reflexivity]. intros a0 Ha0.
    rewrite Ha in Ha0. injection Ha0 as <-.
    apply sqlmodel_update_keeps in Hrow. naive_solver.
  - destruct (appointments.cancel_appointment _ _ _ _) as [[r|e] s1] eqn:Hrun;
      [|discriminate]. injection Hop as ->.
    apply cancel_accepted_inv in Hrun as (a & Ha & _ & _ & ->).
    eapply Hput; [|reflexivity]. intros a0 Ha0.
    rewrite Ha in Ha0. by injection Ha0 as <-.
Qed.

Lemma appointments_are_kept_witness :
  ∃ a',
    appointment_table practice_cancelled !! 0%N = Some a'
    ∧ Appointment.client_id a' = client_c.1
    ∧ Appointment.nutritionist_id a' = dr_a.1
    ∧ Appointment.created_at a' = Some (utc_today monday_noon).
Proof.
  destruct (appointments_are_kept (CancelAppointment 0%N client_c monday_noon)
              practice_booked practice_cancelled) as (_ & _ & H);
    [vm_compute; reflexivity|].
  apply (H 0%N (crud.Appointment_model_validate
                  (booking dr_a (datetime.hm 10 0) (datetime.hm 11 0))
                  client_c.1 (utc_today monday_noon))).
  vm_compute. reflexivity.
Defined.

(** ** Cancelling and the slot *)

(** Once cancelled, an appointment no longer blocks its slot: a request
    that conflicts with no other Scheduled appointment of the nutritionist
    on the date passes the conflict check after the cancellation, the
    other checks being what they were. *)
Theorem cancelling_frees_the_slot (appointment_id : uuid)
    (canceller : uuid * User.t) (clk_cancel : clock) (message : string)
    (appointment_in : AppointmentCreate.t) (current_user : uuid * User.t)
    (clk : clock) (s s' : db) :
  appointments.cancel_appointment appointment_id canceller clk_cancel s
  = (Ok message, s') →
  (∀ id a,
     id ≠ appointment_id →
     appointment_table s !! id = Some a →
     Appointment.nutritionist_id a = AppointmentCreate.nutritionist_id appointment_in →
     Appointment.date a = AppointmentCreate.date appointment_in →
     Appointment.status a = SCHEDULED →
     appointments.time_conflict
       (AppointmentCreate.start_time appointment_in)
       (AppointmentCreate.end_time appointment_in)
       (Appointment.start_time a) (Appointment.end_time a) = false) →
  no_conflict s' appointment_in = true
  ∧ rejection (appointments.create_appointment appointment_in current_user clk s')
    ≠ Some SlotBooked
  ∧ (rejection (appointments.create_appointment appointment_in current_user clk s)
     ≠ Some SlotBooked →
     rejection (appointments.create_appointment appointment_in current_user clk s')
     = rejection (appointments.create_appointment appointment_in current_user clk s)).
Proof.
  intros Hcancel Hothers.
  apply cancel_accepted_inv in Hcancel as (a & Ha & _ & _ & ->).
  assert (Hfree : no_conflict
                    (put_appointment s appointment_id
                       (crud.mark_cancelled a (utc_today clk_cancel)))
                    appointment_in = true).
  { apply not_false_iff_true. rewrite no_conflict_false_iff.
    intros (id & b & Hl & Hn & Hd & Hst & Hc). cbn in Hl.
    apply lookup_insert_Some in Hl as [[<- <-]|[Hne Hl]]; [discriminate Hst|].
    rewrite (Hothers id b) in Hc; done. }
  split; [done|]. rewrite !create_appointment_run, Hfree.
  change (nutritionist_exists (put_appointment s appointment_id _) appointment_in)
    with (nutritionist_exists s appointment_in).
  unfold rejection. split.
  - repeat (match goal with |- context [negb ?b] => destruct b end; cbn;
            try discriminate).
  - destruct (nutritionist_exists _ _); cbn; [|done].
    destruct (range_valid _); cbn; [|done].
    destruct (not_in_the_past _ _); cbn; [|done].
    destruct (no_conflict s appointment_in); cbn; done.
Qed.

Lemma cancelling_frees_the_slot_witness :
  no_conflict practice_cancelled
    (booking dr_a (datetime.hm 10 30) (datetime.hm 11 30)) = true.
Proof.
  destruct (cancelling_frees_the_slot 0%N client_c monday_noon
              "Appointment cancelled successfully"
              (booking dr_a (datetime.hm 10 30) (datetime.hm 11 30))
              client_d monday_noon practice_booked practice_cancelled)
    as [H _]; [vm_compute; reflexivity| |exact H].
  intros id a Hne Ha. exfalso. revert Ha.
  change (appointment_table practice_booked)
    with (<[0%N := crud.Appointment_model_validate
                     (booking dr_a (datetime.hm 10 0) (datetime.hm 11 0))
                     client_c.1 (utc_today monday_noon)]>
            (∅ : gmap N Appointment.t)).
  rewrite lookup_insert_ne by done. by rewrite lookup_empty.
Defined.

(** What an accepted request leaves of a Cancelled appointment, unless it
    is an update of that appointment that sends another status. *)
Lemma cancelled_kept_step (op : operation) (s s' : db) (appointment_id : uuid)
    (a : Appointment.t) :
  accepted op s = Some s' →
  ¬ restores appointment_id op →
  appointment_table s !! appointment_id = Some a →
  Appointment.status a = CANCELLED →
  ∃ a',
    appointment_table s' !! appointment_id = Some a'
    ∧ Appointment.status a' = CANCELLED
    ∧ Appointment.client_id a' = Appointment.client_id a
    ∧ Appointment.nutritionist_id a' = Appointment.nutritionist_id a.
Proof.
  intros Hop Hre Ha Hst.
  destruct op as [appointment_in u clk|k appointment_in u clk|k u clk];
    cbn in Hop.
  - pose proof (create_appointment_never_accepted appointment_in u clk s)
      as [Hno _]. unfold is_ok in Hno.
    destruct (appointments.create_appointment _ _ _ _) as [[r|e] s1];
      discriminate.
  - destruct (appointments.update_appointment _ _ _ _ _) as [[r|e] s1] eqn:Hrun;
      [|discriminate]. injection Hop as ->.
    apply update_accepted_inv in Hrun as (b & Hb & _ & _ & Hrow & -> & _).
    cbn. destruct (decide (k = appointment_id)) as [->|Hne].
    + rewrite Ha in Hb. injection Hb as <-.
      exists r.2. rewrite lookup_insert_eq. split; [done|].
      pose proof (sqlmodel_update_keeps _ _ _ _ Hrow) as (Hc & Hn & _).
      apply sqlmodel_update_row in Hrow as (_ & _ & _ & _ & Hstatus).
      split; [|done]. rewrite Hstatus.
      destruct (AppointmentUpdate.status appointment_in) as [| |st] eqn:Hsent;
        cbn; try done.
      destruct (decide (st = CANCELLED)) as [->|Hother]; [done|].
      exfalso. apply Hre. cbn. split; [done|]. by exists st.
    + exists a. by rewrite lookup_insert_ne.
  - destruct (appointments.cancel_appointment _ _ _ _) as [[r|e] s1] eqn:Hrun;
      [|discriminate]. injection Hop as ->.
    apply cancel_accepted_inv in Hrun as (b & Hb & _ & Hnot & ->).
    cbn. destruct (decide (k = appointment_id)) as [->|Hne].
    + rewrite Ha in Hb. injection Hb as <-. done.
    + exists a. by rewrite lookup_insert_ne.
Qed.

(** After an accepted cancellation the appointment is stored with status
    Cancelled, and it stays so through every sequence of accepted requests
    none of which is an update of this appointment that sends a status
    other than Cancelled: at the end of such a sequence it is still
    Cancelled, and every cancel request for it, from anyone at any time, is
    rejected and writes nothing; from a participant or an admin the reason
    is "already cancelled". *)
Theorem cancelled_stays_cancelled (appointment_id : uuid)
    (current_user : uuid * User.t) (clk : clock) (message : string) (s s' : db)
    (ops : list operation) (t : db) :
  appointments.cancel_appointment appointment_id current_user clk s
  = (Ok message, s') →
  Forall (λ op, ¬ restores appointment_id op) ops →
  accepted_all ops s' = Some t →
  ∃ a a',
    appointment_table s !! appointment_id = Some a
    ∧ appointment_table s' !! appointment_id
      = Some (crud.mark_cancelled a (utc_today clk))
    ∧ appointment_table t !! appointment_id = Some a'
    ∧ Appointment.status a' = CANCELLED
    ∧ ∀ again clk',
        is_ok (appointments.cancel_appointment appointment_id again clk' t)
        = false
        ∧ (appointments.cancel_appointment appointment_id again clk' t).2 = t
        ∧ (appointments.not_permitted again (appointment_id, a) = false →
           appointments.cancel_appointment appointment_id again clk' t
           = (Raise AlreadyCancelled, t)).
Proof.
  intros Hcancel Hops Hrun.
  apply cancel_accepted_inv in Hcancel as (a & Ha & _ & _ & ->).
  assert (Hkept : ∀ ops s0 b,
             Forall (λ op, ¬ restores appointment_id op) ops →
             accepted_all ops s0 = Some t →
             appointment_table s0 !! appointment_id = Some b →
             Appointment.status b = CANCELLED →
             ∃ a',
               appointment_table t !! appointment_id = Some a'
               ∧ Appointment.status a' = CANCELLED
               ∧ Appointment.client_id a' = Appointment.client_id b
               ∧ Appointment.nutritionist_id a' = Appointment.nutritionist_id b).
  { clear. induction ops as [|op ops IH]; cbn; intros s0 b Hall Hrun Hb Hst.
    - injection Hrun as <-. by exists b.
    - apply Forall_cons in Hall as [Hop Hall].
      destruct (accepted op s0) as [s1|] eqn:Hacc; [|discriminate].
      destruct (cancelled_kept_step op s0 s1 appointment_id b Hacc Hop Hb Hst)
        as (b1 & Hb1 & Hst1 & Hc1 & Hn1).
      destruct (IH s1 b1 Hall Hrun Hb1 Hst1) as (a' & ? & ? & ? & ?).
      exists a'. repeat split; auto; congruence. }
  destruct (Hkept ops _ (crud.mark_cancelled a (utc_today clk)) Hops Hrun)
    as (a' & Ha' & Hst' & Hc' & Hn'); [apply lookup_insert_eq|done|].
  exists a, a'. split; [done|]. split; [apply lookup_insert_eq|].
  split; [done|]. split; [done|].
  intros again clk'. rewrite cancel_appointment_run, Ha'.
  replace (appointments.not_permitted again (appointment_id, a'))
    with (appointments.not_permitted again (appointment_id, a))
    by (unfold appointments.not_permitted; cbn in *; by rewrite Hc', Hn').
  destruct (appointments.not_permitted _ _); cbn; [done|].
  by rewrite bool_decide_eq_true_2.
Qed.

Lemma cancelled_stays_cancelled_witness :
  ∃ t,
    accepted_all
      [UpdateAppointment 0%N (notes_only "bring lab results") client_c
         monday_noon] practice_cancelled = Some t
    ∧ appointments.cancel_appointment 0%N dr_a tuesday_at_10 t
      = (Raise AlreadyCancelled, t).
Proof.
  eexists. split; [vm_compute; reflexivity|].
  edestruct (cancelled_stays_cancelled 0%N client_c monday_noon
               "Appointment cancelled successfully" practice_booked
               practice_cancelled
               [UpdateAppointment 0%N (notes_only "bring lab results") client_c
                  monday_noon])
    as (a & a' & Ha & _ & _ & _ & H);
    [vm_compute; reflexivity
    |constructor; [intros [_ (st & Hst & _)]; discriminate Hst|constructor]
    |vm_compute; reflexivity|].
  apply H. vm_compute in Ha. injection Ha as <-. vm_compute. reflexivity.
Defined.

(** ** Updating *)

(** An update is never refused because of the appointment's own slot: it is
    rejected as conflicting only when a Scheduled appointment of the same
    nutritionist under another key conflicts with the new slot on the new
    date.  In particular, re-sending the stored times is not a conflict for
    an appointment that is alone on its day. *)
Theorem update_conflicts_with_others_only (appointment_id : uuid)
    (appointment_in : AppointmentUpdate.t) (current_user : uuid * User.t)
    (clk : clock) (s : db) :
  rejection (appointments.update_appointment appointment_id appointment_in
               current_user clk s) = Some SlotBooked_on_update →
  ∃ a id b,
    appointment_table s !! appointment_id = Some a
    ∧ id ≠ appointment_id
    ∧ appointment_table s !! id = Some b
    ∧ Appointment.nutritionist_id b = Appointment.nutritionist_id a
    ∧ Appointment.date b = new_date a appointment_in
    ∧ Appointment.status b = SCHEDULED
    ∧ appointments.time_conflict
        (new_start_time a appointment_in) (new_end_time a appointment_in)
        (Appointment.start_time b) (Appointment.end_time b) = true.
Proof.
  rewrite update_appointment_run. unfold rejection.
  destruct (appointment_table s !! appointment_id) as [a|]; [|discriminate].
  destruct (appointments.not_permitted _ _); [discriminate|].
  destruct (sends_slot appointment_in); cbn.
  2:{ destruct (crud.sqlmodel_update _ _ _); discriminate. }
  rewrite validate_new_slot_run.
  destruct (_ >=? _); [discriminate|].
  destruct (datetime.lt _ _); [discriminate|].
  destruct (update_conflict _ _ _ _) eqn:Hc.
  - intros _. apply update_conflict_true_iff in Hc as (id & b & H).
    exists a, id, b. naive_solver.
  - discriminate.
Qed.

Lemma update_conflicts_with_others_only_witness :
  ∃ id b,
    id ≠ 0%N
    ∧ appointment_table
        (crud.create_appointment
           (booking dr_a (datetime.hm 11 0) (datetime.hm 11 45))
           client_d.1 monday_noon practice_booked).2 !! id = Some b
    ∧ Appointment.start_time b = datetime.hm 11 0.
Proof.
  destruct (update_conflicts_with_others_only 0%N
              (move_to (datetime.hm 10 30) (datetime.hm 11 30)) client_c
              monday_noon
              (crud.create_appointment
                 (booking dr_a (datetime.hm 11 0) (datetime.hm 11 45))
                 client_d.1 monday_noon practice_booked).2)
    as (a & id & b & Ha & Hne & Hb & _ & _ & _ & Hc); [vm_compute; reflexivity|].
  exists id, b. split; [done|]. split; [done|].
  destruct (decide (id = 1%N)) as [->|Hne1].
  - vm_compute in Hb. by injection Hb as <-.
  - exfalso. revert Hb.
    change (appointment_table _)
      with (<[1%N := crud.Appointment_model_validate
                       (booking dr_a (datetime.hm 11 0) (datetime.hm 11 45))
                       client_d.1 (utc_today monday_noon)]>
              (<[0%N := crud.Appointment_model_validate
                          (booking dr_a (datetime.hm 10 0) (datetime.hm 11 0))
                          client_c.1 (utc_today monday_noon)]>
                 (∅ : gmap N Appointment.t))).
    rewrite !lookup_insert_ne by done. by rewrite lookup_empty.
Defined.

(** ** What no request changes *)

(** No accepted request adds or removes an appointment, or moves one: the
    appointment table keeps its keys, and every row keeps its date, its
    start time and its end time.  (Bookings are never accepted, and neither
    are updates that send a time.) *)
Theorem handlers_freeze_the_slots (op : operation) (s s' : db) :
  accepted op s = Some s' →
  dom (appointment_table s') = dom (appointment_table s)
  ∧ ∀ id a',
      appointment_table s' !! id = Some a' →
      ∃ a,
        appointment_table s !! id = Some a
        ∧ Appointment.date a' = Appointment.date a
        ∧ Appointment.start_time a' = Appointment.start_time a
        ∧ Appointment.end_time a' = Appointment.end_time a.
Proof.
  intros Hop.
  assert (Hput : ∀ k old row,
             appointment_table s !! k = Some old →
             Appointment.date row = Appointment.date old →
             Appointment.start_time row = Appointment.start_time old →
             Appointment.end_time row = Appointment.end_time old →
             s' = put_appointment s k row →
             dom (appointment_table s') = dom (appointment_table s)
             ∧ ∀ id a',
                 appointment_table s' !! id = Some a' →
                 ∃ a,
                   appointment_table s !! id = Some a
                   ∧ Appointment.date a' = Appointment.date a
                   ∧ Appointment.start_time a' = Appointment.start_time a
                   ∧ Appointment.end_time a' = Appointment.end_time a).
  { intros k old row Hold Hd Hs He ->. cbn. split.
    - by apply dom_insert_lookup_L.
    - intros id a' [[<- <-]|[_ Ha']]%lookup_insert_Some; eauto. }
  destruct op as [appointment_in u clk|k appointment_in u clk|k u clk];
    cbn in Hop.
  - pose proof (create_appointment_never_accepted appointment_in u clk s)
      as [Hno _]. unfold is_ok in Hno.
    destruct (appointments.create_appointment _ _ _ _) as [[r|e] s1];
      discriminate.
  - destruct (appointments.update_appointment _ _ _ _ _) as [[r|e] s1] eqn:Hrun;
      [|discriminate]. injection Hop as ->.
    apply update_accepted_inv in Hrun as (a & Ha & _ & _ & Hrow & Hs & Hsends).
    destruct (sends_no_slot_same_slot a appointment_in Hsends) as [_ Hsame].
    destruct (Hsame _ _ Hrow) as (Hd & Hst & He).
    exact (Hput k a r.2 Ha Hd Hst He Hs).
  - destruct (appointments.cancel_appointment _ _ _ _) as [[r|e] s1] eqn:Hrun;
      [|discriminate]. injection Hop as ->.
    apply cancel_accepted_inv in Hrun as (a & Ha & _ & _ & Hs).
    exact (Hput k a (crud.mark_cancelled a (utc_today clk)) Ha eq_refl eq_refl
             eq_refl Hs).
Qed.

Lemma handlers_freeze_the_slots_witness :
  ∃ a,
    appointment_table practice_booked !! 0%N = Some a
    ∧ Appointment.date cancelled_row = Appointment.date a
    ∧ Appointment.start_time cancelled_row = Appointment.start_time a
    ∧ Appointment.end_time cancelled_row = Appointment.end_time a.
Proof.
  destruct (handlers_freeze_the_slots (CancelAppointment 0%N client_c monday_noon)
              practice_booked practice_cancelled) as [_ H];
    [vm_compute; reflexivity|].
  apply (H 0%N cancelled_row). vm_compute. reflexivity.
Defined.

(** ** Maintaining availability rules *)

Lemma update_availability_run (availability_id : uuid)
    (availability_in : AvailabilityUpdate.t) (current_user : uuid * User.t)
    (clk : clock) (s : db) :
  availability.update_availability availability_id availability_in current_user
    clk s =
  match availability_table s !! availability_id with
  | None => (Raise (HTTPException 404 "Availability slot not found"), s)
  | Some old =>
      if bool_decide (Availability.nutritionist_id old ≠ current_user.1)
      then (Raise Forbidden, s)
      else if AvailabilityUpdate.start_time availability_in
                >=? AvailabilityUpdate.end_time availability_in
      then (Raise InvalidRange, s)
      else crud.update_availability (availability_id, old) availability_in clk s
  end.
Proof.
  unfold availability.update_availability, crud.get_availability_by_id. run.
  destruct (availability_table s !! availability_id) as [old|]; cbn; [|done].
  rewrite raise_if_run. destruct (bool_decide _); cbn; [done|].
  rewrite raise_if_run. unfold time_or. destruct (_ >=? _); cbn; done.
Qed.

Lemma delete_availability_run (availability_id : uuid)
    (current_user : uuid * User.t) (s : db) :
  availability.delete_availability availability_id current_user s =
  match availability_table s !! availability_id with
  | None => (Raise (HTTPException 404 "Availability slot not found"), s)
  | Some old =>
      if bool_decide (Availability.nutritionist_id old ≠ current_user.1)
      then (Raise Forbidden, s)
      else (Ok "Availability slot deleted successfully"%string,
            drop_availability s availability_id)
  end.
Proof.
  unfold availability.delete_availability, crud.get_availability_by_id,
    crud.delete_availability. run.
  destruct (availability_table s !! availability_id) as [old|] eqn:Hold; cbn;
    [|done].
  rewrite raise_if_run. destruct (bool_decide _); cbn; [done|].
  by rewrite Hold.
Qed.

(** An update of a rule is accepted only from the nutritionist who owns it
    (an admin who is not the owner is refused like anyone else).  The rule
    it stores has its start before its end, the owner and the creation
    stamp it had, and the day of the clock as [updated_at]; every other
    rule, every user and every appointment is left as it was. *)
Theorem rule_update_by_owner (availability_id : uuid)
    (availability_in : AvailabilityUpdate.t) (current_user : uuid * User.t)
    (clk : clock) (s s' : db) (r : uuid * Availability.t) :
  availability.update_availability availability_id availability_in current_user
    clk s = (Ok r, s') →
  ∃ old,
    availability_table s !! availability_id = Some old
    ∧ Availability.nutritionist_id old = current_user.1
    ∧ r.1 = availability_id
    ∧ availability_table s' !! availability_id = Some r.2
    ∧ (∀ j, j ≠ availability_id →
            availability_table s' !! j = availability_table s !! j)
    ∧ Availability.start_time r.2 < Availability.end_time r.2
    ∧ Availability.nutritionist_id r.2 = Availability.nutritionist_id old
    ∧ Availability.created_at r.2 = Availability.created_at old
    ∧ Availability.updated_at r.2 = Some (utc_today clk)
    ∧ user_table s' = user_table s
    ∧ appointment_table s' = appointment_table s.
Proof.
  rewrite update_availability_run.
  destruct (availability_table s !! availability_id) as [old|]; [|discriminate].
  case_bool_decide as Hown; [discriminate|].
  destruct (_ >=? _) eqn:Hrange; [discriminate|].
  intros [= <- <-]. exists old. cbn.
  split; [done|]. split; [by destruct (decide (Availability.nutritionist_id old
                                                = current_user.1)); [|destruct Hown]|].
  split; [done|]. split; [apply lookup_insert_eq|].
  split; [by intros j Hj; rewrite lookup_insert_ne|].
  split; [lia|]. done.
Qed.

Lemma rule_update_by_owner_witness :
  ∃ old,
    availability_table practice !! 10%N = Some old
    ∧ Availability.nutritionist_id old = dr_a.1.
Proof.
  destruct (rule_update_by_owner 10%N one_off_without_date dr_a monday_noon
              practice
              (availability.update_availability 10%N one_off_without_date dr_a
                 monday_noon practice).2
              (10%N, {| Availability.nutritionist_id := dr_a.1;
                        Availability.day_of_week := Some 1;
                        Availability.start_time := datetime.hm 9 0;
                        Availability.end_time := datetime.hm 17 0;
                        Availability.is_recurring := false;
                        Availability.specific_date := None;
                        Availability.created_at := Some 739900;
                        Availability.updated_at := Some 739929 |}))
    as (old & H1 & H2 & _); [vm_compute; reflexivity|].
  by exists old.
Defined.

(** A delete of a rule is accepted only from its owner; it removes that
    rule and nothing else: the other rules, the users and every
    appointment, booked under the rule or not, stay as they were. *)
Theorem rule_delete_by_owner (availability_id : uuid)
    (current_user : uuid * User.t) (message : string) (s s' : db) :
  availability.delete_availability availability_id current_user s
  = (Ok message, s') →
  (∃ old, availability_table s !! availability_id = Some old
          ∧ Availability.nutritionist_id old = current_user.1)
  ∧ availability_table s' !! availability_id = None
  ∧ (∀ j, j ≠ availability_id →
          availability_table s' !! j = availability_table s !! j)
  ∧ user_table s' = user_table s
  ∧ appointment_table s' = appointment_table s.
Proof.
  rewrite delete_availability_run.
  destruct (availability_table s !! availability_id) as [old|]; [|discriminate].
  case_bool_decide as Hown; [discriminate|]. intros [= <- <-]. cbn.
  split.
  { exists old. split; [done|].
    by destruct (decide (Availability.nutritionist_id old = current_user.1));
      [|destruct Hown]. }
  split; [apply lookup_delete_eq|].
  split; [by intros j Hj; rewrite lookup_delete_ne|]. done.
Qed.

Lemma rule_delete_by_owner_witness :
  availability_table
    (availability.delete_availability 10%N dr_a practice_booked).2 !! 10%N = None
  ∧ appointment_table
      (availability.delete_availability 10%N dr_a practice_booked).2
    = appointment_table practice_booked.
Proof.
  destruct (rule_delete_by_owner 10%N dr_a
              "Availability slot deleted successfully" practice_booked
              (availability.delete_availability 10%N dr_a practice_booked).2)
    as (_ & H1 & _ & _ & H2); [vm_compute; reflexivity|]. by split.
Defined.

(** Creating a rule and deleting it again, as the same nutritionist,
    gives back the tables one started from. *)
Theorem rule_create_then_delete (availability_in : AvailabilityCreate.t)
    (current_user : uuid * User.t) (clk : clock) (s s1 : db)
    (id : uuid) (rule : Availability.t) :
  availability.create_availability availability_in current_user clk s
  = (Ok (id, rule), s1) →
  availability.delete_availability id current_user s1
  = (Ok "Availability slot deleted successfully"%string, s).
Proof.
  rewrite create_availability_run.
  repeat (match goal with |- context [if ?b then _ else _] => destruct b end;
          [discriminate|]).
  cbv zeta. intros [= <- <- <-]. rewrite delete_availability_run. cbn.
  rewrite lookup_insert_eq. cbn. rewrite bool_decide_eq_false_2 by (by intros []).
  f_equal. unfold drop_availability, put_availability. cbn.
  rewrite delete_insert_id by apply uuid4_fresh. by destruct s.
Qed.

Lemma rule_create_then_delete_witness :
  availability.delete_availability 12%N dr_a
    (availability.create_availability recurring_with_date dr_a monday_noon
       practice).2
  = (Ok "Availability slot deleted successfully"%string, practice).
Proof.
  apply (rule_create_then_delete recurring_with_date dr_a monday_noon practice _
           12%N (crud.Availability_model_validate recurring_with_date dr_a.1
                   (utc_today monday_noon))).
  vm_compute. reflexivity.
Defined.

(** No appointment request depends on the availability rules: with any
    other availability table in place of the stored one, a booking, an
    update and a cancellation are answered the same way and leave the same
    appointments. *)
Theorem appointments_ignore_the_rules (rules : gmap uuid Availability.t) (s : db) :
  let s_r := mk_db (user_table s) rules (appointment_table s) in
  (∀ appointment_in current_user clk,
     (appointments.create_appointment appointment_in current_user clk s_r).1
     = (appointments.create_appointment appointment_in current_user clk s).1
     ∧ appointment_table
         (appointments.create_appointment appointment_in current_user clk s_r).2
       = appointment_table
           (appointments.create_appointment appointment_in current_user clk s).2)
  ∧ (∀ appointment_id appointment_in current_user clk,
       (appointments.update_appointment appointment_id appointment_in
          current_user clk s_r).1
       = (appointments.update_appointment appointment_id appointment_in
            current_user clk s).1
       ∧ appointment_table
           (appointments.update_appointment appointment_id appointment_in
              current_user clk s_r).2
         = appointment_table
             (appointments.update_appointment appointment_id appointment_in
                current_user clk s).2)
  ∧ (∀ appointment_id current_user clk,
       (appointments.cancel_appointment appointment_id current_user clk s_r).1
       = (appointments.cancel_appointment appointment_id current_user clk s).1
       ∧ appointment_table
           (appointments.cancel_appointment appointment_id current_user clk s_r).2
         = appointment_table
             (appointments.cancel_appointment appointment_id current_user clk s).2).
Proof.
  cbv zeta. split; [|split].
  - intros appointment_in current_user clk. rewrite !create_appointment_run.
    change (nutritionist_exists (mk_db (user_table s) rules (appointment_table s))
              appointment_in)
      with (nutritionist_exists s appointment_in).
    change (no_conflict (mk_db (user_table s) rules (appointment_table s))
              appointment_in)
      with (no_conflict s appointment_in).
    repeat (match goal with |- context [negb ?b] => destruct b end; cbn;
            try done).
  - intros appointment_id appointment_in current_user clk.
    rewrite !update_appointment_run. cbn [appointment_table].
    destruct (appointment_table s !! appointment_id) as [a|]; [|done].
    destruct (appointments.not_permitted _ _); [done|].
    destruct (sends_slot appointment_in).
    + rewrite !validate_new_slot_run.
      change (update_conflict (mk_db (user_table s) rules (appointment_table s))
                appointment_id a appointment_in)
        with (update_conflict s appointment_id a appointment_in).
      repeat (match goal with |- context [if ?b then _ else _] => destruct b end;
              cbn; try done).
    + cbn. destruct (crud.sqlmodel_update _ _ _); done.
  - intros appointment_id current_user clk.
    rewrite !cancel_appointment_run. cbn [appointment_table].
    destruct (appointment_table s !! appointment_id) as [a|]; [|done].
    destruct (appointments.not_permitted _ _); [done|].
    destruct (bool_decide _); done.
Qed.

(** The date-range listing of a nutritionist's rules never lists: a
    reversed range is refused first (400), then an id that is not a stored
    nutritionist (404), and every other request ends in the [ArgumentError]
    of the availability query, whatever rules are stored. *)
Theorem availabilities_by_date_range_never_lists (nutritionist_id : uuid)
    (start_date end_date : datetime.date) (s : db) :
  (start_date > end_date →
   availability_read.read_availabilities_by_date_range nutritionist_id
     start_date end_date s
   = (Raise (HTTPException 400 "Start date must be before end date"), s))
  ∧ (start_date ≤ end_date →
     (∀ u, user_table s !! nutritionist_id = Some u →
           User.user_type u ≠ NUTRITIONIST) →
     availability_read.read_availabilities_by_date_range nutritionist_id
       start_date end_date s = (Raise NotFound, s))
  ∧ (start_date ≤ end_date →
     (∃ u, user_table s !! nutritionist_id = Some u
           ∧ User.user_type u = NUTRITIONIST) →
     availability_read.read_availabilities_by_date_range nutritionist_id
       start_date end_date s = (Raise ArgumentError, s))
  ∧ is_ok (availability_read.read_availabilities_by_date_range nutritionist_id
             start_date end_date s) = false.
Proof.
  unfold availability_read.read_availabilities_by_date_range, crud.get_user_by_id.
  rewrite get_availabilities_by_date_range_run.
  run. rewrite raise_if_run. split; [|split; [|split]].
  - intros Hr. replace (start_date >? end_date) with true by lia. reflexivity.
  - intros Hr Hu. replace (start_date >? end_date) with false by lia. cbn.
    rewrite raise_if_run.
    destruct (user_table s !! nutritionist_id) as [u|]; cbn; [|done].
    by rewrite bool_decide_eq_true_2 by (by apply Hu).
  - intros Hr (u & Hu & Hty).
    replace (start_date >? end_date) with false by lia. cbn.
    rewrite raise_if_run, Hu. cbn.
    by rewrite bool_decide_eq_false_2 by (by intros []).
  - unfold is_ok. destruct (start_date >? end_date); cbn; [done|].
    rewrite raise_if_run.
    destruct (user_table s !! nutritionist_id) as [u|]; cbn; [|done].
    destruct (bool_decide _); done.
Qed.

Lemma availabilities_by_date_range_never_lists_witness :
  availability_read.read_availabilities_by_date_range dr_a.1 tuesday tuesday
    practice = (Raise ArgumentError, practice).
Proof.
  destruct (availabilities_by_date_range_never_lists dr_a.1 tuesday tuesday
              practice) as (_ & _ & H & _).
  apply H; [reflexivity|].
  eexists. split; [vm_compute; reflexivity|reflexivity].
Defined.

Lemma select_availabilities_of_elem (nutritionist_id : uuid) (s : db)
    (x : uuid * Availability.t) :
  x ∈ crud_listing.select_availabilities_of nutritionist_id s
  ↔ availability_table s !! x.1 = Some x.2
    ∧ Availability.nutritionist_id x.2 = nutritionist_id.
Proof.
  unfold crud_listing.select_availabilities_of.
  rewrite list_elem_of_In, filter_In, <- list_elem_of_In, bool_decide_eq_true.
  destruct x as [id r]. by rewrite elem_of_map_to_list.
Qed.

(** The paged listing of a nutritionist's rules answers 404 for an id that
    is not a stored nutritionist.  Otherwise the page holds rules of that
    nutritionist only, each once and no more than [limit] of them, and a
    first page whose limit reaches the count of the nutritionist's rules
    holds them all. *)
Theorem availabilities_page (nutritionist_id : uuid) (skip limit : nat) (s : db) :
  ((∀ u, user_table s !! nutritionist_id = Some u →
         User.user_type u ≠ NUTRITIONIST) →
   availability_read.read_availabilities nutritionist_id skip limit s
   = (Raise NotFound, s))
  ∧ ((∃ u, user_table s !! nutritionist_id = Some u
           ∧ User.user_type u = NUTRITIONIST) →
     ∃ rows,
       availability_read.read_availabilities nutritionist_id skip limit s
       = (Ok rows, s)
       ∧ NoDup rows
       ∧ (length rows ≤ limit)%nat
       ∧ (∀ x, x ∈ rows →
               availability_table s !! x.1 = Some x.2
               ∧ Availability.nutritionist_id x.2 = nutritionist_id)
       ∧ (∀ n, crud_listing.get_availabilities_count_by_nutritionist
                 nutritionist_id s = (Ok n, s) →
               skip = 0%nat → (n ≤ limit)%nat →
               length rows = n
               ∧ ∀ x, availability_table s !! x.1 = Some x.2 →
                      Availability.nutritionist_id x.2 = nutritionist_id →
                      x ∈ rows)).
Proof.
  unfold availability_read.read_availabilities, crud.get_user_by_id,
    crud_listing.get_availabilities_by_nutritionist,
    crud_listing.get_availabilities_count_by_nutritionist.
  run. rewrite raise_if_run. split.
  - intros Hu. destruct (user_table s !! nutritionist_id) as [u|]; cbn; [|done].
    by rewrite bool_decide_eq_true_2 by (by apply Hu).
  - intros (u & -> & Hty). cbn.
    rewrite bool_decide_eq_false_2 by (by intros []). cbn.
    eexists. split; [reflexivity|]. split; [|split; [|split]].
    + eapply sublist_NoDup; [|apply paginate_sublist].
      eapply sublist_NoDup; [apply NoDup_map_to_list|apply List_filter_sublist].
    + apply paginate_length.
    + intros x Hx. apply (sublist_subseteq _ _ (paginate_sublist _ _ _)) in Hx.
      by apply select_availabilities_of_elem.
    + intros n [= <-] -> Hn. rewrite paginate_all by done. split; [done|].
      intros x ? ?. by apply select_availabilities_of_elem.
Qed.

Lemma availabilities_page_witness :
  ∃ rows,
    availability_read.read_availabilities dr_a.1 0 100 practice
    = (Ok rows, practice)
    ∧ (10%N, tuesdays_9_to_17 dr_a.1) ∈ rows.
Proof.
  destruct (availabilities_page dr_a.1 0 100 practice) as [_ H].
  destruct H as (rows & Hrun & _ & _ & _ & Hall).
  - eexists. split; [vm_compute; reflexivity|reflexivity].
  - exists rows. split; [done|].
    destruct (Hall 1%nat) as [_ Hin];
      [vm_compute; reflexivity|reflexivity|lia|].
    apply Hin; [vm_compute; reflexivity|reflexivity].
Defined.

(** Who may touch a rule.  Its owner reads it.  Another user reads it only
    as an admin, and can neither update nor delete it, admin or not: both
    answer 403 and write nothing. *)
Theorem rule_access (availability_id : uuid) (current_user : uuid * User.t)
    (availability_in : AvailabilityUpdate.t) (clk : clock) (s : db)
    (rule : Availability.t) :
  availability_table s !! availability_id = Some rule →
  (Availability.nutritionist_id rule = current_user.1 →
   availability_read.read_availability availability_id current_user s
   = (Ok (availability_id, rule), s))
  ∧ (Availability.nutritionist_id rule ≠ current_user.1 →
     availability_read.read_availability availability_id current_user s
     = (if bool_decide (User.user_type current_user.2 = ADMIN)
        then (Ok (availability_id, rule), s)
        else (Raise Forbidden, s))
     ∧ availability.update_availability availability_id availability_in
         current_user clk s = (Raise Forbidden, s)
     ∧ availability.delete_availability availability_id current_user s
       = (Raise Forbidden, s)).
Proof.
  intros Hrule. rewrite update_availability_run, delete_availability_run, Hrule.
  unfold availability_read.read_availability, crud.get_availability_by_id.
  run. rewrite Hrule. cbn. rewrite raise_if_run. split; intros Hown.
  - by rewrite (bool_decide_eq_false_2 (_ ≠ _)) by (by intros []).
  - rewrite !(bool_decide_eq_true_2 (Availability.nutritionist_id rule ≠ _))
      by done.
    cbn. split; [|done].
    destruct (decide (User.user_type current_user.2 = ADMIN)) as [Ha|Ha].
    + by rewrite bool_decide_eq_false_2, bool_decide_eq_true_2
        by (try done; by intros []).
    + by rewrite bool_decide_eq_true_2, bool_decide_eq_false_2.
Qed.

Lemma rule_access_witness :
  availability.delete_availability 10%N dr_b practice = (Raise Forbidden, practice).
Proof.
  destruct (rule_access 10%N dr_b one_off_without_date monday_noon practice
              (tuesdays_9_to_17 dr_a.1)) as [_ H]; [vm_compute; reflexivity|].
  apply H. vm_compute. discriminate.
Defined.

(** ** The directory of nutritionists *)

Lemma select_users_elem (user_type : option UserType) (s : db)
    (x : uuid * User.t) :
  x ∈ crud_listing.select_users user_type s
  ↔ user_table s !! x.1 = Some x.2
    ∧ ∀ ty, user_type = Some ty → User.user_type x.2 = ty.
Proof.
  unfold crud_listing.select_users.
  rewrite list_elem_of_In, filter_In, <- list_elem_of_In.
  destruct x as [id u]. rewrite elem_of_map_to_list. cbn.
  destruct user_type as [ty|]; cbn; [rewrite bool_decide_eq_true|]; naive_solver.
Qed.

(** The directory page holds stored users of type nutritionist only, each
    once and no more than [limit] of them; the count it reports is at
    least the length of the page, and a first page whose limit reaches the
    count holds every nutritionist. *)
Theorem nutritionists_directory (skip limit : nat) (s : db) :
  ∃ p,
    nutritionists.read_nutritionists skip limit s = (Ok p, s)
    ∧ NoDup (data p)
    ∧ (length (data p) ≤ limit)%nat
    ∧ (length (data p) ≤ count p)%nat
    ∧ (∀ x, x ∈ data p →
            user_table s !! x.1 = Some x.2
            ∧ User.user_type x.2 = NUTRITIONIST)
    ∧ (skip = 0%nat → (count p ≤ limit)%nat →
       length (data p) = count p
       ∧ ∀ id u, user_table s !! id = Some u →
                 User.user_type u = NUTRITIONIST → (id, u) ∈ data p).
Proof.
  unfold nutritionists.read_nutritionists, crud_listing.get_users,
    crud_listing.get_users_count.
  run. eexists. split; [reflexivity|]. cbn. split; [|split; [|split; [|split]]].
  - eapply sublist_NoDup; [|apply paginate_sublist].
    eapply sublist_NoDup; [apply NoDup_map_to_list|apply List_filter_sublist].
  - apply paginate_length.
  - apply paginate_length.
  - intros x Hx. apply (sublist_subseteq _ _ (paginate_sublist _ _ _)) in Hx.
    apply select_users_elem in Hx as [? Hty]. split; [done|]. by apply Hty.
  - intros -> Hn. rewrite paginate_all by done. split; [done|].
    intros id u Hu Hty. apply select_users_elem. cbn. split; [done|].
    by intros ? [= <-].
Qed.

Lemma nutritionists_directory_witness :
  ∃ p,
    nutritionists.read_nutritionists 0 10 practice = (Ok p, practice)
    ∧ count p = 2%nat
    ∧ dr_b ∈ data p.
Proof.
  destruct (nutritionists_directory 0 10 practice)
    as (p & Hrun & _ & _ & _ & _ & Hall).
  exists p. split; [exact Hrun|].
  assert (Hc : count p = 2%nat).
  { vm_compute in Hrun. by injection Hrun as <-. }
  split; [exact Hc|].
  destruct Hall as [_ Hin]; [reflexivity|rewrite Hc; lia|].
  apply (Hin dr_b.1 dr_b.2); vm_compute; reflexivity.
Defined.

(** One notion of "nutritionist" serves the directory, the listing of
    rules and the booking check: an id names a stored user of type
    nutritionist exactly when the directory returns that user, and exactly
    then the rule listing and the first booking check do not answer 404. *)
Theorem nutritionist_lookup_agrees (nutritionist_id : uuid) (skip limit : nat)
    (appointment_in : AppointmentCreate.t) (current_user : uuid * User.t)
    (clk : clock) (s : db) :
  AppointmentCreate.nutritionist_id appointment_in = nutritionist_id →
  match user_table s !! nutritionist_id with
  | Some u =>
      if bool_decide (User.user_type u = NUTRITIONIST)
      then nutritionists.read_nutritionist nutritionist_id s
           = (Ok (nutritionist_id, u), s)
           ∧ is_ok (availability_read.read_availabilities nutritionist_id
                      skip limit s) = true
           ∧ rejection (appointments.create_appointment appointment_in
                          current_user clk s) ≠ Some NotFound
      else nutritionists.read_nutritionist nutritionist_id s
           = (Raise NotFound, s)
           ∧ availability_read.read_availabilities nutritionist_id skip limit s
             = (Raise NotFound, s)
           ∧ appointments.create_appointment appointment_in current_user clk s
             = (Raise NotFound, s)
  | None =>
      nutritionists.read_nutritionist nutritionist_id s = (Raise NotFound, s)
      ∧ availability_read.read_availabilities nutritionist_id skip limit s
        = (Raise NotFound, s)
      ∧ appointments.create_appointment appointment_in current_user clk s
        = (Raise NotFound, s)
  end.
Proof.
  intros <-. rewrite create_appointment_run. unfold nutritionist_exists.
  unfold nutritionists.read_nutritionist, availability_read.read_availabilities,
    crud.get_user_by_id, crud_listing.get_availabilities_by_nutritionist.
  run. rewrite raise_if_run.
  destruct (user_table s !! AppointmentCreate.nutritionist_id appointment_in)
    as [u|]; cbn; [|done].
  case_bool_decide as Hty.
  - rewrite !bool_decide_eq_false_2 by (by intros []). cbn.
    split; [done|]. split; [done|]. unfold rejection.
    repeat (match goal with |- context [negb ?b] => destruct b end; cbn;
            try discriminate).
  - by rewrite !bool_decide_eq_true_2 by done.
Qed.

Lemma nutritionist_lookup_agrees_witness :
  nutritionists.read_nutritionist client_c.1 practice = (Raise NotFound, practice)
  ∧ availability_read.read_availabilities client_c.1 0 10 practice
    = (Raise NotFound, practice)
  ∧ appointments.create_appointment
      (booking client_c (datetime.hm 10 0) (datetime.hm 11 0)) client_d
      monday_noon practice = (Raise NotFound, practice).
Proof.
  apply (nutritionist_lookup_agrees client_c.1 0 10
           (booking client_c (datetime.hm 10 0) (datetime.hm 11 0)) client_d
           monday_noon practice). reflexivity.
Defined.

(** ** Profiles *)

Ltac run_handler :=
  unfold mbind, Handler_bind, mret, Handler_ret, fail, ask, write, lift; cbn.

Lemma fail_if_run (c : bool) (e : exn) (σ : session) :
  fail_if c e σ = if c then (Failed (Handled e), σ) else (Done tt, σ).
Proof. destruct c; reflexivity. Qed.

Lemma head_filter_None {A} (f : A → bool) (l : list A) :
  head (List.filter f l) = None ↔ ∀ x, x ∈ l → f x = false.
Proof.
  induction l as [|y l IH]; cbn.
  - split; [|done]. intros _ x Hx. by apply elem_of_nil in Hx.
  - destruct (f y) eqn:Hy; cbn.
    + split; [done|]. intros H. specialize (H y (list_elem_of_here _ _)).
      congruence.
    + rewrite IH. split.
      * intros H x [->|Hx]%elem_of_cons; auto.
      * intros H x Hx. apply H. by apply list_elem_of_further.
Qed.

Lemma head_filter_Some {A} (f : A → bool) (l : list A) (x : A) :
  head (List.filter f l) = Some x → x ∈ l ∧ f x = true.
Proof.
  intros H. assert (Hin : In x (List.filter f l)).
  { destruct (List.filter f l); [discriminate|]. injection H as ->. by left. }
  apply filter_In in Hin as [Hin ?]. by rewrite list_elem_of_In.
Qed.

Lemma filter_the_only_one {A} (f : A → bool) (l : list A) (x : A) :
  NoDup l → x ∈ l → f x = true → (∀ y, y ∈ l → f y = true → y = x) →
  List.filter f l = [x].
Proof.
  induction l as [|y l IH]; intros Hnd Hx Hfx Honly.
  - by apply elem_of_nil in Hx.
  - apply NoDup_cons in Hnd as [Hy Hnd]. cbn.
    assert (Hrest : ∀ z, z ∈ l → z ≠ x → f z = false).
    { intros z Hz Hne. apply not_true_is_false. intros Hfz. apply Hne, Honly; [|done].
      by apply list_elem_of_further. }
    apply elem_of_cons in Hx as [<-|Hx].
    + rewrite Hfx. f_equal.
      assert (Hnone : head (List.filter f l) = None).
      { apply head_filter_None. intros z Hz. apply Hrest; [done|]. by intros ->. }
      by destruct (List.filter f l).
    + assert (f y = false) as ->.
      { apply not_true_is_false. intros Hfy.
        assert (y = x) as -> by (apply Honly; [apply list_elem_of_here|done]).
        done. }
      apply IH; auto. intros z Hz. apply Honly. by apply list_elem_of_further.
Qed.

Lemma get_profile_by_user_id_run (user_id : uuid) (σ : session) :
  ∃ found,
    crud_records.get_profile_by_user_id user_id σ = (Done found, σ)
    ∧ (found = None ↔
       ∀ id p, profile_table σ !! id = Some p → Profile.user_id p ≠ user_id)
    ∧ (∀ x, found = Some x →
            profile_table σ !! x.1 = Some x.2 ∧ Profile.user_id x.2 = user_id).
Proof.
  unfold crud_records.get_profile_by_user_id, ask. eexists.
  split; [reflexivity|]. split.
  - rewrite head_filter_None. split.
    + intros H id p Hp. specialize (H (id, p)). cbn in H.
      eapply bool_decide_eq_false_1, H. by apply elem_of_map_to_list.
    + intros H [id p] Hp. apply elem_of_map_to_list in Hp.
      apply bool_decide_eq_false_2. by apply (H id).
  - intros [id p] Hx. apply head_filter_Some in Hx as [Hin Hf].
    apply elem_of_map_to_list in Hin. by apply bool_decide_eq_true in Hf.
Qed.

(** While no user has two profiles, the lookup by user is the user's
    profile. *)
Lemma get_profile_by_user_id_unique (σ : session) (id : uuid) (p : Profile.t) :
  one_profile_per_user σ →
  profile_table σ !! id = Some p →
  crud_records.get_profile_by_user_id (Profile.user_id p) σ
  = (Done (Some (id, p)), σ).
Proof.
  intros Huniq Hp. unfold crud_records.get_profile_by_user_id, ask.
  rewrite (filter_the_only_one _ _ (id, p)); [done| | | |].
  - apply NoDup_map_to_list.
  - by apply elem_of_map_to_list.
  - by apply bool_decide_eq_true.
  - intros [j q] Hq Hf. apply elem_of_map_to_list in Hq.
    apply bool_decide_eq_true in Hf. cbn in Hf.
    assert (j = id) as -> by by apply (Huniq j id q p).
    congruence.
Qed.

Lemma create_profile_me_run (profile_in : ProfileCreate.t)
    (current_user : uuid * User.t) (clk : clock) (σ : session) :
  profiles.create_profile_me profile_in current_user clk σ =
  match (crud_records.get_profile_by_user_id current_user.1 σ).1 with
  | Done (Some _) =>
      (Failed (Handled (HTTPException 400
                          "Profile already exists for this user")), σ)
  | Done None =>
      (Done (uuid4 (profile_table σ),
             crud_records.Profile_model_validate profile_in current_user.1
               (utc_today clk)),
       put_profile σ (uuid4 (profile_table σ))
         (crud_records.Profile_model_validate profile_in current_user.1
            (utc_today clk)))
  | Failed e => (Failed e, σ)
  end.
Proof.
  unfold profiles.create_profile_me, crud_records.get_profile_by_user_id,
    crud_records.create_profile.
  run_handler. rewrite fail_if_run. by destruct (head _).
Qed.

Lemma read_profile_me_run (current_user : uuid * User.t) (σ : session) :
  profiles.read_profile_me current_user σ =
  match (crud_records.get_profile_by_user_id current_user.1 σ).1 with
  | Done (Some profile) => (Done profile, σ)
  | Done None => (Failed (Handled (HTTPException 404 "Profile not found")), σ)
  | Failed e => (Failed e, σ)
  end.
Proof.
  unfold profiles.read_profile_me, crud_records.get_profile_by_user_id.
  run_handler. by destruct (head _).
Qed.

(** A user gets one profile.  The handler creates a profile only for a
    user who has none; starting from tables in which no user has two, the
    created profile is then the user's only one, so the user reads it back
    and a second create by the same user is refused; no other profile and
    no scheduling table is touched. *)
Theorem profile_created_once (profile_in : ProfileCreate.t)
    (current_user : uuid * User.t) (clk : clock) (σ σ' : session)
    (id : uuid) (p : Profile.t) :
  one_profile_per_user σ →
  profiles.create_profile_me profile_in current_user clk σ = (Done (id, p), σ') →
  (∀ j q, profile_table σ !! j = Some q → Profile.user_id q ≠ current_user.1)
  ∧ p = crud_records.Profile_model_validate profile_in current_user.1
          (utc_today clk)
  ∧ σ' = put_profile σ id p
  ∧ profile_table σ !! id = None
  ∧ one_profile_per_user σ'
  ∧ profiles.read_profile_me current_user σ' = (Done (id, p), σ')
  ∧ ∀ again clk',
      profiles.create_profile_me again current_user clk' σ'
      = (Failed (Handled (HTTPException 400
                            "Profile already exists for this user")), σ').
Proof.
  intros Huniq Hcreate.
  destruct (get_profile_by_user_id_run current_user.1 σ)
    as (found & Hrun & Hnone & _).
  rewrite create_profile_me_run, Hrun in Hcreate. cbn in Hcreate.
  destruct found as [x|]; [discriminate|]. injection Hcreate as <- <- <-.
  assert (Hfree := proj1 Hnone eq_refl).
  assert (Huniq' : one_profile_per_user
                     (put_profile σ (uuid4 (profile_table σ))
                        (crud_records.Profile_model_validate profile_in
                           current_user.1 (utc_today clk)))).
  { intros i j q1 q2. cbn.
    intros [[<- <-]|[Hi Hq1]]%lookup_insert_Some
           [[<- <-]|[Hj Hq2]]%lookup_insert_Some; cbn; try done.
    - intros Heq. by destruct (Hfree j q2 Hq2).
    - intros Heq. by destruct (Hfree i q1 Hq1).
    - by apply Huniq. }
  split; [done|]. split; [done|]. split; [done|].
  split; [apply uuid4_fresh|]. split; [done|].
  pose proof (get_profile_by_user_id_unique _ (uuid4 (profile_table σ))
                (crud_records.Profile_model_validate profile_in current_user.1
                   (utc_today clk)) Huniq' (lookup_insert_eq _ _ _)) as Hread.
  cbn [crud_records.Profile_model_validate Profile.user_id] in Hread.
  split.
  - by rewrite read_profile_me_run, Hread.
  - intros again clk'. by rewrite create_profile_me_run, Hread.
Qed.

Lemma profile_created_once_witness :
  profiles.read_profile_me dr_a
    (profiles.create_profile_me blank_profile dr_a monday_noon clinic).2
  = (Done (0%N, crud_records.Profile_model_validate blank_profile dr_a.1
                  (utc_today monday_noon)),
     (profiles.create_profile_me blank_profile dr_a monday_noon clinic).2).
Proof.
  destruct (profile_created_once blank_profile dr_a monday_noon clinic
              (profiles.create_profile_me blank_profile dr_a monday_noon clinic).2
              0%N (crud_records.Profile_model_validate blank_profile dr_a.1
                     (utc_today monday_noon)))
    as (_ & _ & _ & _ & _ & H & _); [|vm_compute; reflexivity|exact H].
  intros i j p q Hp. unfold clinic in Hp. cbn [profile_table] in Hp.
  by rewrite lookup_empty in Hp.
Defined.

(** An update of one's profile rewrites a profile of the caller and no
    other: the stored row keeps its key, its user and its creation stamp
    and takes the day of the clock as [updated_at]; each of the seven
    payload fields is written when it was sent ([null] clears it) and left
    as it was when it was not; no user ends up with two profiles. *)
Theorem profile_update_is_own (profile_in : ProfileUpdate.t)
    (current_user : uuid * User.t) (clk : clock) (σ σ' : session)
    (id : uuid) (p : Profile.t) :
  profiles.update_profile_me profile_in current_user clk σ = (Done (id, p), σ') →
  ∃ old,
    profile_table σ !! id = Some old
    ∧ Profile.user_id old = current_user.1
    ∧ σ' = put_profile σ id p
    ∧ Profile.user_id p = current_user.1
    ∧ Profile.created_at p = Profile.created_at old
    ∧ Profile.updated_at p = Some (utc_today clk)
    ∧ Profile.phone p
      = set_nullable (ProfileUpdate.phone profile_in) (Profile.phone old)
    ∧ Profile.address p
      = set_nullable (ProfileUpdate.address profile_in) (Profile.address old)
    ∧ Profile.date_of_birth p
      = set_nullable (ProfileUpdate.date_of_birth profile_in)
                     (Profile.date_of_birth old)
    ∧ Profile.bio p
      = set_nullable (ProfileUpdate.bio profile_in) (Profile.bio old)
    ∧ Profile.specialization p
      = set_nullable (ProfileUpdate.specialization profile_in)
                     (Profile.specialization old)
    ∧ Profile.years_of_experience p
      = set_nullable (ProfileUpdate.years_of_experience profile_in)
                     (Profile.years_of_experience old)
    ∧ Profile.profile_image p
      = set_nullable (ProfileUpdate.profile_image profile_in)
                     (Profile.profile_image old)
    ∧ (one_profile_per_user σ → one_profile_per_user σ').
Proof.
  unfold profiles.update_profile_me.
  destruct (get_profile_by_user_id_run current_user.1 σ)
    as (found & Hrun & _ & Hsome).
  unfold mbind, Handler_bind. rewrite Hrun.
  destruct found as [[k old]|]; [|discriminate].
  destruct (Hsome _ eq_refl) as [Hold Huser]. cbn in Hold, Huser.
  unfold crud_records.update_profile. run_handler. intros [= <- <- <-].
  exists old. cbn. do 13 (split; [done|]).
  intros Huniq i j q1 q2. cbn.
  intros [[<- <-]|[Hi Hq1]]%lookup_insert_Some
         [[<- <-]|[Hj Hq2]]%lookup_insert_Some; cbn; try done.
  - intros Heq. symmetry. by apply (Huniq j k q2 old).
  - intros Heq. by apply (Huniq i k q1 old).
  - by apply Huniq.
Qed.

Lemma profile_update_is_own_witness :
  ∃ old,
    profile_table
      (profiles.create_profile_me blank_profile dr_a monday_noon clinic).2 !! 0%N
    = Some old
    ∧ Profile.user_id old = dr_a.1.
Proof.
  destruct (profile_update_is_own
              (ProfileUpdate.mk Unset Unset Unset (Value "Clinical dietetics"%string)
                 Unset Unset Unset)
              dr_a tuesday_at_10
              (profiles.create_profile_me blank_profile dr_a monday_noon clinic).2
              (profiles.update_profile_me
                 (ProfileUpdate.mk Unset Unset Unset
                    (Value "Clinical dietetics"%string) Unset Unset Unset)
                 dr_a tuesday_at_10
                 (profiles.create_profile_me blank_profile dr_a monday_noon
                    clinic).2).2
              0%N
              {| Profile.phone := None; Profile.address := None;
                 Profile.date_of_birth := None;
                 Profile.bio := Some "Clinical dietetics"%string;
                 Profile.specialization := None;
                 Profile.years_of_experience := Some 7;
                 Profile.profile_image := None;
                 Profile.user_id := dr_a.1;
                 Profile.created_at := Some 739929;
                 Profile.updated_at := Some tuesday |})
    as (old & H1 & H2 & _); [vm_compute; reflexivity|].
  by exists old.
Defined.

(** Reading a profile by user id works for one's own id only, where it is
    the same as reading "me".  For any other id the request ends in a
    [NameError], whatever the caller's type and whether or not that user
    has a profile: the permission test names [UserType], which the module
    does not import. *)
Theorem read_profile_own_only (user_id : uuid) (current_user : uuid * User.t)
    (σ : session) :
  (user_id = current_user.1 →
   profiles.read_profile user_id current_user σ
   = profiles.read_profile_me current_user σ)
  ∧ (user_id ≠ current_user.1 →
     profiles.read_profile user_id current_user σ
     = (Failed (NameError "UserType"), σ)).
Proof.
  unfold profiles.read_profile, profiles.read_profile_me. split.
  - intros ->. run_handler. by rewrite bool_decide_eq_false_2 by (by intros []).
  - intros Hne. run_handler. by rewrite bool_decide_eq_true_2.
Qed.

Lemma read_profile_own_only_witness :
  profiles.read_profile dr_a.1 admin_z
    (profiles.create_profile_me blank_profile dr_a monday_noon clinic).2
  = (Failed (NameError "UserType"),
     (profiles.create_profile_me blank_profile dr_a monday_noon clinic).2).
Proof.
  apply (read_profile_own_only dr_a.1 admin_z). vm_compute. discriminate.
Defined.

(** ** Nutrition records *)

Lemma lift_get_user_by_id (user_id : uuid) (σ : session) :
  lift (crud.get_user_by_id user_id) σ
  = (Done ((λ u, (user_id, u)) <$> user_table (scheduling σ) !! user_id), σ).
Proof. unfold lift, crud.get_user_by_id, query. cbn. by destruct σ. Qed.

Lemma create_nutrition_record_run (record_in : NutritionRecordCreate.t)
    (current_user : uuid * User.t) (clk : clock) (σ : session) :
  nutrition_records.create_nutrition_record record_in current_user clk σ =
  if bool_decide (current_user.1 ≠ NutritionRecordCreate.client_id record_in)
     && bool_decide (User.user_type current_user.2 = CLIENT)
  then (Failed (Handled Forbidden), σ)
  else
    match user_table (scheduling σ) !! NutritionRecordCreate.client_id record_in with
    | None => (Failed (Handled (HTTPException 404 "Client not found")), σ)
    | Some _ =>
        let id := uuid4 (nutrition_record_table σ) in
        let row :=
          crud_records.NutritionRecord_model_validate record_in current_user.1
            (utc_today clk) in
        (Done (id, row), put_nutrition_record σ id row)
    end.
Proof.
  unfold nutrition_records.create_nutrition_record.
  unfold mbind, Handler_bind at 1. rewrite fail_if_run.
  destruct (_ && _); [done|].
  unfold mbind, Handler_bind at 1. rewrite lift_get_user_by_id.
  unfold mbind, Handler_bind at 1. rewrite fail_if_run.
  destruct (user_table (scheduling σ) !! _); cbn; done.
Qed.

(** A nutrition record is created only for a stored user, and by a client
    only for themselves (a nutritionist or an admin may write one for
    anyone stored).  An accepted create adds one row under a free key with
    the caller as creator and the payload's client; every other record,
    every profile and the scheduling tables stay as they were. *)
Theorem record_creation (record_in : NutritionRecordCreate.t)
    (current_user : uuid * User.t) (clk : clock) (σ σ' : session)
    (id : uuid) (row : NutritionRecord.t) :
  nutrition_records.create_nutrition_record record_in current_user clk σ
  = (Done (id, row), σ') →
  is_Some (user_table (scheduling σ)
             !! NutritionRecordCreate.client_id record_in)
  ∧ (User.user_type current_user.2 = CLIENT →
     NutritionRecordCreate.client_id record_in = current_user.1)
  ∧ nutrition_record_table σ !! id = None
  ∧ nutrition_record_table σ' !! id = Some row
  ∧ (∀ j, j ≠ id → nutrition_record_table σ' !! j = nutrition_record_table σ !! j)
  ∧ NutritionRecord.created_by_id row = current_user.1
  ∧ NutritionRecord.client_id row = NutritionRecordCreate.client_id record_in
  ∧ NutritionRecord.date row = NutritionRecordCreate.date record_in
  ∧ NutritionRecord.weight row = NutritionRecordCreate.weight record_in
  ∧ NutritionRecord.height row = NutritionRecordCreate.height record_in
  ∧ profile_table σ' = profile_table σ
  ∧ scheduling σ' = scheduling σ.
Proof.
  rewrite create_nutrition_record_run.
  destruct (_ && _) eqn:Hguard; [discriminate|].
  destruct (user_table (scheduling σ) !! _) as [c|] eqn:Hc; [|discriminate].
  cbv zeta. intros [= <- <- <-]. cbn. split; [done|]. split.
  { intros Hty. apply andb_false_iff in Hguard as [H|H].
    - apply bool_decide_eq_false in H. by destruct (decide
        (NutritionRecordCreate.client_id record_in = current_user.1));
        [|destruct H].
    - by apply bool_decide_eq_false in H. }
  split; [apply uuid4_fresh|]. split; [apply lookup_insert_eq|].
  split; [by intros j Hj; rewrite lookup_insert_ne|]. done.
Qed.

Lemma record_creation_witness :
  nutrition_record_table clinic_with_record !! 0%N
  = Some (crud_records.NutritionRecord_model_validate (visit_record client_c)
            dr_a.1 (utc_today monday_noon)).
Proof.
  destruct (record_creation (visit_record client_c) dr_a monday_noon clinic
              clinic_with_record 0%N
              (crud_records.NutritionRecord_model_validate
                 (visit_record client_c) dr_a.1 (utc_today monday_noon)))
    as (_ & _ & _ & H & _); [vm_compute; reflexivity|exact H].
Defined.

Lemma select_records_of_client_elem (client_id : uuid) (σ : session)
    (x : uuid * NutritionRecord.t) :
  x ∈ crud_records.select_records_of_client client_id σ
  ↔ nutrition_record_table σ !! x.1 = Some x.2
    ∧ NutritionRecord.client_id x.2 = client_id.
Proof.
  unfold crud_records.select_records_of_client.
  rewrite list_elem_of_In, filter_In, <- list_elem_of_In, bool_decide_eq_true.
  destruct x as [id r]. by rewrite elem_of_map_to_list.
Qed.

#[local] Instance by_date_desc_transitive :
  Transitive crud_records.by_date_desc.
Proof. intros x y z. unfold crud_records.by_date_desc. lia. Qed.

#[local] Instance by_date_desc_total : Total crud_records.by_date_desc.
Proof. intros x y. unfold crud_records.by_date_desc. lia. Qed.

Lemma records_page_facts (client_id : uuid) (skip limit : nat) (σ : session) :
  let rows := crud_listing.paginate skip limit
                (merge_sort crud_records.by_date_desc
                   (crud_records.select_records_of_client client_id σ)) in
  StronglySorted crud_records.by_date_desc rows
  ∧ (length rows ≤ limit)%nat
  ∧ (length rows
     ≤ length (crud_records.select_records_of_client client_id σ))%nat
  ∧ ∀ x, x ∈ rows →
         nutrition_record_table σ !! x.1 = Some x.2
         ∧ NutritionRecord.client_id x.2 = client_id.
Proof.
  cbv zeta. split; [|split; [|split]].
  - eapply StronglySorted_sublist; [apply paginate_sublist|].
    apply StronglySorted_merge_sort; apply _.
  - apply paginate_length.
  - etrans; [apply paginate_length|]. by rewrite merge_sort_Permutation.
  - intros x Hx. apply (sublist_subseteq _ _ (paginate_sublist _ _ _)) in Hx.
    rewrite merge_sort_Permutation in Hx.
    by apply select_records_of_client_elem.
Qed.

(** A user of type client is never shown a record of someone else: every
    record any of the four read handlers returns to such a user has the
    user as its client.  (The "me" listing is for clients only.) *)
Theorem client_sees_own_records (current_user : uuid * User.t) (σ : session) :
  User.user_type current_user.2 = CLIENT →
  (∀ skip limit p σ',
     nutrition_records.read_my_nutrition_records current_user skip limit σ
     = (Done p, σ') →
     ∀ x, x ∈ data p → NutritionRecord.client_id x.2 = current_user.1)
  ∧ (∀ client_id skip limit p σ',
       nutrition_records.read_client_nutrition_records client_id current_user
         skip limit σ = (Done p, σ') →
       ∀ x, x ∈ data p → NutritionRecord.client_id x.2 = current_user.1)
  ∧ (∀ client_id start_date end_date rows σ',
       nutrition_records.read_nutrition_records_by_date_range client_id
         start_date end_date current_user σ = (Done rows, σ') →
       ∀ x, x ∈ rows → NutritionRecord.client_id x.2 = current_user.1)
  ∧ (∀ record_id r σ',
       nutrition_records.read_nutrition_record record_id current_user σ
       = (Done r, σ') →
       NutritionRecord.client_id r.2 = current_user.1).
Proof.
  intros Hty. split; [|split; [|split]].
  - intros skip limit p σ'. unfold nutrition_records.read_my_nutrition_records.
    unfold mbind, Handler_bind at 1. rewrite fail_if_run.
    rewrite bool_decide_eq_false_2 by (by intros []).
    unfold crud_records.get_nutrition_records_by_client,
      crud_records.get_nutrition_records_count_by_client.
    run_handler. intros [= <- <-] x Hx. cbn in Hx.
    by apply records_page_facts in Hx as [_ ?].
  - intros client_id skip limit p σ'.
    unfold nutrition_records.read_client_nutrition_records.
    unfold mbind, Handler_bind at 1. rewrite fail_if_run.
    rewrite (bool_decide_eq_true_2 _ Hty). cbn [andb].
    case_bool_decide as Hwho; [discriminate|].
    assert (client_id = current_user.1) as ->.
    { by destruct (decide (current_user.1 = client_id)); [|destruct Hwho]. }
    unfold mbind, Handler_bind at 1. rewrite lift_get_user_by_id.
    unfold mbind, Handler_bind at 1. rewrite fail_if_run.
    destruct (bool_decide _); [discriminate|].
    unfold crud_records.get_nutrition_records_by_client,
      crud_records.get_nutrition_records_count_by_client.
    run_handler. intros [= <- <-] x Hx. cbn in Hx.
    by apply records_page_facts in Hx as [_ ?].
  - intros client_id start_date end_date rows σ'.
    unfold nutrition_records.read_nutrition_records_by_date_range.
    unfold mbind, Handler_bind at 1. rewrite fail_if_run.
    destruct (_ >? _); [discriminate|].
    unfold mbind, Handler_bind at 1. rewrite fail_if_run.
    rewrite (bool_decide_eq_true_2 _ Hty). cbn [andb].
    case_bool_decide as Hwho; [discriminate|].
    assert (client_id = current_user.1) as ->.
    { by destruct (decide (current_user.1 = client_id)); [|destruct Hwho]. }
    unfold mbind, Handler_bind at 1. rewrite lift_get_user_by_id.
    unfold mbind, Handler_bind at 1. rewrite fail_if_run.
    destruct (bool_decide _); [discriminate|].
    unfold crud_records.get_nutrition_records_by_date_range. run_handler.
    intros [= <- <-] x Hx. rewrite merge_sort_Permutation in Hx.
    apply list_elem_of_In, filter_In in Hx as [_ Hf].
    apply andb_true_iff in Hf as [Hf _]. apply andb_true_iff in Hf as [Hf _].
    by apply bool_decide_eq_true in Hf.
  - intros record_id r σ'. unfold nutrition_records.read_nutrition_record,
      crud_records.get_nutrition_record_by_id.
    run_handler. destruct (nutrition_record_table σ !! record_id) as [rec|];
      cbn; [|discriminate].
    rewrite fail_if_run, (bool_decide_eq_true_2 _ Hty). cbn [andb].
    case_bool_decide as Hwho; [discriminate|]. intros [= <- <-]. cbn in *.
    by destruct (decide (current_user.1 = NutritionRecord.client_id rec));
      [|destruct Hwho].
Qed.

Lemma client_sees_own_records_witness :
  nutrition_records.read_nutrition_record 0%N client_d clinic_with_record
  = (Failed (Handled Forbidden), clinic_with_record)
  ∧ NutritionRecord.client_id
      (crud_records.NutritionRecord_model_validate (visit_record client_c)
         dr_a.1 (utc_today monday_noon)) = client_c.1.
Proof.
  split; [vm_compute; reflexivity|].
  destruct (client_sees_own_records client_c clinic_with_record)
    as (_ & _ & _ & H); [reflexivity|].
  apply (H 0%N (0%N, crud_records.NutritionRecord_model_validate
                       (visit_record client_c) dr_a.1 (utc_today monday_noon))
           clinic_with_record).
  vm_compute. reflexivity.
Defined.

Lemma update_nutrition_record_run (record_id : uuid)
    (record_in : NutritionRecordUpdate.t) (current_user : uuid * User.t)
    (clk : clock) (σ : session) :
  nutrition_records.update_nutrition_record record_id record_in current_user
    clk σ =
  match nutrition_record_table σ !! record_id with
  | None => (Failed (Handled (HTTPException 404 "Nutrition record not found")), σ)
  | Some r =>
      if bool_decide (current_user.1 ≠ NutritionRecord.created_by_id r)
         && bool_decide (User.user_type current_user.2 ≠ ADMIN)
      then (Failed (Handled Forbidden), σ)
      else
        match crud_records.sqlmodel_update r record_in (utc_today clk) with
        | Some row => (Done (record_id, row), put_nutrition_record σ record_id row)
        | None => (Failed (Handled IntegrityError), σ)
        end
  end.
Proof.
  unfold nutrition_records.update_nutrition_record,
    crud_records.get_nutrition_record_by_id,
    crud_records.update_nutrition_record.
  run_handler. destruct (nutrition_record_table σ !! record_id) as [r|]; cbn;
    [|done].
  rewrite fail_if_run. destruct (_ && _); cbn; [done|].
  by destruct (crud_records.sqlmodel_update _ _ _).
Qed.

Lemma delete_nutrition_record_run (record_id : uuid)
    (current_user : uuid * User.t) (σ : session) :
  nutrition_records.delete_nutrition_record record_id current_user σ =
  match nutrition_record_table σ !! record_id with
  | None => (Failed (Handled (HTTPException 404 "Nutrition record not found")), σ)
  | Some r =>
      if bool_decide (current_user.1 ≠ NutritionRecord.created_by_id r)
         && bool_decide (User.user_type current_user.2 ≠ ADMIN)
      then (Failed (Handled Forbidden), σ)
      else (Done "Nutrition record deleted successfully"%string,
            drop_nutrition_record σ record_id)
  end.
Proof.
  unfold nutrition_records.delete_nutrition_record,
    crud_records.get_nutrition_record_by_id,
    crud_records.delete_nutrition_record.
  run_handler.
  destruct (nutrition_record_table σ !! record_id) as [r|] eqn:Hr; cbn; [|done].
  rewrite fail_if_run. destruct (_ && _); cbn; [done|]. by rewrite Hr.
Qed.

Lemma read_nutrition_record_run (record_id : uuid)
    (current_user : uuid * User.t) (σ : session) :
  nutrition_records.read_nutrition_record record_id current_user σ =
  match nutrition_record_table σ !! record_id with
  | None => (Failed (Handled (HTTPException 404 "Nutrition record not found")), σ)
  | Some r =>
      if bool_decide (User.user_type current_user.2 = CLIENT)
         && bool_decide (current_user.1 ≠ NutritionRecord.client_id r)
      then (Failed (Handled Forbidden), σ)
      else (Done (record_id, r), σ)
  end.
Proof.
  unfold nutrition_records.read_nutrition_record,
    crud_records.get_nutrition_record_by_id.
  run_handler. destruct (nutrition_record_table σ !! record_id) as [r|]; cbn;
    [|done].
  rewrite fail_if_run. by destruct (_ && _).
Qed.

(** Only the user who wrote a record, or an admin, changes or deletes it.
    Anyone else, the record's own client included, gets 403 from both
    handlers and nothing is written, although that client may read it. *)
Theorem record_belongs_to_its_author (record_id : uuid)
    (record_in : NutritionRecordUpdate.t) (current_user : uuid * User.t)
    (clk : clock) (σ : session) (r : NutritionRecord.t) :
  nutrition_record_table σ !! record_id = Some r →
  current_user.1 ≠ NutritionRecord.created_by_id r →
  User.user_type current_user.2 ≠ ADMIN →
  nutrition_records.update_nutrition_record record_id record_in current_user
    clk σ = (Failed (Handled Forbidden), σ)
  ∧ nutrition_records.delete_nutrition_record record_id current_user σ
    = (Failed (Handled Forbidden), σ)
  ∧ (current_user.1 = NutritionRecord.client_id r →
     nutrition_records.read_nutrition_record record_id current_user σ
     = (Done (record_id, r), σ)).
Proof.
  intros Hr Hwho Hty.
  rewrite update_nutrition_record_run, delete_nutrition_record_run,
    read_nutrition_record_run, Hr.
  rewrite !(bool_decide_eq_true_2 (current_user.1 ≠ _)) by done.
  rewrite !(bool_decide_eq_true_2 (User.user_type _ ≠ _)) by done. cbn.
  do 2 (split; [done|]). intros Hc.
  rewrite (bool_decide_eq_false_2 (current_user.1 ≠ _)) by (by intros []).
  by rewrite andb_false_r.
Qed.

Lemma record_belongs_to_its_author_witness :
  nutrition_records.delete_nutrition_record 0%N client_c clinic_with_record
  = (Failed (Handled Forbidden), clinic_with_record)
  ∧ nutrition_records.read_nutrition_record 0%N client_c clinic_with_record
    = (Done (0%N, crud_records.NutritionRecord_model_validate
                    (visit_record client_c) dr_a.1 (utc_today monday_noon)),
       clinic_with_record).
Proof.
  destruct (record_belongs_to_its_author 0%N
              (NutritionRecordUpdate.mk Unset Unset Unset Unset Unset) client_c
              monday_noon clinic_with_record
              (crud_records.NutritionRecord_model_validate
                 (visit_record client_c) dr_a.1 (utc_today monday_noon)))
    as (_ & H1 & H2);
    [vm_compute; reflexivity|vm_compute; discriminate|vm_compute; discriminate|].
  split; [exact H1|]. apply H2. reflexivity.
Defined.

(** A deleted record is gone for everyone: after an accepted delete the
    key is free, reading, updating and deleting it again all answer 404,
    and the other records, the profiles and the scheduling tables are as
    they were. *)
Theorem record_deleted_is_gone (record_id : uuid) (current_user : uuid * User.t)
    (message : string) (σ σ' : session) :
  nutrition_records.delete_nutrition_record record_id current_user σ
  = (Done message, σ') →
  (∃ r, nutrition_record_table σ !! record_id = Some r
        ∧ (current_user.1 = NutritionRecord.created_by_id r
           ∨ User.user_type current_user.2 = ADMIN))
  ∧ nutrition_record_table σ' !! record_id = None
  ∧ (∀ j, j ≠ record_id →
          nutrition_record_table σ' !! j = nutrition_record_table σ !! j)
  ∧ profile_table σ' = profile_table σ
  ∧ scheduling σ' = scheduling σ
  ∧ ∀ anyone record_in clk,
      nutrition_records.read_nutrition_record record_id anyone σ'
      = (Failed (Handled (HTTPException 404 "Nutrition record not found")), σ')
      ∧ nutrition_records.update_nutrition_record record_id record_in anyone
          clk σ'
        = (Failed (Handled (HTTPException 404 "Nutrition record not found")), σ')
      ∧ nutrition_records.delete_nutrition_record record_id anyone σ'
        = (Failed (Handled (HTTPException 404 "Nutrition record not found")), σ').
Proof.
  rewrite delete_nutrition_record_run.
  destruct (nutrition_record_table σ !! record_id) as [r|]; [|discriminate].
  destruct (_ && _) eqn:Hguard; [discriminate|]. intros [= <- <-]. split.
  { exists r. split; [done|]. apply andb_false_iff in Hguard as [H|H];
      apply bool_decide_eq_false in H.
    - left. by destruct (decide (current_user.1 = NutritionRecord.created_by_id r));
        [|destruct H].
    - right. by destruct (decide (User.user_type current_user.2 = ADMIN));
        [|destruct H]. }
  cbn. split; [apply lookup_delete_eq|].
  split; [by intros j Hj; rewrite lookup_delete_ne|]. do 2 (split; [done|]).
  intros anyone record_in clk.
  rewrite read_nutrition_record_run, update_nutrition_record_run,
    delete_nutrition_record_run. cbn. by rewrite lookup_delete_eq.
Qed.

Lemma record_deleted_is_gone_witness :
  nutrition_record_table
    (nutrition_records.delete_nutrition_record 0%N dr_a clinic_with_record).2
    !! 0%N = None.
Proof.
  destruct (record_deleted_is_gone 0%N dr_a
              "Nutrition record deleted successfully" clinic_with_record
              (nutrition_records.delete_nutrition_record 0%N dr_a
                 clinic_with_record).2)
    as (_ & H & _); [vm_compute; reflexivity|exact H].
Defined.

(** An accepted update of a record leaves its client, its author, its
    creation stamp and its date alone and stamps the day of the clock; each
    of weight, height, notes and recommendations is written when it was
    sent ([null] clears it) and left as it was when it was not.  The date
    is never rewritten: validation lets only [null] through for it, and a
    date sent as [null] is never accepted. *)
Theorem record_update_keeps_parties (record_id : uuid)
    (record_in : NutritionRecordUpdate.t) (current_user : uuid * User.t)
    (clk : clock) (σ σ' : session) (r : uuid * NutritionRecord.t) :
  nutrition_records.update_nutrition_record record_id record_in current_user
    clk σ = (Done r, σ') →
  ∃ old,
    nutrition_record_table σ !! record_id = Some old
    ∧ r.1 = record_id
    ∧ σ' = put_nutrition_record σ record_id r.2
    ∧ NutritionRecord.client_id r.2 = NutritionRecord.client_id old
    ∧ NutritionRecord.created_by_id r.2 = NutritionRecord.created_by_id old
    ∧ NutritionRecord.created_at r.2 = NutritionRecord.created_at old
    ∧ NutritionRecord.updated_at r.2 = Some (utc_today clk)
    ∧ NutritionRecordUpdate.date record_in = Unset
    ∧ NutritionRecord.date r.2 = NutritionRecord.date old
    ∧ NutritionRecord.weight r.2
      = set_nullable (NutritionRecordUpdate.weight record_in)
                     (NutritionRecord.weight old)
    ∧ NutritionRecord.height r.2
      = set_nullable (NutritionRecordUpdate.height record_in)
                     (NutritionRecord.height old)
    ∧ NutritionRecord.notes r.2
      = set_nullable (NutritionRecordUpdate.notes record_in)
                     (NutritionRecord.notes old)
    ∧ NutritionRecord.recommendations r.2
      = set_nullable (NutritionRecordUpdate.recommendations record_in)
                     (NutritionRecord.recommendations old).
Proof.
  rewrite update_nutrition_record_run.
  destruct (nutrition_record_table σ !! record_id) as [old|]; [|discriminate].
  destruct (_ && _); [discriminate|].
  unfold crud_records.sqlmodel_update.
  destruct (NutritionRecordUpdate.date record_in) as [| |[]] eqn:Hd; cbn;
    intros [= <- <-]; exists old; cbn; repeat split; done.
Qed.

Lemma record_update_keeps_parties_witness :
  ∃ old,
    nutrition_record_table clinic_with_record !! 0%N = Some old
    ∧ NutritionRecord.client_id old = client_c.1.
Proof.
  destruct (record_update_keeps_parties 0%N
              (NutritionRecordUpdate.mk Unset (Value 4634978072750194688) Unset
                 Unset Unset)
              dr_a tuesday_at_10 clinic_with_record
              (nutrition_records.update_nutrition_record 0%N
                 (NutritionRecordUpdate.mk Unset (Value 4634978072750194688)
                    Unset Unset Unset) dr_a tuesday_at_10 clinic_with_record).2
              (0%N, {| NutritionRecord.date := tuesday;
                       NutritionRecord.weight := Some 4634978072750194688;
                       NutritionRecord.height := None;
                       NutritionRecord.notes := Some "first visit"%string;
                       NutritionRecord.recommendations := None;
                       NutritionRecord.client_id := client_c.1;
                       NutritionRecord.created_by_id := dr_a.1;
                       NutritionRecord.created_at := Some 739929;
                       NutritionRecord.updated_at := Some tuesday |}))
    as (old & H1 & _ & _ & H2 & _); [vm_compute; reflexivity|].
  exists old. split; [done|]. by rewrite <- H2.
Defined.

Lemma read_nutrition_records_by_date_range_run (client_id : uuid)
    (start_date end_date : datetime.date) (current_user : uuid * User.t)
    (σ : session) :
  nutrition_records.read_nutrition_records_by_date_range client_id start_date
    end_date current_user σ =
  if start_date >? end_date
  then (Failed (Handled (HTTPException 400 "Start date must be before end date")),
        σ)
  else if bool_decide (User.user_type current_user.2 = CLIENT)
          && bool_decide (current_user.1 ≠ client_id)
  then (Failed (Handled Forbidden), σ)
  else
    match user_table (scheduling σ) !! client_id with
    | None => (Failed (Handled (HTTPException 404 "Client not found")), σ)
    | Some _ =>
        crud_records.get_nutrition_records_by_date_range client_id start_date
          end_date σ
    end.
Proof.
  unfold nutrition_records.read_nutrition_records_by_date_range.
  unfold mbind, Handler_bind at 1. rewrite fail_if_run.
  destruct (_ >? _); [done|].
  unfold mbind, Handler_bind at 1. rewrite fail_if_run.
  destruct (_ && _); [done|].
  unfold mbind, Handler_bind at 1. rewrite lift_get_user_by_id.
  unfold mbind, Handler_bind at 1. rewrite fail_if_run.
  by destruct (user_table (scheduling σ) !! client_id).
Qed.

(** The date-range listing of a client's records checks, in this order,
    the range (400), the caller (403 for a client asking for someone
    else) and the client id (404 when no such user is stored); otherwise
    the answer holds, once each and latest date first, exactly the records
    of that client dated inside the range. *)
Theorem records_by_date_range_listing (client_id : uuid)
    (start_date end_date : datetime.date) (current_user : uuid * User.t)
    (σ : session) :
  (start_date > end_date →
   nutrition_records.read_nutrition_records_by_date_range client_id start_date
     end_date current_user σ
   = (Failed (Handled (HTTPException 400 "Start date must be before end date")),
      σ))
  ∧ (start_date ≤ end_date →
     User.user_type current_user.2 = CLIENT → current_user.1 ≠ client_id →
     nutrition_records.read_nutrition_records_by_date_range client_id start_date
       end_date current_user σ = (Failed (Handled Forbidden), σ))
  ∧ (start_date ≤ end_date →
     User.user_type current_user.2 ≠ CLIENT ∨ current_user.1 = client_id →
     match user_table (scheduling σ) !! client_id with
     | None =>
         nutrition_records.read_nutrition_records_by_date_range client_id
           start_date end_date current_user σ
         = (Failed (Handled (HTTPException 404 "Client not found")), σ)
     | Some _ =>
         ∃ rows,
           nutrition_records.read_nutrition_records_by_date_range client_id
             start_date end_date current_user σ = (Done rows, σ)
           ∧ StronglySorted crud_records.by_date_desc rows
           ∧ NoDup rows
           ∧ ∀ x, x ∈ rows
                  ↔ nutrition_record_table σ !! x.1 = Some x.2
                    ∧ NutritionRecord.client_id x.2 = client_id
                    ∧ start_date ≤ NutritionRecord.date x.2 ≤ end_date
     end).
Proof.
  rewrite read_nutrition_records_by_date_range_run. split; [|split].
  - intros Hr. by replace (start_date >? end_date) with true by lia.
  - intros Hr Hty Hwho. replace (start_date >? end_date) with false by lia.
    by rewrite !bool_decide_eq_true_2 by done.
  - intros Hr Hwho. replace (start_date >? end_date) with false by lia.
    assert (bool_decide (User.user_type current_user.2 = CLIENT)
            && bool_decide (current_user.1 ≠ client_id) = false) as ->.
    { apply andb_false_iff. destruct Hwho as [H|H].
      - left. by apply bool_decide_eq_false_2.
      - right. apply bool_decide_eq_false_2. by intros []. }
    destruct (user_table (scheduling σ) !! client_id) as [c|]; [|done].
    unfold crud_records.get_nutrition_records_by_date_range, ask.
    eexists. split; [reflexivity|]. split; [|split].
    + apply StronglySorted_merge_sort; apply _.
    + rewrite merge_sort_Permutation.
      eapply sublist_NoDup; [apply NoDup_map_to_list|apply List_filter_sublist].
    + intros [id r]. rewrite merge_sort_Permutation, list_elem_of_In, filter_In,
        <- list_elem_of_In, elem_of_map_to_list. cbn.
      rewrite !andb_true_iff, bool_decide_eq_true.
      split; intros H; destruct_and?; repeat split; auto; lia.
Qed.

Lemma records_by_date_range_listing_witness :
  ∃ rows,
    nutrition_records.read_nutrition_records_by_date_range client_c.1 tuesday
      tuesday client_c clinic_with_record = (Done rows, clinic_with_record)
    ∧ (0%N, crud_records.NutritionRecord_model_validate (visit_record client_c)
              dr_a.1 (utc_today monday_noon)) ∈ rows.
Proof.
  destruct (records_by_date_range_listing client_c.1 tuesday tuesday client_c
              clinic_with_record) as (_ & _ & H).
  assert (Hu : user_table (scheduling clinic_with_record) !! client_c.1
               = Some client_c.2) by (vm_compute; reflexivity).
  rewrite Hu in H. destruct H as (rows & Hrun & _ & _ & Hin);
    [reflexivity|by right|].
  exists rows. split; [done|]. apply Hin. cbn.
  split; [vm_compute; reflexivity|]. split; [reflexivity|]. unfold tuesday. lia.
Defined.

(** The paged listing of a client's records, as a nutritionist, an admin
    or the client sees it: latest date first, no more than [limit] rows,
    all of them records of that client; the count is at least the length
    of the page, and a first page whose limit reaches the count holds
    every record of the client. *)
Theorem records_page (client_id : uuid) (current_user : uuid * User.t)
    (skip limit : nat) (σ σ' : session) (p : page (uuid * NutritionRecord.t)) :
  nutrition_records.read_client_nutrition_records client_id current_user
    skip limit σ = (Done p, σ') →
  σ' = σ
  ∧ is_Some (user_table (scheduling σ) !! client_id)
  ∧ (User.user_type current_user.2 = CLIENT → client_id = current_user.1)
  ∧ StronglySorted crud_records.by_date_desc (data p)
  ∧ (length (data p) ≤ limit)%nat
  ∧ (length (data p) ≤ count p)%nat
  ∧ (∀ x, x ∈ data p →
          nutrition_record_table σ !! x.1 = Some x.2
          ∧ NutritionRecord.client_id x.2 = client_id)
  ∧ (skip = 0%nat → (count p ≤ limit)%nat →
     length (data p) = count p
     ∧ ∀ x, nutrition_record_table σ !! x.1 = Some x.2 →
            NutritionRecord.client_id x.2 = client_id → x ∈ data p).
Proof.
  unfold nutrition_records.read_client_nutrition_records.
  unfold mbind, Handler_bind at 1. rewrite fail_if_run.
  destruct (_ && _) eqn:Hguard; [discriminate|].
  unfold mbind, Handler_bind at 1. rewrite lift_get_user_by_id.
  unfold mbind, Handler_bind at 1. rewrite fail_if_run.
  destruct (user_table (scheduling σ) !! client_id) as [c|]; cbn; [|discriminate].
  unfold crud_records.get_nutrition_records_by_client,
    crud_records.get_nutrition_records_count_by_client.
  run_handler. intros [= <- <-]. cbn.
  destruct (records_page_facts client_id skip limit σ)
    as (Hsort & Hlim & Hlen & Hsub).
  split; [done|]. split; [done|]. split.
  { intros Hty. apply andb_false_iff in Hguard as [H|H];
      apply bool_decide_eq_false in H; [done|].
    by destruct (decide (current_user.1 = client_id)); [|destruct H]. }
  do 4 (split; [done|]). intros -> Hc.
  rewrite paginate_all by (by rewrite merge_sort_Permutation).
  split; [by rewrite merge_sort_Permutation|].
  intros x ? ?. rewrite merge_sort_Permutation.
  by apply select_records_of_client_elem.
Qed.

Lemma records_page_witness :
  nutrition_records.read_client_nutrition_records client_c.1 dr_a 0 10
    clinic_with_record
  = (Done (mk_page
             [(0%N, crud_records.NutritionRecord_model_validate
                      (visit_record client_c) dr_a.1 (utc_today monday_noon))]
             1), clinic_with_record)
  ∧ (0%N, crud_records.NutritionRecord_model_validate
            (visit_record client_c) dr_a.1 (utc_today monday_noon))
    ∈ [(0%N, crud_records.NutritionRecord_model_validate
               (visit_record client_c) dr_a.1 (utc_today monday_noon))].
Proof.
  assert (Hrun : nutrition_records.read_client_nutrition_records client_c.1
                   dr_a 0 10 clinic_with_record
                 = (Done (mk_page
                            [(0%N, crud_records.NutritionRecord_model_validate
                                     (visit_record client_c) dr_a.1
                                     (utc_today monday_noon))]
                            1), clinic_with_record))
    by (vm_compute; reflexivity).
  split; [exact Hrun|].
  destruct (records_page client_c.1 dr_a 0 10 clinic_with_record
              clinic_with_record _ Hrun)
    as (_ & _ & _ & _ & _ & _ & _ & H).
  destruct H as [_ Hin]; [reflexivity|cbn; lia|].
  apply (Hin (0%N, crud_records.NutritionRecord_model_validate
                     (visit_record client_c) dr_a.1 (utc_today monday_noon)));
    [vm_compute; reflexivity|reflexivity].
Defined.

Lemma no_double_booking_step_witness :
  ∃ s',
    accepted (UpdateAppointment 0%N (notes_only "bring lab results") client_c
                monday_noon) practice_back_to_back = Some s'
    ∧ size (appointment_table s') = 2%nat
    ∧ no_double_booking s'.
Proof.
  eexists. split; [vm_compute; reflexivity|]. split; [vm_compute; reflexivity|].
  apply (no_double_booking_step
           (UpdateAppointment 0%N (notes_only "bring lab results") client_c
              monday_noon) practice_back_to_back).
  - assert (Ht : appointment_table practice_back_to_back
                 = <[0%N := crud.Appointment_model_validate
                              (booking dr_a (datetime.hm 10 0) (datetime.hm 11 0))
                              client_c.1 (utc_today monday_noon)]>
                     (<[1%N := crud.Appointment_model_validate
                                 (booking dr_a (datetime.hm 11 0) (datetime.hm 12 0))
                                 client_d.1 (utc_today monday_noon)]> ∅))
      by (vm_compute; reflexivity).
    intros i j a b Hne Hi Hj _ _ _ _ [H1 H2]. rewrite Ht in Hi, Hj.
    apply lookup_two in Hi as [[-> ->]|[-> ->]];
      apply lookup_two in Hj as [[-> ->]|[-> ->]];
      first [done|vm_compute in H1; discriminate H1
            |vm_compute in H2; discriminate H2].
  - vm_compute. reflexivity.
  - intros (_ & Hst & _). discriminate Hst.
Defined.
